(** * Barrier-certificate car simulator: planner, stepper, batch runner

    A shallow embedding of [nakib-simulator/testing.py] (the headless
    simulator, the batch runner and the summary) and of the motion, the
    barrier check and the prompts of [nakib-simulator/moving_car.py].

    The Python code computes on IEEE binary64 numbers.  The embedding is
    written once, over an interface of the arithmetic the code uses, and
    is read at two instances:
    - [float], the kernel's binary64 numbers: the code as it runs, with
      rounding, infinities and NaN; every definition evaluates there;
    - [R], the real numbers: the geometry that the code approximates.
    What is stated of the code is proved for every instance, or on
    binary64 where NaN, infinities or signed zeros matter.  The real
    numbers serve for inputs on which the code departs from its
    description, for what a computed point is in exact arithmetic, and
    for the run of a car whose speed is not positive. *)

From Stdlib Require Import ZArith QArith Reals Lra Lia List Ascii String Bool Floats.
Import ListNotations.

Set Implicit Arguments.
Set Warnings "-inexact-float".

(** ** Outcomes of a Python call

    [Raise] is a Python exception.  [Timeout] is not Python: it is what a
    loop of the model answers when its fuel is used up. *)

Inductive exn : Type :=
| ZeroDivisionError
| ValueError
| KeyError
| IndexError.

Inductive res (A : Type) : Type :=
| Ret (a : A)
| Raise (e : exn)
| Timeout.

Arguments Ret {A} a.
Arguments Raise {A} e.
Arguments Timeout {A}.

Definition bind {A B : Type} (m : res A) (k : A -> res B) : res B :=
  match m with
  | Ret a => k a
  | Raise e => Raise e
  | Timeout => Timeout
  end.

Declare Scope py_scope.
Delimit Scope py_scope with py.

Notation "x <- m ;; k" := (bind m (fun x => k))
  (at level 61, m at next level, right associativity) : py_scope.
Notation "' p <- m ;; k" := (bind m (fun p => k))
  (at level 61, p pattern, m at next level, right associativity) : py_scope.

(** ** The arithmetic of the code *)

Class Float (F : Type) : Type := {
  lit : Q -> F;               (* a decimal literal of the source *)
  fadd : F -> F -> F;
  fsub : F -> F -> F;
  fmul : F -> F -> F;
  fdiv : F -> F -> F;
  fneg : F -> F;
  fsqrt : F -> F;
  fltb : F -> F -> bool;      (* x < y *)
  fleb : F -> F -> bool;      (* x <= y *)
  feqb : F -> F -> bool;      (* x == y *)
  flt_inf : F -> bool         (* x < float('inf') *)
}.

Notation "x + y" := (fadd x y) : py_scope.
Notation "x - y" := (fsub x y) : py_scope.
Notation "x * y" := (fmul x y) : py_scope.
Notation "x / y" := (fdiv x y) : py_scope.
Notation "- x" := (fneg x) : py_scope.
Notation "x <? y" := (fltb x y) (at level 70, no associativity) : py_scope.
Notation "x >? y" := (fltb y x) (at level 70, no associativity) : py_scope.
Notation "x >=? y" := (fleb y x) (at level 70, no associativity) : py_scope.
Notation "x =? y" := (feqb x y) (at level 70, no associativity) : py_scope.

(** The one fact about the order that the control flow relies on: a
    divisor that passed the guard [> 0] is not zero. *)

Class GuardedDivision (F : Type) {HF : Float F} : Prop :=
  positive_nonzero : forall x : F, fltb (lit 0) x = true -> feqb x (lit 0) = false.

Arguments GuardedDivision F {HF}.

(** *** Binary64 *)

Definition float_of_Z (z : Z) : float :=
  match z with
  | Z0 => PrimFloat.of_uint63 (Uint63.of_Z 0)
  | Zpos _ => PrimFloat.of_uint63 (Uint63.of_Z z)
  | Zneg p => PrimFloat.opp (PrimFloat.of_uint63 (Uint63.of_Z (Zpos p)))
  end.

(** A decimal literal is the quotient of two integers that binary64 holds
    exactly, and binary64 division rounds to nearest, as the literal does. *)
Definition float_lit (q : Q) : float :=
  PrimFloat.div (float_of_Z (Qnum q)) (float_of_Z (Zpos (Qden q))).

#[export] Instance float_Float : Float float := {
  lit := float_lit;
  fadd := PrimFloat.add;
  fsub := PrimFloat.sub;
  fmul := PrimFloat.mul;
  fdiv := PrimFloat.div;
  fneg := PrimFloat.opp;
  fsqrt := PrimFloat.sqrt;
  fltb := PrimFloat.ltb;
  fleb := PrimFloat.leb;
  feqb := PrimFloat.eqb;
  flt_inf := fun x => PrimFloat.ltb x infinity
}.

(** *** Real numbers *)

Definition Rltb (x y : R) : bool := if Rlt_dec x y then true else false.
Definition Rleb (x y : R) : bool := if Rle_dec x y then true else false.
Definition Reqb (x y : R) : bool := if Req_dec_T x y then true else false.

#[export] Instance R_Float : Float R := {
  lit := Q2R;
  fadd := Rplus;
  fsub := Rminus;
  fmul := Rmult;
  fdiv := Rdiv;
  fneg := Ropp;
  fsqrt := R_sqrt.sqrt;
  fltb := Rltb;
  fleb := Rleb;
  feqb := Reqb;
  flt_inf := fun _ => true
}.

(** ** Points: numpy arrays of two numbers *)

Section Geometry.

Context {F : Type} `{Float F}.
Local Open Scope py_scope.

Definition vec : Type := (F * F)%type.

Definition vadd (a b : vec) : vec := (fst a + fst b, snd a + snd b).
Definition vsub (a b : vec) : vec := (fst a - fst b, snd a - snd b).
(* array * number, number * array, array / number *)
Definition vscale (a : vec) (k : F) : vec := (fst a * k, snd a * k).
Definition vscale_l (k : F) (a : vec) : vec := (k * fst a, k * snd a).
Definition vquot (a : vec) (k : F) : vec := (fst a / k, snd a / k).

(** [np.dot], [np.linalg.norm] and [np.sign].  Each product is rounded
    before the sum; numpy may fuse the second product with the sum, and
    its value on binary64 can then differ from this one in the last
    place. *)
Definition dot (a b : vec) : F := fst a * fst b + snd a * snd b.
Definition norm (a : vec) : F := fsqrt (dot a a).
Definition sign (x : F) : F :=
  if x >? lit 0 then lit 1
  else if x <? lit 0 then - lit 1
  else if x =? lit 0 then lit 0
  else x.

(* np.array_equal on two points *)
Definition vec_eqb (a b : vec) : bool := (fst a =? fst b) && (snd a =? snd b).

(** Division of an array by a number.  numpy answers a division by zero
    with a warning and inf/nan entries; the model is stricter and counts
    it as an error, so that its absence is something to prove. *)
Definition vdiv (a : vec) (k : F) : res vec :=
  if k =? lit 0 then Raise ZeroDivisionError else Ret (vquot a k).

(** The source's idiom
    [if np.linalg.norm(v) > 0: v = v / np.linalg.norm(v)]. *)
Definition unit_if_nonzero (v : vec) : res vec :=
  if norm v >? lit 0 then vdiv v (norm v) else Ret v.

End Geometry.

Arguments vec F : clear implicits.

(** What [get_distance_to_obstacles] returns and [min_distance_observed]
    holds: [float('inf')], or a number computed from the positions. *)
Inductive distance (F : Type) : Type :=
| Inf
| Dist (d : F).

Arguments Inf {F}.
Arguments Dist {F} d.

Section Distance.

Context {F : Type} `{Float F}.
Local Open Scope py_scope.

(* d < x, for a number x *)
Definition dist_ltb (d : distance F) (x : F) : bool :=
  match d with
  | Inf => false
  | Dist d => d <? x
  end.

(* min(a, b): b when b < a, else a *)
Definition dist_min (a b : distance F) : distance F :=
  match b, a with
  | Inf, _ => a
  | Dist y, Inf => if flt_inf y then b else a
  | Dist y, Dist x => if y <? x then b else a
  end.

End Distance.

Inductive SafetyState : Type := SAFE | MILD_UNSAFE | UNSAFE.

Definition SafetyState_eqb (a b : SafetyState) : bool :=
  match a, b with
  | SAFE, SAFE | MILD_UNSAFE, MILD_UNSAFE | UNSAFE, UNSAFE => true
  | _, _ => false
  end.

(** ** Built-in functions *)

Section Builtins.

Context {F : Type} `{Float F}.
Local Open Scope py_scope.

(** [min(xs)] and [min(xs, key=f)]: the first least element, found with [<];
    [ValueError] on an empty sequence.  [max(a, b)] likewise keeps [a]
    unless [b > a]. *)
Definition py_min_by {A K : Type} (ltb : K -> K -> bool) (key : A -> K)
    (xs : list A) : res A :=
  match xs with
  | [] => Raise ValueError
  | x :: rest =>
      Ret (fold_left (fun best y => if ltb (key y) (key best) then y else best) rest x)
  end.

Definition py_max (a b : F) : F := if b >? a then b else a.

End Builtins.

(* l[i] *)
Definition index {A : Type} (l : list A) (i : nat) : res A :=
  match nth_error l i with
  | Some x => Ret x
  | None => Raise IndexError
  end.

(** ** class HeadlessCarSimulator *)

Module HeadlessCarSimulator.

Section Planner.

Context {F : Type} `{Float F}.
Local Open Scope py_scope.

(** *** [ensure_safe_point] *)

(** The body of the loop over the obstacles. *)
Definition push_away (barrier_distance : F) (safe_point obstacle : vec F) : res (vec F) :=
  let distance := norm (vsub safe_point obstacle) in
  if distance <? barrier_distance then
    let direction_away := vsub safe_point obstacle in
    direction_away <- unit_if_nonzero direction_away ;;
    Ret (vadd obstacle (vscale (vscale direction_away barrier_distance) (lit 1.1)))
  else Ret safe_point.

Fixpoint ensure_safe_from (obstacles : list (vec F)) (barrier_distance : F)
    (safe_point : vec F) : res (vec F) :=
  match obstacles with
  | [] => Ret safe_point
  | obstacle :: rest =>
      safe_point <- push_away barrier_distance safe_point obstacle ;;
      ensure_safe_from rest barrier_distance safe_point
  end.

Definition ensure_safe_point (obstacle_positions : list (vec F)) (barrier_distance : F)
    (point : vec F) : res (vec F) :=
  ensure_safe_from obstacle_positions barrier_distance point.

(** *** [calculate_safe_path] *)

(** [if np.linalg.norm(p - current_pos) > 0.1: path.append(p); current_pos = p] *)
Definition append_if_far (st : list (vec F) * vec F) (p : vec F) : list (vec F) * vec F :=
  let '(path, current_pos) := st in
  if norm (vsub p current_pos) >? lit 0.1 then (path ++ [p], p) else (path, current_pos).

(** The body of the loop over the obstacles; the state is [(path, current_pos)]. *)
Definition plan_around (start_point end_point : vec F) (obstacle_positions : list (vec F))
    (barrier_distance : F) (st : list (vec F) * vec F) (obstacle : vec F)
    : res (list (vec F) * vec F) :=
  let to_obstacle := vsub obstacle (snd st) in
  let obstacle_dist := norm to_obstacle in
  let main_direction := vsub end_point start_point in
  main_direction <- unit_if_nonzero main_direction ;;
  let perp : vec F := (- snd main_direction, fst main_direction) in
  let side1 := vadd obstacle (vscale (vscale perp barrier_distance) (lit 1.5)) in
  let side2 := vsub obstacle (vscale (vscale perp barrier_distance) (lit 1.5)) in
  let dist1 := norm (vsub end_point side1) in
  let dist2 := norm (vsub end_point side2) in
  let best_side := if dist1 <? dist2 then side1 else side2 in
  let safe_distance := barrier_distance * lit 1.2 in
  let approach_point :=
    vadd (vsub obstacle (vscale main_direction safe_distance))
         (vscale (vscale perp (sign (dot perp (vsub best_side obstacle)))) safe_distance) in
  approach_point <- ensure_safe_point obstacle_positions barrier_distance approach_point ;;
  avoidance_point <- ensure_safe_point obstacle_positions barrier_distance best_side ;;
  Ret (append_if_far (append_if_far st approach_point) avoidance_point).

Fixpoint plan_obstacles (start_point end_point : vec F) (obstacle_positions : list (vec F))
    (barrier_distance : F) (todo : list (vec F)) (st : list (vec F) * vec F)
    : res (list (vec F) * vec F) :=
  match todo with
  | [] => Ret st
  | obstacle :: rest =>
      st <- plan_around start_point end_point obstacle_positions barrier_distance st obstacle ;;
      plan_obstacles start_point end_point obstacle_positions barrier_distance rest st
  end.

(** The last loop: drop a point that is within 0.1 of the last point kept. *)
Definition remove_duplicates (path : list (vec F)) : list (vec F) :=
  fold_left
    (fun clean_path point =>
       if (List.length clean_path =? 0)%nat
          || (norm (vsub point (last clean_path point)) >? lit 0.1)
       then clean_path ++ [point] else clean_path)
    path [].

Definition calculate_safe_path (start_point end_point : vec F)
    (obstacle_positions : list (vec F)) (barrier_distance : F) : res (list (vec F)) :=
  match obstacle_positions with
  | [] => Ret [start_point; end_point]
  | _ :: _ =>
      let path := [start_point] in
      let current_pos := start_point in
      st <- plan_obstacles start_point end_point obstacle_positions barrier_distance
                           obstacle_positions (path, current_pos) ;;
      final_point <- ensure_safe_point obstacle_positions barrier_distance end_point ;;
      let path := fst (append_if_far st final_point) in
      Ret (remove_duplicates path)
  end.

End Planner.

Section Stepper.

Context {F : Type} `{Float F}.
Local Open Scope py_scope.

Record t : Type := {
  start_point : vec F;
  end_point : vec F;
  obstacle_positions : list (vec F);
  barrier_distance : F;
  speed : F;
  current_position : vec F;
  path : list (vec F);
  current_path_index : nat;
  progress : F;
  has_reached_end : bool
}.

(* self.progress = v, and so on *)
Definition set_progress (self : t) (v : F) : t :=
  {| start_point := start_point self; end_point := end_point self;
     obstacle_positions := obstacle_positions self;
     barrier_distance := barrier_distance self; speed := speed self;
     current_position := current_position self; path := path self;
     current_path_index := current_path_index self;
     progress := v; has_reached_end := has_reached_end self |}.

Definition set_current_path_index (self : t) (v : nat) : t :=
  {| start_point := start_point self; end_point := end_point self;
     obstacle_positions := obstacle_positions self;
     barrier_distance := barrier_distance self; speed := speed self;
     current_position := current_position self; path := path self;
     current_path_index := v;
     progress := progress self; has_reached_end := has_reached_end self |}.

Definition set_has_reached_end (self : t) (v : bool) : t :=
  {| start_point := start_point self; end_point := end_point self;
     obstacle_positions := obstacle_positions self;
     barrier_distance := barrier_distance self; speed := speed self;
     current_position := current_position self; path := path self;
     current_path_index := current_path_index self;
     progress := progress self; has_reached_end := v |}.

Definition set_current_position (self : t) (v : vec F) : t :=
  {| start_point := start_point self; end_point := end_point self;
     obstacle_positions := obstacle_positions self;
     barrier_distance := barrier_distance self; speed := speed self;
     current_position := v; path := path self;
     current_path_index := current_path_index self;
     progress := progress self; has_reached_end := has_reached_end self |}.

(** [__init__] *)
Definition init (start_point end_point : vec F) (obstacle_positions : list (vec F))
    (barrier_distance speed : F) : res t :=
  path <- calculate_safe_path start_point end_point obstacle_positions barrier_distance ;;
  Ret {| start_point := start_point; end_point := end_point;
         obstacle_positions := obstacle_positions;
         barrier_distance := barrier_distance; speed := speed;
         current_position := start_point; path := path;
         current_path_index := 0;
         progress := lit 0; has_reached_end := false |}.

(* self.current_path_index >= len(self.path) - 1, and its < *)
Definition at_last_boundary (self : t) : bool :=
  (Z.of_nat (current_path_index self) >=? Z.of_nat (List.length (path self)) - 1)%Z.

Definition before_last_boundary (self : t) : bool :=
  (Z.of_nat (current_path_index self) <? Z.of_nat (List.length (path self)) - 1)%Z.

(** [step]: the car after the call, and the value returned. *)
Definition step (self : t) : res (t * bool) :=
  if has_reached_end self then Ret (self, false)
  else if before_last_boundary self then
    segment_start <- index (path self) (current_path_index self) ;;
    segment_end <- index (path self) (current_path_index self + 1) ;;
    let self := set_progress self (progress self + speed self) in
    let self :=
      if progress self >=? lit 1 then
        let self := set_progress self (lit 0) in
        let self := set_current_path_index self (current_path_index self + 1) in
        if at_last_boundary self then set_has_reached_end self true else self
      else self in
    let self :=
      if negb (has_reached_end self) then
        set_current_position self
          (vadd segment_start (vscale_l (progress self) (vsub segment_end segment_start)))
      else self in
    Ret (self, negb (has_reached_end self))
  else Ret (self, negb (has_reached_end self)).

(** [get_distance_to_obstacles] *)
Definition get_distance_to_obstacles (self : t) : res (distance F) :=
  match obstacle_positions self with
  | [] => Ret Inf
  | _ :: _ =>
      let distances :=
        map (fun obstacle => norm (vsub (current_position self) obstacle))
            (obstacle_positions self) in
      d <- py_min_by fltb (fun d => d) distances ;;
      Ret (Dist d)
  end.

(** The three-way test of [get_safety_state] on the distance. *)
Definition classify (barrier_distance : F) (distance : distance F) : SafetyState :=
  let obstacle_radius := lit 0.5 in
  if dist_ltb distance obstacle_radius then UNSAFE
  else if dist_ltb distance barrier_distance then MILD_UNSAFE
  else SAFE.

(** [get_safety_state] *)
Definition get_safety_state (self : t) : res SafetyState :=
  distance <- get_distance_to_obstacles self ;;
  Ret (classify (barrier_distance self) distance).

End Stepper.

Arguments t F : clear implicits.

End HeadlessCarSimulator.

(** ** class TestResult *)

Module TestResult.

Record t (F : Type) : Type := {
  test_id : Z;
  barrier_distance : F;
  total_frames : Z;
  safe_frames : Z;
  mild_unsafe_frames : Z;
  unsafe_frames : Z;
  min_distance_observed : distance F;
  description : string
}.

Definition safety_status {F : Type} (self : t F) : SafetyState :=
  if (unsafe_frames self >? 0)%Z then UNSAFE
  else if (mild_unsafe_frames self >? 0)%Z then MILD_UNSAFE
  else SAFE.

End TestResult.

(** ** class TestDataCollector *)

Module TestDataCollector.

(* one dictionary of current_test_data *)
Record FrameData (F : Type) : Type := {
  test_id : Z;
  frame : Z;
  position_x : F;
  position_y : F;
  distance_to_obstacle : distance F;
  safety_state : SafetyState;
  safety_state_text : string
}.

Record t (F : Type) : Type := {
  test_results : list (TestResult.t F);
  current_test_data : list (FrameData F)
}.

Definition init {F : Type} : t F :=
  {| test_results := []; current_test_data := [] |}.

Definition _get_safety_state_text (state : SafetyState) : string :=
  match state with
  | SAFE => "SAFE"
  | MILD_UNSAFE => "MILD_UNSAFE"
  | UNSAFE => "UNSAFE"
  end.

Definition collect_frame_data {F : Type} (self : t F) (test_id frame : Z)
    (position : vec F) (distance_to_obstacle : distance F)
    (safety_state : SafetyState) : t F :=
  {| test_results := test_results self;
     current_test_data :=
       current_test_data self ++
       [ {| test_id := test_id; frame := frame;
            position_x := fst position; position_y := snd position;
            distance_to_obstacle := distance_to_obstacle;
            safety_state := safety_state;
            safety_state_text := _get_safety_state_text safety_state |} ] |}.

(* data_collector.test_results.append(result) *)
Definition append_result {F : Type} (self : t F) (result : TestResult.t F) : t F :=
  {| test_results := test_results self ++ [result];
     current_test_data := current_test_data self |}.

End TestDataCollector.

(** ** [run_single_test] *)

Section RunSingleTest.

Context {F : Type} `{Float F}.
Local Open Scope py_scope.

(** The variables of the [while] loop. *)
Record LoopState : Type := {
  car : HeadlessCarSimulator.t F;
  safe_frames : Z;
  mild_unsafe_frames : Z;
  unsafe_frames : Z;
  min_distance_observed : distance F;
  frame_count : Z;
  data_collector : TestDataCollector.t F
}.

(** [while car.step() and frame_count < 1000: ...].  Each turn of the loop
    uses one unit of fuel; the call of [step] in the loop test changes the
    car also on the turn that leaves the loop. *)
Fixpoint simulate (fuel : nat) (test_id : Z) (st : LoopState) : res LoopState :=
  match fuel with
  | O => Timeout
  | S fuel =>
      r <- HeadlessCarSimulator.step (car st) ;;
      let car := fst r in
      if snd r && (frame_count st <? 1000)%Z then
        distance_to_obstacle <- HeadlessCarSimulator.get_distance_to_obstacles car ;;
        let min_distance_observed :=
          dist_min (min_distance_observed st) distance_to_obstacle in
        safety_state <- HeadlessCarSimulator.get_safety_state car ;;
        let counters :=
          if SafetyState_eqb safety_state SAFE then
            ((safe_frames st + 1)%Z, mild_unsafe_frames st, unsafe_frames st)
          else if SafetyState_eqb safety_state MILD_UNSAFE then
            (safe_frames st, (mild_unsafe_frames st + 1)%Z, unsafe_frames st)
          else
            (safe_frames st, mild_unsafe_frames st, (unsafe_frames st + 1)%Z) in
        let data_collector :=
          TestDataCollector.collect_frame_data (data_collector st) test_id
            (frame_count st) (HeadlessCarSimulator.current_position car)
            distance_to_obstacle safety_state in
        simulate fuel test_id
          {| car := car; safe_frames := fst (fst counters);
             mild_unsafe_frames := snd (fst counters);
             unsafe_frames := snd counters;
             min_distance_observed := min_distance_observed;
             frame_count := (frame_count st + 1)%Z;
             data_collector := data_collector |}
      else
        Ret {| car := car; safe_frames := safe_frames st;
               mild_unsafe_frames := mild_unsafe_frames st;
               unsafe_frames := unsafe_frames st;
               min_distance_observed := min_distance_observed st;
               frame_count := frame_count st;
               data_collector := data_collector st |}
  end.

(** The function up to the end of its loop. *)
Definition run_single_test_loop (fuel : nat) (test_id : Z) (start_point end_point : vec F)
    (obstacle_positions : list (vec F)) (barrier_distance speed : F)
    (data_collector : TestDataCollector.t F) : res LoopState :=
  car <- HeadlessCarSimulator.init start_point end_point obstacle_positions
           barrier_distance speed ;;
  simulate fuel test_id
    {| car := car; safe_frames := 0; mild_unsafe_frames := 0; unsafe_frames := 0;
       min_distance_observed := Inf; frame_count := 0;
       data_collector := data_collector |}.

(** The result returned, and the collector as the call leaves it. *)
Definition run_single_test (fuel : nat) (test_id : Z) (start_point end_point : vec F)
    (obstacle_positions : list (vec F)) (barrier_distance speed : F)
    (data_collector : TestDataCollector.t F) (description : string)
    : res (TestResult.t F * TestDataCollector.t F) :=
  st <- run_single_test_loop fuel test_id start_point end_point obstacle_positions
          barrier_distance speed data_collector ;;
  Ret ({| TestResult.test_id := test_id;
          TestResult.barrier_distance := barrier_distance;
          TestResult.total_frames := frame_count st;
          TestResult.safe_frames := safe_frames st;
          TestResult.mild_unsafe_frames := mild_unsafe_frames st;
          TestResult.unsafe_frames := unsafe_frames st;
          TestResult.min_distance_observed := min_distance_observed st;
          TestResult.description := description |},
       RunSingleTest.data_collector st).

End RunSingleTest.

Arguments LoopState F : clear implicits.

(** ** [generate_test_summary] *)

Section Summary.

Context {F : Type} `{Float F}.
Local Open Scope py_scope.

(* sum(1 for r in results if r.safety_status == s) *)
Definition count_status (s : SafetyState) (results : list (TestResult.t F)) : Z :=
  Z.of_nat (List.length
    (filter (fun r => SafetyState_eqb (TestResult.safety_status r) s) results)).

(* a/b*100 on two ints *)
Definition percentage (a b : Z) : res F :=
  if (b =? 0)%Z then Raise ZeroDivisionError
  else Ret (lit (inject_Z a) / lit (inject_Z b) * lit 100).

(** [grouped_results[result.description].append(result)]: a dictionary
    keeps its keys in the order of their first insertion. *)
Fixpoint group_append (grouped_results : list (string * list (TestResult.t F)))
    (result : TestResult.t F) : list (string * list (TestResult.t F)) :=
  match grouped_results with
  | [] => [(TestResult.description result, [result])]
  | (description, results) :: rest =>
      if String.eqb description (TestResult.description result)
      then (description, results ++ [result]) :: rest
      else (description, results) :: group_append rest result
  end.

Definition group_by_description (test_results : list (TestResult.t F))
    : list (string * list (TestResult.t F)) :=
  fold_left group_append test_results [].

(** The line printed about the best barrier distance of a group. *)
Inductive Recommendation : Type :=
| Optimal (barrier_distance : F)
| Best (barrier_distance : F) (unsafe_frames : Z).

Definition find_optimal (results : list (TestResult.t F)) : res Recommendation :=
  let safe_tests :=
    filter (fun r => SafetyState_eqb (TestResult.safety_status r) SAFE) results in
  match safe_tests with
  | _ :: _ =>
      optimal <- py_min_by fltb (fun x => TestResult.barrier_distance x) safe_tests ;;
      Ret (Optimal (TestResult.barrier_distance optimal))
  | [] =>
      best_test <- py_min_by Z.ltb (fun x => TestResult.unsafe_frames x) results ;;
      Ret (Best (TestResult.barrier_distance best_test)
                (TestResult.unsafe_frames best_test))
  end.

Record Counts : Type := {
  safe_count : Z;
  mild_unsafe_count : Z;
  unsafe_count : Z;
  total_count : Z;
  safe_percent : F;
  mild_unsafe_percent : F;
  unsafe_percent : F
}.

Definition count_all (results : list (TestResult.t F)) : res Counts :=
  let safe_count := count_status SAFE results in
  let mild_unsafe_count := count_status MILD_UNSAFE results in
  let unsafe_count := count_status UNSAFE results in
  let total_count := Z.of_nat (List.length results) in
  p1 <- percentage safe_count total_count ;;
  p2 <- percentage mild_unsafe_count total_count ;;
  p3 <- percentage unsafe_count total_count ;;
  Ret {| safe_count := safe_count; mild_unsafe_count := mild_unsafe_count;
         unsafe_count := unsafe_count; total_count := total_count;
         safe_percent := p1; mild_unsafe_percent := p2; unsafe_percent := p3 |}.

(** What is printed for one configuration. *)
Record GroupReport : Type := {
  configuration : string;
  counts : Counts;
  recommendation : Recommendation
}.

Definition report_group (g : string * list (TestResult.t F)) : res GroupReport :=
  let '(description, results) := g in
  c <- count_all results ;;
  r <- find_optimal results ;;
  Ret {| configuration := description; counts := c; recommendation := r |}.

Fixpoint report_groups (groups : list (string * list (TestResult.t F)))
    : res (list GroupReport) :=
  match groups with
  | [] => Ret []
  | g :: rest =>
      r <- report_group g ;;
      rs <- report_groups rest ;;
      Ret (r :: rs)
  end.

(** What the whole report prints. *)
Record Summary : Type := {
  groups : list GroupReport;
  overall : Counts;
  overall_optimal : option F
}.

Definition generate_test_summary (test_results : list (TestResult.t F)) : res Summary :=
  let grouped_results := group_by_description test_results in
  gs <- report_groups grouped_results ;;
  c <- count_all test_results ;;
  let safe_tests :=
    filter (fun r => SafetyState_eqb (TestResult.safety_status r) SAFE) test_results in
  match safe_tests with
  | _ :: _ =>
      overall_optimal <-
        py_min_by fltb (fun x => TestResult.barrier_distance x) safe_tests ;;
      Ret {| groups := gs; overall := c;
             overall_optimal := Some (TestResult.barrier_distance overall_optimal) |}
  | [] => Ret {| groups := gs; overall := c; overall_optimal := None |}
  end.

End Summary.

Arguments Recommendation F : clear implicits.
Arguments Counts F : clear implicits.
Arguments GroupReport F : clear implicits.
Arguments Summary F : clear implicits.

(** ** [run_tests_from_csv] and the prompts *)

Section Batch.

Context {F : Type} `{Float F}.

(** Python's [float] on a string; [None] stands for its [ValueError]. *)
Variable float_of_string : string -> option F.

Local Open Scope py_scope.

(** A row of [csv.DictReader]: column name and text.  A row holds a text
    for each of its columns: the fields of a line shorter than the header,
    for which [csv.DictReader] stores [None], are not represented. *)
Definition Row : Type := list (string * string).

Fixpoint lookup (test : Row) (key : string) : option string :=
  match test with
  | [] => None
  | (k, v) :: rest => if String.eqb k key then Some v else lookup rest key
  end.

(* test[key] *)
Definition getitem (test : Row) (key : string) : res string :=
  match lookup test key with
  | Some v => Ret v
  | None => Raise KeyError
  end.

(* test.get(key, default) *)
Definition get (test : Row) (key default : string) : string :=
  match lookup test key with
  | Some v => v
  | None => default
  end.

(* float(text) *)
Definition parse_float (text : string) : res F :=
  match float_of_string text with
  | Some x => Ret x
  | None => Raise ValueError
  end.

(** The body of the loop over the rows: the collector as the turn leaves
    it, and how the turn ended.  The row is one that [Row] holds: no field
    is [None], so [float] is applied to texts only. *)
Definition run_row (fuel : nat) (i : nat) (test : Row)
    (data_collector : TestDataCollector.t F) : TestDataCollector.t F * res unit :=
  let description := get test "description" "No description" in
  let parsed :=
    _ <- getitem test "barrier_distance" ;;
    _ <- getitem test "obstacle_x" ;;
    _ <- getitem test "obstacle_y" ;;
    start_x <- bind (getitem test "start_x") parse_float ;;
    start_y <- bind (getitem test "start_y") parse_float ;;
    end_x <- bind (getitem test "end_x") parse_float ;;
    end_y <- bind (getitem test "end_y") parse_float ;;
    obstacle_x <- bind (getitem test "obstacle_x") parse_float ;;
    obstacle_y <- bind (getitem test "obstacle_y") parse_float ;;
    barrier_distance <- bind (getitem test "barrier_distance") parse_float ;;
    speed <- match lookup test "speed" with
             | Some text => parse_float text
             | None => Ret (lit 0.02)
             end ;;
    Ret ((start_x, start_y), (end_x, end_y), [(obstacle_x, obstacle_y)],
         barrier_distance, speed) in
  match parsed with
  | Ret (start_point, end_point, obstacle_positions, barrier_distance, speed) =>
      match run_single_test fuel (Z.of_nat i + 1) start_point end_point
              obstacle_positions barrier_distance speed data_collector description with
      | Ret (result, data_collector) =>
          (TestDataCollector.append_result data_collector result, Ret tt)
      | Raise e => (data_collector, Raise e)
      | Timeout => (data_collector, Timeout)
      end
  | Raise e => (data_collector, Raise e)
  | Timeout => (data_collector, Timeout)
  end.

(** [for i, test in enumerate(tests)]: an exception leaves the loop. *)
Fixpoint run_rows (fuel : nat) (i : nat) (tests : list Row)
    (data_collector : TestDataCollector.t F) : TestDataCollector.t F * res unit :=
  match tests with
  | [] => (data_collector, Ret tt)
  | test :: rest =>
      match run_row fuel i test data_collector with
      | (data_collector, Ret _) => run_rows fuel (S i) rest data_collector
      | (data_collector, Raise e) => (data_collector, Raise e)
      | (data_collector, Timeout) => (data_collector, Timeout)
      end
  end.

(** What a call of [run_tests_from_csv] leaves behind: the tests run (their
    "Result" lines), the two files once they are written, the report once
    it is printed, and the message of the [except] clause when an
    exception ended the [try] block. *)
Record BatchRun : Type := {
  results : list (TestResult.t F);
  saved : option (list (TestResult.t F) * list (TestDataCollector.FrameData F));
  summary : option (Summary F);
  error : option exn
}.

(** [run_tests_from_csv], from the rows that [csv.DictReader] read.  The
    writing of the two files is recorded, not performed; the plots of
    [generate_test_visualization], which follow the report, are left out. *)
Definition run_tests_from_csv (fuel : nat) (tests : list Row) : res BatchRun :=
  let data_collector := TestDataCollector.init in
  match run_rows fuel 0 tests data_collector with
  | (data_collector, Ret _) =>
      let saved :=
        Some (TestDataCollector.test_results data_collector,
              TestDataCollector.current_test_data data_collector) in
      match generate_test_summary (TestDataCollector.test_results data_collector) with
      | Ret summary =>
          Ret {| results := TestDataCollector.test_results data_collector;
                 saved := saved; summary := Some summary; error := None |}
      | Raise e =>
          Ret {| results := TestDataCollector.test_results data_collector;
                 saved := saved; summary := None; error := Some e |}
      | Timeout => Timeout
      end
  | (data_collector, Raise e) =>
      Ret {| results := TestDataCollector.test_results data_collector;
             saved := None; summary := None; error := Some e |}
  | (_, Timeout) => Timeout
  end.

(** [get_barrier_distance] of moving_car.py, from the text typed. *)
Definition get_barrier_distance (typed : string) : F :=
  match parse_float typed with
  | Ret barrier_dist => py_max (lit 0.5) barrier_dist
  | _ => lit 1.5
  end.

End Batch.

Arguments BatchRun F : clear implicits.

(** ** Reading decimal text

    An instance of Python's [float] on strings, enough to run batches:
    an optional sign, digits, at most one point.  (Python's [float] also
    reads exponents, blanks and the names of the special values.) *)

Definition digit_of_ascii (c : Ascii.ascii) : option Z :=
  let n := Z.of_nat (Ascii.nat_of_ascii c) in
  if ((48 <=? n) && (n <=? 57))%Z then Some (n - 48)%Z else None.

Fixpoint scan_decimal (text : string) (seen_point : bool) (num : Z) (den : positive)
    (digits : nat) : option Q :=
  match text with
  | EmptyString => if (digits =? 0)%nat then None else Some (num # den)
  | String c rest =>
      if Ascii.eqb c "."%char then
        if seen_point then None else scan_decimal rest true num den digits
      else
        match digit_of_ascii c with
        | Some d =>
            scan_decimal rest seen_point (10 * num + d)%Z
              (if seen_point then (10 * den)%positive else den) (S digits)
        | None => None
        end
  end.

Definition decimal_of_string (text : string) : option Q :=
  match text with
  | String c rest =>
      if Ascii.eqb c "-"%char then option_map Qopp (scan_decimal rest false 0 1 0)
      else scan_decimal text false 0 1 0
  | EmptyString => None
  end.

Definition read_decimal {F : Type} `{Float F} (text : string) : option F :=
  option_map lit (decimal_of_string text).

(** On binary64 the special values can be typed as well. *)
Definition read_float (text : string) : option float :=
  if String.eqb text "nan" then Some nan
  else if String.eqb text "inf" then Some infinity
  else if String.eqb text "-inf" then Some neg_infinity
  else read_decimal text.


(** ** moving_car.py: the animated car and the prompts *)

Module MovingCar.

Section Motion.

Context {F : Type} `{Float F}.
Local Open Scope py_scope.

(** [is_too_close_to_obstacle]: the loop over [enumerate(obstacle_positions)],
    from index [i] on; the value returned, without the messages. *)
Fixpoint is_too_close_from (i : Z) (obstacles : list (vec F)) (barrier_distance : F)
    (position : vec F) : bool * Z :=
  match obstacles with
  | [] => (false, (-1)%Z)
  | obstacle :: rest =>
      let distance := norm (vsub position obstacle) in
      if distance <? barrier_distance then (true, i)
      else is_too_close_from (i + 1)%Z rest barrier_distance position
  end.

Definition is_too_close_to_obstacle (self : HeadlessCarSimulator.t F)
    (position : vec F) : bool * Z :=
  is_too_close_from 0 (HeadlessCarSimulator.obstacle_positions self)
    (HeadlessCarSimulator.barrier_distance self) position.

(** [update], on the fields that the motion reads and writes; [__init__]
    sets them as [HeadlessCarSimulator.__init__] does.  The drawing, the
    messages and the list of visited waypoints, which the motion never
    reads, are left out. *)
Definition update (self : HeadlessCarSimulator.t F) : res (HeadlessCarSimulator.t F) :=
  if negb (HeadlessCarSimulator.has_reached_end self) then
    if HeadlessCarSimulator.before_last_boundary self then
      segment_start <-
        index (HeadlessCarSimulator.path self)
              (HeadlessCarSimulator.current_path_index self) ;;
      segment_end <-
        index (HeadlessCarSimulator.path self)
              (HeadlessCarSimulator.current_path_index self + 1) ;;
      let self :=
        HeadlessCarSimulator.set_progress self
          (HeadlessCarSimulator.progress self + HeadlessCarSimulator.speed self) in
      let self :=
        if HeadlessCarSimulator.progress self >=? lit 1 then
          let self := HeadlessCarSimulator.set_progress self (lit 0) in
          let self :=
            HeadlessCarSimulator.set_current_path_index self
              (HeadlessCarSimulator.current_path_index self + 1) in
          if HeadlessCarSimulator.at_last_boundary self
          then HeadlessCarSimulator.set_has_reached_end self true else self
        else self in
      if negb (HeadlessCarSimulator.has_reached_end self) then
        Ret (HeadlessCarSimulator.set_current_position self
               (vadd segment_start
                  (vscale_l (HeadlessCarSimulator.progress self)
                     (vsub segment_end segment_start))))
      else Ret self
    else
      let self := HeadlessCarSimulator.set_has_reached_end self true in
      Ret (HeadlessCarSimulator.set_current_position self
             (HeadlessCarSimulator.end_point self))
  else Ret self.

(* min(a, b): b when b < a, else a *)
Definition py_min (a b : F) : F := if b <? a then b else a.

(** [get_speed], from the text typed: [float(input(...) or "0.02")], then
    [max(0.001, min(0.1, speed))]; 0.02 on a [ValueError]. *)
Definition get_speed (float_of_string : string -> option F) (typed : string) : F :=
  let text := if String.eqb typed "" then "0.02"%string else typed in
  match parse_float float_of_string text with
  | Ret speed => py_max (lit 0.001) (py_min (lit 0.1) speed)
  | _ => lit 0.02
  end.

End Motion.

End MovingCar.

(** * Vocabulary of the statements *)

Section Vocabulary.

Context {F : Type} {HF : Float F}.

Import HeadlessCarSimulator.

(** A point that [ensure_safe_point] returned, and a state
    [(path, current_pos)] of the planner whose path is the start point
    followed by such points. *)
Definition corrected (obs : list (vec F)) (b : F) (q : vec F) : Prop :=
  exists p, ensure_safe_point obs b p = Ret q.

Definition planned (s : vec F) (obs : list (vec F)) (b : F) (st : list (vec F) * vec F) : Prop :=
  exists rest, fst st = s :: rest /\ Forall (corrected obs b) rest.

(** The invariant of the loop of [run_single_test]: the three counters add
    up to the frame count, which stays within the cap. *)
Definition counted (st : LoopState F) : Prop :=
  (safe_frames st + mild_unsafe_frames st + unsafe_frames st = frame_count st)%Z /\
  (0 <= safe_frames st)%Z /\ (0 <= mild_unsafe_frames st)%Z /\
  (0 <= unsafe_frames st)%Z /\ (frame_count st <= 1000)%Z.

Definition total_frames_of (r : res (TestResult.t F * TestDataCollector.t F))
    : option Z :=
  match r with
  | Ret (result, _) => Some (TestResult.total_frames result)
  | _ => None
  end.

End Vocabulary.

(** [first_least lt key xs m]: [m] is an element of [xs], every element
    before it has a greater key, and no element after it has a smaller one. *)
Definition first_least {A K : Type} (lt : K -> K -> Prop) (key : A -> K)
    (xs : list A) (m : A) : Prop :=
  exists pre post,
    xs = pre ++ m :: post /\
    (forall s, In s pre -> lt (key m) (key s)) /\
    (forall s, In s post -> ~ lt (key s) (key m)).

Section RealVocabulary.

Local Open Scope R_scope.

(* d >= x, with float('inf') above every number *)
Definition dist_ge (d : distance R) (x : R) : Prop :=
  match d with
  | Inf => True
  | Dist r => x <= r
  end.

End RealVocabulary.

(** The columns a row must have, and those read as numbers. *)
Definition required_columns : list string :=
  ["barrier_distance"; "obstacle_x"; "obstacle_y"; "start_x"; "start_y";
   "end_x"; "end_y"]%string.

Definition numeric_columns : list string :=
  ["start_x"; "start_y"; "end_x"; "end_y"; "obstacle_x"; "obstacle_y";
   "barrier_distance"; "speed"]%string.

(** A row of the sample file of data_generator.py, with three of its
    fields left open. *)
Definition csv_row (start_x barrier_distance speed : string) : Row :=
  [ ("test_id", "1"); ("start_x", start_x); ("start_y", "0"); ("end_x", "10");
    ("end_y", "8"); ("obstacle_x", "5"); ("obstacle_y", "4");
    ("barrier_distance", barrier_distance); ("speed", speed);
    ("description", "Single obstacle at (5,4)") ]%string.

(** ** Vocabulary of the further statements *)

(** The integers [start], [start + 1], ..., [n] of them. *)
Fixpoint zseq (start : Z) (n : nat) : list Z :=
  match n with
  | O => []
  | S n => start :: zseq (start + 1) n
  end.

Section FurtherVocabulary.

Context {F : Type} {HF : Float F}.

(** [n] calls of [step], one after the other. *)
Fixpoint steps (n : nat) (c : HeadlessCarSimulator.t F) : res (HeadlessCarSimulator.t F) :=
  match n with
  | O => Ret c
  | S n => bind (HeadlessCarSimulator.step c) (fun r => steps n (fst r))
  end.

(** The number of frame records with a given state. *)
Definition count_state (s : SafetyState) (frames : list (TestDataCollector.FrameData F)) : Z :=
  Z.of_nat (List.length
    (filter (fun f => SafetyState_eqb (TestDataCollector.safety_state f) s) frames)).

(** Two consecutive points of a path are more than 0.1 apart. *)
Fixpoint spaced (path : list (vec F)) : Prop :=
  match path with
  | [] => True
  | p :: rest =>
      match rest with
      | [] => True
      | q :: _ => fltb (lit 0.1) (norm (vsub q p)) = true /\ spaced rest
      end
  end.

(** A row has the seven columns that are read, all of them numbers, and a
    number in its speed column when it has one. *)
Definition well_formed (float_of_string : string -> option F) (test : Row) : Prop :=
  (forall k, In k required_columns ->
     exists text x, lookup test k = Some text /\ float_of_string text = Some x) /\
  (forall text, lookup test "speed" = Some text ->
     exists x, float_of_string text = Some x).

End FurtherVocabulary.

(** ** Vocabulary of the statements on binary64 *)

(* x != x: the number is NaN *)
Definition is_nan (x : float) : bool := negb (PrimFloat.eqb x x).




(* the distance is NaN; float('inf') is not *)
Definition dist_is_nan (d : distance float) : bool :=
  match d with
  | Inf => false
  | Dist r => is_nan r
  end.

(* the number a distance is: float('inf') for Inf *)
Definition as_float (d : distance float) : float :=
  match d with
  | Inf => infinity
  | Dist r => r
  end.

(* d >= x and a <= b on distances *)
Definition dist_geb (d : distance float) (x : float) : bool :=
  PrimFloat.leb x (as_float d).

Definition dist_leb (a b : distance float) : bool :=
  PrimFloat.leb (as_float a) (as_float b).

(** [d] is what [min] makes of the distances computed from [pos] to the
    obstacles: infinite when there is none, else one of them, which is at
    most each of them when none of them is NaN. *)
Definition least_computed (pos : vec float) (obs : list (vec float))
    (d : distance float) : Prop :=
  match d with
  | Inf => obs = []
  | Dist r =>
      (exists o, In o obs /\ r = norm (vsub pos o)) /\
      ((forall o, In o obs -> is_nan (norm (vsub pos o)) = false) ->
       is_nan r = false /\
       forall o, In o obs -> PrimFloat.leb r (norm (vsub pos o)) = true)
  end.

(** The members of a group whose status is SAFE, as the report filters
    them, and those of a list whose barrier distance is a number. *)
Definition safe_members {F : Type} (results : list (TestResult.t F))
    : list (TestResult.t F) :=
  filter (fun r => SafetyState_eqb (TestResult.safety_status r) SAFE) results.

Definition with_number (results : list (TestResult.t float))
    : list (TestResult.t float) :=
  filter (fun r => negb (is_nan (TestResult.barrier_distance r))) results.

(** [x] is the barrier distance that [min] finds among the SAFE members
    [safe]: that of the first of them when it is NaN; otherwise that of
    the first least among those whose barrier distance is a number. *)
Definition least_safe_barrier (safe : list (TestResult.t float)) (x : float) : Prop :=
  match safe with
  | [] => False
  | s0 :: _ =>
      if is_nan (TestResult.barrier_distance s0)
      then x = TestResult.barrier_distance s0
      else
        exists m,
          first_least (fun a b => PrimFloat.ltb a b = true)
                      (fun r => TestResult.barrier_distance r) (with_number safe) m /\
          x = TestResult.barrier_distance m /\
          is_nan x = false /\
          forall s, In s safe -> is_nan (TestResult.barrier_distance s) = false ->
                    PrimFloat.leb x (TestResult.barrier_distance s) = true
  end.

(** What the report prints about the best barrier distance of a group. *)
Definition recommended (members : list (TestResult.t float))
    (rec : Recommendation float) : Prop :=
  match safe_members members with
  | [] =>
      exists m,
        first_least Z.lt (fun r => TestResult.unsafe_frames r) members m /\
        rec = Best (TestResult.barrier_distance m) (TestResult.unsafe_frames m) /\
        forall s, In s members ->
                  (TestResult.unsafe_frames m <= TestResult.unsafe_frames s)%Z
  | _ :: _ =>
      exists x, rec = Optimal x /\ least_safe_barrier (safe_members members) x
  end.

Section TurnVocabulary.

Context {F : Type} {HF : Float F}.

(** The test of the loop of [ensure_safe_point]:
    [np.linalg.norm(safe_point - obstacle) < self.barrier_distance]. *)
Definition inside_barrier (b : F) (o p : vec F) : bool :=
  fltb (norm (vsub p o)) b.



(** The counts [c] are those of [results], with the shares as the report
    computes them. *)
Definition counted_as (results : list (TestResult.t F)) (c : Counts F) : Prop :=
  total_count c = Z.of_nat (List.length results) /\
  safe_count c = count_status SAFE results /\
  mild_unsafe_count c = count_status MILD_UNSAFE results /\
  unsafe_count c = count_status UNSAFE results /\
  (safe_count c + mild_unsafe_count c + unsafe_count c = total_count c)%Z /\
  (0 <= safe_count c)%Z /\ (0 <= mild_unsafe_count c)%Z /\ (0 <= unsafe_count c)%Z /\
  safe_percent c
    = fmul (fdiv (lit (inject_Z (safe_count c))) (lit (inject_Z (total_count c))))
           (lit 100) /\
  mild_unsafe_percent c
    = fmul (fdiv (lit (inject_Z (mild_unsafe_count c))) (lit (inject_Z (total_count c))))
           (lit 100) /\
  unsafe_percent c
    = fmul (fdiv (lit (inject_Z (unsafe_count c))) (lit (inject_Z (total_count c))))
           (lit 100).

End TurnVocabulary.

(** The rows that [csv.DictReader] makes of a file with the header
    [header] when no line is shorter than the header: every row has a text
    for every column of the header, and no column name occurs twice.  (For
    a shorter line [csv.DictReader] stores [None] in the fields that are
    missing; a [Row] holds texts only.) *)
Definition full_rows (header : list string) (tests : list Row) : Prop :=
  NoDup header /\ Forall (fun row => map fst row = header) tests.

(** * Properties *)

(** ** The two instances pass the guard *)

Lemma float_lit_0 : float_lit 0 = 0%float.
Proof. reflexivity. Qed.

#[export] Instance float_GuardedDivision : GuardedDivision float.
Proof.
  intros x. cbn [lit fltb feqb float_Float]. rewrite float_lit_0.
  rewrite ltb_spec, eqb_spec.
  change (Prim2SF 0) with (S754_zero false).
  destruct (Prim2SF x) as [s | s | | s m e]; try destruct s; cbn; congruence.
Qed.

Lemma Q2R_0 : Q2R 0 = 0%R.
Proof. unfold Q2R; cbn; lra. Qed.

Lemma Rltb_true (x y : R) : Rltb x y = true <-> (x < y)%R.
Proof. unfold Rltb; destruct (Rlt_dec x y); split; intros; try easy. Qed.


Lemma Rleb_true (x y : R) : Rleb x y = true <-> (x <= y)%R.
Proof. unfold Rleb; destruct (Rle_dec x y); split; intros; try easy. Qed.

Lemma Reqb_false (x y : R) : Reqb x y = false <-> x <> y.
Proof. unfold Reqb; destruct (Req_dec_T x y); split; intros; try easy. Qed.

#[export] Instance R_GuardedDivision : GuardedDivision R.
Proof.
  intros x. cbn [lit fltb feqb R_Float]. rewrite Q2R_0.
  rewrite Rltb_true, Reqb_false. lra.
Qed.

(** ** Control flow: no call of the planner or of the stepper raises *)

Section ControlFlow.

Context {F : Type} {HF : Float F} {HG : GuardedDivision F}.
Local Open Scope py_scope.

Import HeadlessCarSimulator.

Lemma unit_if_nonzero_returns (v : vec F) :
  unit_if_nonzero v
  = Ret (if fltb (lit 0) (norm v) then vquot v (norm v) else v).
Proof.
  unfold unit_if_nonzero, vdiv.
  destruct (fltb (lit 0) (norm v)) eqn:Hpos; [| reflexivity].
  now rewrite (positive_nonzero _ Hpos).
Qed.

Lemma push_away_returns (b : F) (p o : vec F) :
  exists q, push_away b p o = Ret q.
Proof.
  unfold push_away.
  destruct (fltb (norm (vsub p o)) b); [| eauto].
  rewrite unit_if_nonzero_returns; cbn [bind]; eauto.
Qed.

Lemma ensure_safe_from_returns (obs : list (vec F)) (b : F) (p : vec F) :
  exists q, ensure_safe_from obs b p = Ret q.
Proof.
  revert p; induction obs as [| o obs IH]; intros p; cbn; [eauto |].
  destruct (push_away_returns b p o) as [q ->]; cbn. apply IH.
Qed.

Lemma ensure_safe_point_returns (obs : list (vec F)) (b : F) (p : vec F) :
  exists q, ensure_safe_point obs b p = Ret q.
Proof. apply ensure_safe_from_returns. Qed.

Lemma append_if_far_planned s obs b st q :
  planned s obs b st -> corrected obs b q -> planned s obs b (append_if_far st q).
Proof.
  intros (rest & Hst & Hall) Hq. destruct st as [path cur]; cbn in *. subst path.
  destruct (fltb (lit 0.1) (norm (vsub q cur))); cbn.
  - exists (rest ++ [q]). split; [reflexivity |].
    apply Forall_app; split; [assumption | repeat constructor; assumption].
  - exists rest; split; [reflexivity | assumption].
Qed.

Lemma plan_around_returns s e obs b st o :
  planned s obs b st ->
  exists st', plan_around s e obs b st o = Ret st' /\ planned s obs b st'.
Proof.
  intros Hst. unfold plan_around.
  rewrite unit_if_nonzero_returns; cbn [bind].
  all: match goal with
       | |- context [bind (ensure_safe_point ?l ?d ?a) _] =>
           destruct (ensure_safe_point_returns l d a) as [qa Ha]; rewrite Ha; cbn
       end.
  all: match goal with
       | |- context [bind (ensure_safe_point ?l ?d ?a) _] =>
           destruct (ensure_safe_point_returns l d a) as [qv Hv]; rewrite Hv; cbn
       end.
  all: eexists; split; [reflexivity |].
  all: apply append_if_far_planned; [apply append_if_far_planned |]; try assumption.
  all: eexists; eassumption.
Qed.

Lemma plan_obstacles_returns s e obs b todo st :
  planned s obs b st ->
  exists st', plan_obstacles s e obs b todo st = Ret st' /\ planned s obs b st'.
Proof.
  revert st; induction todo as [| o todo IH]; intros st Hst; cbn; [eauto |].
  destruct (plan_around_returns e o Hst) as (st1 & -> & H1); cbn. now apply IH.
Qed.

Lemma remove_duplicates_keeps_head (P : vec F -> Prop) s rest :
  Forall P rest ->
  exists rest', remove_duplicates (s :: rest) = s :: rest' /\ Forall P rest'.
Proof.
  intros Hrest. unfold remove_duplicates. cbn [fold_left List.length Nat.eqb orb app].
  assert (Hgen : forall todo kept, Forall P todo -> Forall P kept ->
    exists rest',
      fold_left
        (fun clean_path point =>
           if (List.length clean_path =? 0)%nat
              || fltb (lit 0.1) (norm (vsub point (last clean_path point)))
           then clean_path ++ [point] else clean_path)
        todo (s :: kept) = s :: rest' /\ Forall P rest').
  { induction todo as [| p todo IH]; intros kept Htodo Hkept; cbn [fold_left].
    - eauto.
    - inversion Htodo; subst.
      destruct ((List.length (s :: kept) =? 0)%nat
                || fltb (lit 0.1) (norm (vsub p (last (s :: kept) p)))).
      + change ((s :: kept) ++ [p]) with (s :: (kept ++ [p])).
        apply IH; [assumption |].
        apply Forall_app; split; [assumption | repeat constructor; assumption].
      + now apply IH. }
  apply (Hgen rest []); [assumption | constructor].
Qed.

(** The planner returns a path for every input; with obstacles, the path is
    the start point followed by corrected points. *)
Lemma calculate_safe_path_returns s e obs b :
  exists path, calculate_safe_path s e obs b = Ret path /\
    exists rest, path = s :: rest /\
      (obs <> [] -> Forall (corrected obs b) rest).
Proof.
  unfold calculate_safe_path. destruct obs as [| o obs'].
  - eexists; split; [reflexivity |]. eexists; split; [reflexivity |]. congruence.
  - set (obs := o :: obs').
    assert (H0 : planned s obs b ([s], s)) by (exists []; split; [reflexivity | constructor]).
    destruct (plan_obstacles_returns e obs H0) as (st & -> & Hst); cbn [bind].
    destruct (ensure_safe_point_returns obs b e) as [qe He]; rewrite He; cbn [bind].
    assert (Hq : corrected obs b qe) by (eexists; eassumption).
    destruct (append_if_far_planned (q := qe) Hst Hq) as (rest & -> & Hrest).
    destruct (remove_duplicates_keeps_head s Hrest) as (rest' & -> & Hrest').
    eexists; split; [reflexivity |]. exists rest'; split; [reflexivity | intros _; assumption].
Qed.

Lemma init_returns s e obs b spd :
  exists path,
    calculate_safe_path s e obs b = Ret path /\
    init s e obs b spd =
      Ret {| start_point := s; end_point := e; obstacle_positions := obs;
             barrier_distance := b; speed := spd; current_position := s;
             path := path; current_path_index := 0; progress := lit 0;
             has_reached_end := false |}.
Proof.
  destruct (calculate_safe_path_returns s e obs b) as (path & Hp & _).
  exists path; split; [assumption |]. unfold init. now rewrite Hp.
Qed.

End ControlFlow.

(** ** The stepper and the loop of [run_single_test] *)

Section Stepping.

Context {F : Type} {HF : Float F}.
Local Open Scope py_scope.

Import HeadlessCarSimulator.

Lemma index_in_range {A : Type} (l : list A) (i : nat) :
  (i < List.length l)%nat -> exists x, index l i = Ret x /\ nth_error l i = Some x.
Proof.
  intros Hi. unfold index. destruct (nth_error l i) as [x |] eqn:Hx; [eauto |].
  apply nth_error_None in Hx. lia.
Qed.

(** A finished car is left as it is, and [step] answers [False]. *)
Lemma step_finished_noop (c : t F) :
  has_reached_end c = true -> step c = Ret (c, false).
Proof. intros Hc. unfold step. now rewrite Hc. Qed.

(** [step] raises nothing, and answers [True] exactly when the car it
    leaves has not reached the end. *)
Lemma step_returns (c : t F) :
  exists c', step c = Ret (c', negb (has_reached_end c')).
Proof.
  unfold step. destruct (has_reached_end c) eqn:Hend.
  - exists c. now rewrite Hend.
  - destruct (before_last_boundary c) eqn:Hb.
    + unfold before_last_boundary in Hb. apply Z.ltb_lt in Hb.
      destruct (@index_in_range _ (path c) (current_path_index c)) as (x0 & -> & _); [lia |].
      destruct (@index_in_range _ (path c) (current_path_index c + 1)) as (x1 & -> & _); [lia |].
      cbn [bind]. eexists; reflexivity.
    + exists c. now rewrite Hend.
Qed.

Lemma get_distance_to_obstacles_returns (c : t F) :
  exists d, get_distance_to_obstacles c = Ret d.
Proof.
  unfold get_distance_to_obstacles.
  destruct (obstacle_positions c) as [| o obs]; [eauto |]. cbn. eauto.
Qed.

Lemma get_safety_state_returns (c : t F) :
  exists d, get_distance_to_obstacles c = Ret d /\
            get_safety_state c = Ret (classify (barrier_distance c) d).
Proof.
  destruct (get_distance_to_obstacles_returns c) as [d Hd].
  exists d; split; [assumption |]. unfold get_safety_state. now rewrite Hd.
Qed.

(** With more fuel than frames left under the cap, the loop ends. *)
Lemma simulate_returns (fuel : nat) (test_id : Z) (st : LoopState F) :
  counted st ->
  (1000 - frame_count st < Z.of_nat fuel)%Z ->
  exists st',
    simulate fuel test_id st = Ret st' /\ counted st' /\
    (has_reached_end (car st') = false -> frame_count st' = 1000%Z).
Proof.
  revert st; induction fuel as [| fuel IH]; intros st Hst Hfuel.
  - destruct Hst as (_ & _ & _ & _ & Hcap). lia.
  - cbn [simulate].
    destruct (step_returns (car st)) as [c' Hstep]. rewrite Hstep.
    cbn [bind fst snd].
    destruct (negb (has_reached_end c') && (frame_count st <? 1000)%Z) eqn:Hgo.
    + apply andb_prop in Hgo. destruct Hgo as [_ Hlt]. apply Z.ltb_lt in Hlt.
      destruct (get_safety_state_returns c') as (d & Hd & Hs).
      rewrite Hd. cbn [bind]. rewrite Hs. cbn [bind].
      apply IH.
      * destruct Hst as (Hsum & H1 & H2 & H3 & Hcap). unfold counted.
        destruct (classify (barrier_distance c') d);
          cbn [SafetyState_eqb fst snd safe_frames mild_unsafe_frames unsafe_frames
               frame_count];
          repeat split; lia.
      * cbn [frame_count]. lia.
    + eexists; split; [reflexivity |]. split.
      * exact Hst.
      * cbn [car frame_count]. intros Hmoving. rewrite Hmoving in Hgo.
        cbn [negb andb] in Hgo.
        apply Z.ltb_ge in Hgo. destruct Hst as (_ & _ & _ & _ & Hcap). lia.
Qed.

End Stepping.

(** C8: for every scenario (any speed, any start, end and obstacles, so
    also speed 0 and a path of a single point) [run_single_test] returns:
    with fuel for the 1001 calls of [step] that the loop can make, the model
    yields a TestResult.  Its [total_frames] is at most 1000, its three
    counters add up to [total_frames], and when the car has not reached the
    end as the loop is left, [total_frames] is exactly 1000. *)
Theorem run_single_test_terminates_within_cap
    {F : Type} {HF : Float F} {HG : GuardedDivision F}
    (fuel : nat) (test_id : Z) (s e : vec F) (obs : list (vec F)) (b spd : F)
    (dc : TestDataCollector.t F) (description : string) :
  (1000 < fuel)%nat ->
  exists st result,
    run_single_test_loop fuel test_id s e obs b spd dc = Ret st /\
    run_single_test fuel test_id s e obs b spd dc description
      = Ret (result, data_collector st) /\
    TestResult.total_frames result = frame_count st /\
    (TestResult.total_frames result <= 1000)%Z /\
    (TestResult.safe_frames result + TestResult.mild_unsafe_frames result
       + TestResult.unsafe_frames result = TestResult.total_frames result)%Z /\
    (HeadlessCarSimulator.has_reached_end (car st) = false ->
     TestResult.total_frames result = 1000%Z).
Proof.
  intros Hfuel.
  destruct (init_returns s e obs b spd) as (path & _ & Hinit).
  unfold run_single_test, run_single_test_loop. rewrite Hinit. cbn [bind].
  match goal with
  | |- context [simulate fuel test_id ?st0] =>
      destruct (@simulate_returns F HF fuel test_id st0) as (st & Hsim & Hcnt & Hcap)
  end.
  - unfold counted; cbn; lia.
  - cbn [frame_count]. lia.
  - exists st. eexists. rewrite Hsim. cbn [bind].
    split; [reflexivity |]. split; [reflexivity |].
    destruct Hcnt as (Hsum & _ & _ & _ & Hle). cbn.
    repeat split; assumption.
Qed.

(** The sample scenario with speed 0, with fuel 1001. *)
Lemma run_single_test_terminates_within_cap_witness :
  exists st result,
    run_single_test_loop (F := float) 1001 1 (0, 0)%float (10, 8)%float
      [(5, 4)%float] 1%float 0%float TestDataCollector.init = Ret st /\
    run_single_test 1001 1 (0, 0)%float (10, 8)%float
      [(5, 4)%float] 1%float 0%float TestDataCollector.init "stalled"
      = Ret (result, data_collector st) /\
    TestResult.total_frames result = frame_count st /\
    (TestResult.total_frames result <= 1000)%Z /\
    (TestResult.safe_frames result + TestResult.mild_unsafe_frames result
       + TestResult.unsafe_frames result = TestResult.total_frames result)%Z /\
    (HeadlessCarSimulator.has_reached_end (car st) = false ->
     TestResult.total_frames result = 1000%Z).
Proof.
  apply (run_single_test_terminates_within_cap (F := float)). lia.
Defined.

(** The runs the claim singles out, evaluated on binary64: a car of speed 0
    never leaves its first segment, and a path of one point (start, end and
    obstacle at the same place, barrier distance 0) has no segment to walk;
    both runs stop at the cap, with 1000 frames counted. *)
Example speed_zero_stops_at_cap :
  total_frames_of
    (run_single_test (F := float) 1001 1 (0, 0)%float (10, 8)%float
       [(5, 4)%float] 1%float 0%float TestDataCollector.init "stalled")
  = Some 1000%Z.
Proof. vm_compute. reflexivity. Qed.

Example single_point_path_stops_at_cap :
  HeadlessCarSimulator.calculate_safe_path (F := float)
    (0, 0)%float (0, 0)%float [(0, 0)%float] 0%float = Ret [(0, 0)%float] /\
  total_frames_of
    (run_single_test (F := float) 1001 1 (0, 0)%float (0, 0)%float
       [(0, 0)%float] 0%float (lit 0.02) TestDataCollector.init "nowhere")
  = Some 1000%Z.
Proof. split; vm_compute; reflexivity. Qed.

Example sample_scenario_completes :
  total_frames_of
    (run_single_test (F := float) 1001 1 (0, 0)%float (10, 8)%float
       [(5, 4)%float] 1%float (lit 0.02) TestDataCollector.init "sample")
  = Some 149%Z.
Proof. vm_compute. reflexivity. Qed.

(** C1: the code at start (0,0), end (10,0), one obstacle (5,0), barrier
    distance 1, speed 0.5.  The path has four points.  The second call of
    [step] brings the progress to 1.0 and enters the second segment (index
    1 of 3, not the last boundary): the position it leaves is (0,0), the
    start of the segment just left, and not (3.8, -1.2), the start of the
    segment entered. *)
Theorem step_entering_segment_jumps_back :
  exists car0 car1 car2,
    HeadlessCarSimulator.init (F := float) (0, 0)%float (10, 0)%float
      [(5, 0)%float] 1%float (lit 0.5) = Ret car0 /\
    HeadlessCarSimulator.path car0
      = [(0, 0); (3.7999999999999998, -1.2); (5, -1.5); (10, 0)]%float /\
    HeadlessCarSimulator.step car0 = Ret (car1, true) /\
    HeadlessCarSimulator.current_path_index car1 = 0%nat /\
    HeadlessCarSimulator.current_position car1
      = (1.8999999999999999, -0.59999999999999998)%float /\
    HeadlessCarSimulator.step car1 = Ret (car2, true) /\
    HeadlessCarSimulator.current_path_index car2 = 1%nat /\
    HeadlessCarSimulator.progress car2 = 0%float /\
    HeadlessCarSimulator.has_reached_end car2 = false /\
    HeadlessCarSimulator.current_position car2 = (0, 0)%float /\
    index (HeadlessCarSimulator.path car2) 1
      = Ret (3.7999999999999998, -1.2)%float.
Proof.
  do 3 eexists.
  split; [vm_compute; reflexivity |].
  split; [vm_compute; reflexivity |].
  split; [vm_compute; reflexivity |].
  split; [vm_compute; reflexivity |].
  split; [vm_compute; reflexivity |].
  split; [vm_compute; reflexivity |].
  repeat split; vm_compute; reflexivity.
Qed.

(** C4: the code at start (0,0), end (1,0), no obstacle, speed 0.5.  The
    second call of [step] reaches the end; the position it leaves is
    (0.5, 0), the point of the previous frame, not the last point (1, 0)
    of the path.  The calls after that change nothing and answer [False]. *)
Theorem step_reaching_end_stops_short :
  exists car0 car1 car2,
    HeadlessCarSimulator.init (F := float) (0, 0)%float (1, 0)%float
      [] 1%float (lit 0.5) = Ret car0 /\
    HeadlessCarSimulator.path car0 = [(0, 0)%float; (1, 0)%float] /\
    HeadlessCarSimulator.step car0 = Ret (car1, true) /\
    HeadlessCarSimulator.step car1 = Ret (car2, false) /\
    HeadlessCarSimulator.has_reached_end car1 = false /\
    HeadlessCarSimulator.has_reached_end car2 = true /\
    HeadlessCarSimulator.current_position car2 = (0.5, 0)%float /\
    vec_eqb (HeadlessCarSimulator.current_position car2)
            (last (HeadlessCarSimulator.path car2) (0, 0)%float) = false /\
    HeadlessCarSimulator.step car2 = Ret (car2, false).
Proof.
  do 3 eexists.
  split; [vm_compute; reflexivity |].
  split; [vm_compute; reflexivity |].
  split; [vm_compute; reflexivity |].
  split; [vm_compute; reflexivity |].
  repeat split; vm_compute; reflexivity.
Qed.

(** ** The geometry, on the real numbers *)

Section RealGeometry.

Local Open Scope R_scope.
Local Abbreviation sqrt := R_sqrt.sqrt.

Import HeadlessCarSimulator.

Ltac unfold_R :=
  unfold norm, dot, vadd, vsub, vscale, vscale_l, vquot in *;
  cbn [fst snd fadd fsub fmul fdiv fneg fsqrt fltb fleb feqb lit R_Float] in *.

Ltac unfold_order := cbn [lit fltb fleb feqb R_Float] in *.






(** Whenever a call of [step] completes a segment that is not the last
    one, the position it leaves is the start of the segment completed. *)
Lemma step_entering_segment_position (c : t R) (s0 s1 : vec R) :
  has_reached_end c = false ->
  nth_error (path c) (current_path_index c) = Some s0 ->
  nth_error (path c) (current_path_index c + 1) = Some s1 ->
  (current_path_index c + 2 < List.length (path c))%nat ->
  1 <= progress c + speed c ->
  exists c',
    step c = Ret (c', true) /\
    current_path_index c' = (current_path_index c + 1)%nat /\
    progress c' = 0 /\ has_reached_end c' = false /\
    current_position c' = s0.
Proof.
  intros Hend H0 H1 Hlen Hprog. unfold step, index. rewrite Hend.
  replace (before_last_boundary c) with true
    by (symmetry; unfold before_last_boundary; apply Z.ltb_lt; lia).
  rewrite H0, H1. cbn [bind progress set_progress speed].
  replace (fleb (lit 1) (fadd (progress c) (speed c))) with true.
  2:{ symmetry. unfold_order. apply Rleb_true. unfold Q2R; cbn. unfold_R. lra. }
  replace (at_last_boundary _) with false.
  2:{ symmetry. unfold at_last_boundary. cbn [current_path_index path
        set_current_path_index set_progress]. rewrite Z.geb_leb. apply Z.leb_gt. lia. }
  cbn [current_path_index progress has_reached_end
       set_current_path_index set_progress].
  rewrite Hend. cbn [negb].
  cbn [current_path_index progress has_reached_end current_position
       set_current_position set_current_path_index set_progress].
  rewrite Hend. cbn [negb].
  eexists. split; [reflexivity |].
  cbn [current_path_index progress has_reached_end current_position
       set_current_position set_current_path_index set_progress].
  split; [reflexivity |]. split; [apply Q2R_0 |]. split; [exact Hend |].
  destruct s0 as [x0 y0], s1 as [x1 y1]. unfold_R. rewrite Q2R_0. f_equal; ring.
Qed.


Lemma norm_origin_half : norm (vsub (0, 0) (1 / 2, 0)) = 1 / 2.
Proof.
  unfold_R.
  replace ((0 - 1 / 2) * (0 - 1 / 2) + (0 - 0) * (0 - 0)) with ((1 / 2) * (1 / 2)) by lra.
  apply sqrt_square. lra.
Qed.



(** The first point of a path is the start point as given: nothing moves it
    out of a barrier.  With start (0,0), end (10,0), one obstacle at (1/2,0)
    and barrier distance 1, the path begins with (0,0), which is at distance
    1/2 from the obstacle and is not on it. *)
Lemma start_inside_barrier_stays_in_path :
  exists rest,
    calculate_safe_path (0, 0) (10, 0) [(1 / 2, 0)] 1 = Ret ((0, 0) :: rest) /\
    In (0, 0) ((0, 0) :: rest) /\
    norm (vsub (0, 0) (1 / 2, 0)) < 1 /\
    (0, 0) <> (1 / 2, 0) :> vec R.
Proof.
  destruct (calculate_safe_path_returns (0, 0) (10, 0) [(1 / 2, 0)] 1)
    as (path & Hpath & rest & -> & _).
  exists rest. split; [exact Hpath |]. split; [now left |]. split.
  - rewrite norm_origin_half. lra.
  - intros H. injection H as H. lra.
Qed.



End RealGeometry.

(** ** What a turn of the correction leaves *)

Section Turns.

Context {F : Type} {HF : Float F}.

Import HeadlessCarSimulator.




End Turns.

Section Waypoints.

Import HeadlessCarSimulator.




(** On binary64 a placed point can be inside the barrier it was placed
    for.  With start (-5,0), end (1e-200,0), the obstacle (0,0) and barrier
    distance 1, the square of the offset of the end point underflows, its
    norm is computed as 0, the offset is not divided, and the last waypoint
    is 1.1 times the offset: a point that the test of the code finds
    inside the barrier. *)
Example binary64_placed_point_inside_barrier :
  calculate_safe_path (F := float) (-5, 0)%float (1e-200, 0)%float [(0, 0)%float] 1%float
  = Ret [(-5, 0); (-1.2, -1.2); (0, -1.5); (1.1000000000000001e-200, 0)]%float /\
  inside_barrier 1%float (0, 0)%float (1.1000000000000001e-200, 0)%float = true /\
  vec_eqb (1.1000000000000001e-200, 0)%float (0, 0)%float = false.
Proof. repeat split; vm_compute; reflexivity. Qed.

End Waypoints.

(** ** [min] with a key: the first least element *)

Section FirstLeast.

Context {A K : Type} (ltb : K -> K -> bool) (lt : K -> K -> Prop) (key : A -> K).

Hypothesis ltb_lt : forall a b, ltb a b = true <-> lt a b.
Hypothesis lt_trans : forall a b c, lt a b -> lt b c -> lt a c.
Hypothesis lt_below : forall a b c, lt a b -> ~ lt c b -> lt a c.

Lemma fold_first_least (rest pre : list A) (best : A) (post : list A) :
  (forall s, In s pre -> lt (key best) (key s)) ->
  (forall s, In s post -> ~ lt (key s) (key best)) ->
  first_least lt key (pre ++ best :: post ++ rest)
    (fold_left (fun best y => if ltb (key y) (key best) then y else best) rest best).
Proof.
  revert pre best post.
  induction rest as [| y rest IH]; intros pre best post Hpre Hpost; cbn [fold_left].
  - rewrite app_nil_r. exists pre, post. auto.
  - destruct (ltb (key y) (key best)) eqn:Hy.
    + apply ltb_lt in Hy.
      replace (pre ++ best :: post ++ y :: rest)
        with ((pre ++ best :: post) ++ y :: [] ++ rest)
        by (rewrite <- app_assoc; reflexivity).
      apply IH.
      * intros s Hs. apply in_app_or in Hs. destruct Hs as [Hs | [<- | Hs]].
        -- eapply lt_trans; [exact Hy | now apply Hpre].
        -- exact Hy.
        -- eapply lt_below; [exact Hy | now apply Hpost].
      * intros s [].
    + replace (pre ++ best :: post ++ y :: rest)
        with (pre ++ best :: (post ++ [y]) ++ rest)
        by (rewrite <- app_assoc; reflexivity).
      apply IH; [assumption |].
      intros s Hs. apply in_app_or in Hs. destruct Hs as [Hs | [<- | []]].
      * now apply Hpost.
      * intros Hlt. apply ltb_lt in Hlt. congruence.
Qed.

Lemma py_min_by_first_least (x : A) (rest : list A) :
  exists m, py_min_by ltb key (x :: rest) = Ret m /\ first_least lt key (x :: rest) m.
Proof.
  eexists; split; [reflexivity |].
  apply (@fold_first_least rest [] x []); intros s [].
Qed.

End FirstLeast.

(** ** Classification and aggregation *)

Section RealOrder.

Local Open Scope R_scope.

Import HeadlessCarSimulator.

Lemma Q2R_1_2 : Q2R 0.5 = 1 / 2.
Proof. unfold Q2R; cbn; lra. Qed.

(** C3, as stated, fails below the physical radius: with the obstacle at
    (3/10, 0), the car at its start (0,0) and barrier distance 1/5, the
    distance 3/10 is at least the barrier distance, yet the state is UNSAFE,
    not SAFE. *)
Lemma small_barrier_not_safe :
  exists c,
    init (0, 0) (10, 0) [(3 / 10, 0)] (1 / 5) (1 / 50) = Ret c /\
    get_distance_to_obstacles c = Ret (Dist (3 / 10)) /\
    dist_ge (Dist (3 / 10)) (barrier_distance c) /\
    get_safety_state c = Ret UNSAFE.
Proof.
  destruct (init_returns (0, 0) (10, 0) [(3 / 10, 0)] (1 / 5) (1 / 50))
    as (path & _ & Hinit).
  eexists. split; [exact Hinit |].
  assert (Hd : norm (vsub (0, 0) (3 / 10, 0)) = 3 / 10 :> R).
  { unfold norm, dot, vsub; cbn [fst snd fadd fsub fmul fsqrt R_Float].
    replace ((0 - 3 / 10) * (0 - 3 / 10) + (0 - 0) * (0 - 0))
      with ((3 / 10) * (3 / 10)) by lra.
    apply sqrt_square. lra. }
  assert (Hdist : get_distance_to_obstacles
            {| start_point := (0, 0); end_point := (10, 0);
               obstacle_positions := [(3 / 10, 0)]; barrier_distance := 1 / 5;
               speed := 1 / 50; current_position := (0, 0); path := path;
               current_path_index := 0; progress := lit 0;
               has_reached_end := false |} = Ret (Dist (3 / 10))).
  { unfold get_distance_to_obstacles, py_min_by.
    cbn [obstacle_positions current_position map fold_left bind]. now rewrite Hd. }
  split; [exact Hdist |]. split.
  - cbn [dist_ge barrier_distance]. lra.
  - unfold get_safety_state. rewrite Hdist. cbn [bind barrier_distance].
    unfold classify. cbn [dist_ltb fltb lit R_Float]. rewrite Q2R_1_2.
    replace (Rltb (3 / 10) (1 / 2)) with true; [reflexivity |].
    symmetry. apply Rltb_true. lra.
Qed.

Lemma Zlt_below (a b c : Z) : (a < b)%Z -> ~ (c < b)%Z -> (a < c)%Z.
Proof. lia. Qed.

Lemma py_min_by_Z {A : Type} (key : A -> Z) (x : A) (rest : list A) :
  exists m, py_min_by Z.ltb key (x :: rest) = Ret m /\
    first_least Z.lt key (x :: rest) m /\
    In m (x :: rest) /\ (forall s, In s (x :: rest) -> (key m <= key s)%Z).
Proof.
  destruct (@py_min_by_first_least A Z Z.ltb Z.lt key Z.ltb_lt Z.lt_trans Zlt_below x rest)
    as (m & Hm & Hleast).
  exists m. split; [exact Hm |]. split; [exact Hleast |].
  destruct Hleast as (pre & post & Hxs & Hpre & Hpost). rewrite Hxs. split.
  - apply in_or_app. right. now left.
  - intros s Hs. apply in_app_or in Hs. destruct Hs as [Hs | [<- | Hs]].
    + apply Hpre in Hs. lia.
    + lia.
    + apply Hpost in Hs. lia.
Qed.

(** The groups of the report are never empty. *)
Lemma group_append_nonempty {F : Type}
    (groups : list (string * list (TestResult.t F))) (r : TestResult.t F) :
  Forall (fun g => snd g <> []) groups ->
  Forall (fun g => snd g <> []) (group_append groups r).
Proof.
  induction groups as [| [d rs] groups IH]; intros Hall; cbn [group_append].
  - repeat constructor. discriminate.
  - inversion Hall; subst. destruct (String.eqb d (TestResult.description r)).
    + constructor; [| assumption]. cbn. now destruct rs.
    + constructor; [assumption | now apply IH].
Qed.

Lemma group_by_description_nonempty {F : Type} (test_results : list (TestResult.t F)) :
  Forall (fun g => snd g <> []) (group_by_description test_results).
Proof.
  unfold group_by_description.
  assert (Hgen : forall groups : list (string * list (TestResult.t F)),
            Forall (fun g => snd g <> []) groups ->
            Forall (fun g => snd g <> []) (fold_left (@group_append F) test_results groups)).
  { induction test_results as [| r rs IH]; intros groups Hall; cbn [fold_left].
    - exact Hall.
    - apply IH. now apply group_append_nonempty. }
  apply Hgen. constructor.
Qed.

End RealOrder.

(** ** The batch runner *)

Section BatchRunner.

Context {F : Type} {HF : Float F}.
Variable float_of_string : string -> option F.

Lemma run_rows_app (fuel i : nat) (pre rest : list Row) (dc0 dc : TestDataCollector.t F) :
  run_rows float_of_string fuel i pre dc0 = (dc, Ret tt) ->
  run_rows float_of_string fuel i (pre ++ rest) dc0
  = run_rows float_of_string fuel (i + List.length pre) rest dc.
Proof.
  revert i dc0. induction pre as [| test pre IH]; intros i dc0 Hpre.
  - cbn in Hpre. injection Hpre as ->. cbn. now rewrite Nat.add_0_r.
  - cbn [app run_rows] in *.
    destruct (run_row float_of_string fuel i test dc0) as [dc1 [[] | e |]];
      try discriminate.
    rewrite (IH (S i) dc1 Hpre). cbn [List.length]. f_equal. lia.
Qed.

(** A row that has its columns and whose text in a numeric column is not a
    number raises [ValueError], before any simulation and without touching
    the collector. *)
Lemma run_row_malformed (fuel i : nat) (bad : Row) (dc : TestDataCollector.t F)
    (key text : string) :
  (forall k, In k required_columns -> lookup bad k <> None) ->
  In key numeric_columns -> lookup bad key = Some text -> float_of_string text = None ->
  run_row float_of_string fuel i bad dc = (dc, Raise ValueError).
Proof.
  intros Hcols Hkey Htext Hbad.
  assert (Hsome : forall k, In k required_columns -> exists v, lookup bad k = Some v).
  { intros k Hk. specialize (Hcols k Hk). destruct (lookup bad k); [eauto | congruence]. }
  destruct (Hsome "barrier_distance"%string) as [vb Hvb]; [cbn; tauto |].
  destruct (Hsome "obstacle_x"%string) as [vox Hvox]; [cbn; tauto |].
  destruct (Hsome "obstacle_y"%string) as [voy Hvoy]; [cbn; tauto |].
  destruct (Hsome "start_x"%string) as [vsx Hvsx]; [cbn; tauto |].
  destruct (Hsome "start_y"%string) as [vsy Hvsy]; [cbn; tauto |].
  destruct (Hsome "end_x"%string) as [vex Hvex]; [cbn; tauto |].
  destruct (Hsome "end_y"%string) as [vey Hvey]; [cbn; tauto |].
  unfold run_row, getitem, parse_float.
  rewrite Hvb, Hvox, Hvoy, Hvsx, Hvsy, Hvex, Hvey. cbn [bind].
  destruct (float_of_string vsx) as [sx |] eqn:Esx; [cbn [bind] | reflexivity].
  destruct (float_of_string vsy) as [sy |] eqn:Esy; [cbn [bind] | reflexivity].
  destruct (float_of_string vex) as [ex |] eqn:Eex; [cbn [bind] | reflexivity].
  destruct (float_of_string vey) as [ey |] eqn:Eey; [cbn [bind] | reflexivity].
  destruct (float_of_string vox) as [ox |] eqn:Eox; [cbn [bind] | reflexivity].
  destruct (float_of_string voy) as [oy |] eqn:Eoy; [cbn [bind] | reflexivity].
  destruct (float_of_string vb) as [b |] eqn:Eb; [cbn [bind] | reflexivity].
  destruct (lookup bad "speed") as [vsp |] eqn:Hvsp.
  - destruct (float_of_string vsp) as [sp |] eqn:Esp; [cbn [bind] | reflexivity].
    exfalso. cbn in Hkey.
    destruct Hkey as [<- | [<- | [<- | [<- | [<- | [<- | [<- | [<- | []]]]]]]]];
      congruence.
  - exfalso. cbn in Hkey.
    destruct Hkey as [<- | [<- | [<- | [<- | [<- | [<- | [<- | [<- | []]]]]]]]];
      congruence.
Qed.

End BatchRunner.

(** C5, as stated, fails: the [try] block encloses the whole loop, so the
    first row that is not numeric ends the batch.  On binary64, with a row
    whose start_x is "abc" followed by a well-formed row, no test is run,
    nothing is saved or summarised, and the message is the [ValueError];
    the second row alone is a batch of one test. *)
Lemma malformed_row_stops_later_rows :
  run_tests_from_csv read_float 1001 [csv_row "abc" "1.0" "0.5"; csv_row "0" "1.0" "0.5"]
  = Ret {| results := []; saved := None; summary := None; error := Some ValueError |} /\
  (exists run result,
     run_tests_from_csv read_float 1001 [csv_row "0" "1.0" "0.5"] = Ret run /\
     results run = [result] /\ error run = None).
Proof.
  split; [vm_compute; reflexivity |].
  do 2 eexists. split; [vm_compute; reflexivity |]. split; reflexivity.
Qed.

(** C5, amended: when the rows before it have been run, a row that has its
    columns and holds text that is not a number in a numeric column ends
    the batch: the call reports the [ValueError], the tests run are those
    of the rows before it, no row after it is run, and nothing is saved or
    summarised. *)
Theorem malformed_row_ends_batch
    {F : Type} {HF : Float F} (float_of_string : string -> option F)
    (fuel : nat) (pre : list Row) (bad : Row) (post : list Row)
    (dc : TestDataCollector.t F) (key text : string) :
  run_rows float_of_string fuel 0 pre TestDataCollector.init = (dc, Ret tt) ->
  (forall k, In k required_columns -> lookup bad k <> None) ->
  In key numeric_columns -> lookup bad key = Some text -> float_of_string text = None ->
  run_tests_from_csv float_of_string fuel (pre ++ bad :: post)
  = Ret {| results := TestDataCollector.test_results dc;
           saved := None; summary := None; error := Some ValueError |}.
Proof.
  intros Hpre Hcols Hkey Htext Hbad.
  unfold run_tests_from_csv.
  rewrite run_rows_app with (dc := dc) by exact Hpre. cbn [run_rows].
  rewrite run_row_malformed with (key := key) (text := text) by assumption.
  reflexivity.
Qed.

(** Three rows on binary64, the second with barrier distance "wide": the
    batch ends with the one result of the first row. *)
Lemma malformed_row_ends_batch_witness :
  exists dc,
    run_rows read_float 1001 0 [csv_row "0" "1.0" "0.5"] TestDataCollector.init
      = (dc, Ret tt) /\
    List.length (TestDataCollector.test_results dc) = 1%nat /\
    run_tests_from_csv read_float 1001
      ([csv_row "0" "1.0" "0.5"] ++ csv_row "0" "wide" "0.5" :: [csv_row "0" "2.0" "0.5"])
    = Ret {| results := TestDataCollector.test_results dc;
             saved := None; summary := None; error := Some ValueError |}.
Proof.
  eexists. split; [vm_compute; reflexivity |]. split; [reflexivity |].
  apply (malformed_row_ends_batch (F := float) read_float 1001
           [csv_row "0" "1.0" "0.5"] (csv_row "0" "wide" "0.5") [csv_row "0" "2.0" "0.5"]
           (key := "barrier_distance"%string) (text := "wide"%string)).
  - vm_compute; reflexivity.
  - intros k Hk. cbn in Hk.
    destruct Hk as [<- | [<- | [<- | [<- | [<- | [<- | [<- | []]]]]]]]; discriminate.
  - cbn; tauto.
  - reflexivity.
  - reflexivity.
Defined.

(** C6: the summary of an empty list of results.  No group is printed, then
    the overall percentages divide by the number of tests, which is 0: the
    call raises [ZeroDivisionError] instead of reporting that there is no
    data.  So does a batch of no rows, once its two files are written. *)
Theorem summary_of_no_results_raises :
  forall (F : Type) (HF : Float F),
    generate_test_summary (F := F) [] = Raise ZeroDivisionError /\
    forall (float_of_string : string -> option F) (fuel : nat),
      run_tests_from_csv float_of_string fuel []
      = Ret {| results := []; saved := Some ([], []); summary := None;
               error := Some ZeroDivisionError |}.
Proof.
  intros F HF. split; [reflexivity |]. intros float_of_string fuel. reflexivity.
Qed.

(** ** What the engine checks of a scenario *)

Lemma float_lit_1_2 : float_lit 0.5 = 0.5%float.
Proof. reflexivity. Qed.

Lemma float_lit_3_2 : float_lit 1.5 = 1.5%float.
Proof. reflexivity. Qed.

Lemma float_le_zero_not_above_half (x : float) :
  PrimFloat.leb x 0 = true -> PrimFloat.ltb 0.5 x = false.
Proof.
  rewrite leb_spec, ltb_spec.
  change (Prim2SF 0) with (S754_zero false).
  destruct (Prim2SF x) as [s | s | | s m e]; try destruct s; cbn; congruence.
Qed.

Lemma float_ltb_leb (x y : float) :
  PrimFloat.ltb x y = true -> PrimFloat.leb x y = true.
Proof.
  rewrite ltb_spec, leb_spec. unfold SFltb, SFleb.
  destruct (SFcompare (Prim2SF x) (Prim2SF y)) as [[] |]; congruence.
Qed.

(** C9, as stated, fails: nothing in the engine looks at the values.  On
    binary64, the simulator built with an obstacle at (nan, 5) and barrier
    distance -1 keeps both, and a batch row with barrier distance "-1" and
    start_x "nan" is run with them: its result carries barrier distance -1,
    not 0.5. *)
Lemma engine_keeps_negative_barrier_and_nan :
  (exists c,
     HeadlessCarSimulator.init (F := float) (0, 0)%float (10, 0)%float
       [(nan, 5)%float] (-1)%float (lit 0.02) = Ret c /\
     HeadlessCarSimulator.barrier_distance c = (-1)%float /\
     PrimFloat.leb (HeadlessCarSimulator.barrier_distance c) 0 = true /\
     PrimFloat.eqb (HeadlessCarSimulator.barrier_distance c) 0.5 = false /\
     HeadlessCarSimulator.obstacle_positions c = [(nan, 5)%float]) /\
  (exists run result,
     run_tests_from_csv read_float 1001 [csv_row "nan" "-1" "0.5"] = Ret run /\
     results run = [result] /\ error run = None /\
     TestResult.barrier_distance result = (-1)%float).
Proof.
  split.
  - eexists. split; [vm_compute; reflexivity |]. repeat split; reflexivity.
  - do 2 eexists. split; [vm_compute; reflexivity |]. repeat split; reflexivity.
Qed.

(** C9, amended: the simulator takes a scenario as it is given.  For all
    binary64 coordinates, barrier distance and speed, non-finite or not
    positive included, the constructor returns a simulator that holds these
    values unchanged and the path planned from them.  The minimum 0.5 is
    applied by the prompt [get_barrier_distance] alone: it answers
    max(0.5, x) for a number x typed, hence 0.5 when x <= 0 and never less
    than 0.5, and 1.5 for text that is not a number. *)
Theorem engine_takes_scenario_as_given :
  (forall (s e : vec float) (obs : list (vec float)) (b spd : float),
     exists path,
       HeadlessCarSimulator.calculate_safe_path s e obs b = Ret path /\
       HeadlessCarSimulator.init s e obs b spd
       = Ret {| HeadlessCarSimulator.start_point := s;
                HeadlessCarSimulator.end_point := e;
                HeadlessCarSimulator.obstacle_positions := obs;
                HeadlessCarSimulator.barrier_distance := b;
                HeadlessCarSimulator.speed := spd;
                HeadlessCarSimulator.current_position := s;
                HeadlessCarSimulator.path := path;
                HeadlessCarSimulator.current_path_index := 0;
                HeadlessCarSimulator.progress := lit 0;
                HeadlessCarSimulator.has_reached_end := false |}) /\
  (forall (float_of_string : string -> option float) (typed : string) (x : float),
     float_of_string typed = Some x ->
     get_barrier_distance float_of_string typed = py_max 0.5%float x /\
     PrimFloat.leb 0.5 (get_barrier_distance float_of_string typed) = true /\
     (PrimFloat.leb x 0 = true ->
      get_barrier_distance float_of_string typed = 0.5%float)) /\
  (forall (float_of_string : string -> option float) (typed : string),
     float_of_string typed = None ->
     get_barrier_distance float_of_string typed = 1.5%float).
Proof.
  split; [| split].
  - intros s e obs b spd. apply init_returns.
  - intros fos typed x Hx. unfold get_barrier_distance, parse_float. rewrite Hx.
    cbn [lit float_Float]. rewrite float_lit_1_2.
    split; [reflexivity |]. unfold py_max. cbn [fltb float_Float]. split.
    + destruct (PrimFloat.ltb 0.5 x) eqn:Hlt; [now apply float_ltb_leb | reflexivity].
    + intros Hle. now rewrite (float_le_zero_not_above_half Hle).
  - intros fos typed Hx. unfold get_barrier_distance, parse_float. rewrite Hx.
    cbn [lit float_Float]. apply float_lit_3_2.
Qed.

(** The prompt on "-2.5", "0" and "wide". *)
Lemma engine_takes_scenario_as_given_witness :
  get_barrier_distance read_float "-2.5" = 0.5%float /\
  get_barrier_distance read_float "0" = 0.5%float /\
  get_barrier_distance read_float "wide" = 1.5%float.
Proof.
  split; [| split].
  - apply (proj1 (proj2 engine_takes_scenario_as_given) read_float "-2.5"%string
             (-2.5)%float); reflexivity.
  - apply (proj1 (proj2 engine_takes_scenario_as_given) read_float "0"%string
             0%float); reflexivity.
  - apply (proj2 (proj2 engine_takes_scenario_as_given)); reflexivity.
Defined.

(** ** Order and special values of binary64

    Comparisons of binary64 numbers are read through a rank: the sign
    class, then exponent and mantissa, in lexicographic order.  NaN has no
    rank that counts: every comparison with it is false. *)

(** The rank of a binary64 number that is not NaN: its sign class, then
    exponent and mantissa, read in lexicographic order. *)
Definition rank (x : spec_float) : Z * Z * Z :=
  match x with
  | S754_infinity true => (-2, 0, 0)%Z
  | S754_finite true m e => (-1, - e, Zneg m)%Z
  | S754_zero _ => (0, 0, 0)%Z
  | S754_nan => (0, 0, 0)%Z
  | S754_finite false m e => (1, e, Zpos m)%Z
  | S754_infinity false => (2, 0, 0)%Z
  end.

Definition rank_lt (a b : Z * Z * Z) : Prop :=
  let '(a1, a2, a3) := a in
  let '(b1, b2, b3) := b in
  (a1 < b1 \/ (a1 = b1 /\ (a2 < b2 \/ (a2 = b2 /\ a3 < b3))))%Z.

Lemma SFcompare_rank (x y : spec_float) :
  x <> S754_nan -> y <> S754_nan ->
  exists c, SFcompare x y = Some c /\
    (c = Lt <-> rank_lt (rank x) (rank y)) /\
    (c = Gt <-> rank_lt (rank y) (rank x)) /\
    (c = Eq <-> rank x = rank y).
Proof.
  intros Hx Hy.
  destruct x as [sx | sx | | sx mx ex], y as [sy | sy | | sy my ey];
    try congruence; cbn [SFcompare rank];
    try (destruct sx); try (destruct sy); cbn [rank_lt];
    try (eexists; split; [reflexivity |];
         repeat split; intros; try discriminate; try lia; try congruence; fail).
  all: eexists; (split; [reflexivity |]).
  all: change (Pos.compare_cont Eq mx my) with (Pos.compare mx my).
  all: destruct (Z.compare_spec ex ey), (Pos.compare_spec mx my); cbn [CompOpp];
    repeat split; intros; try discriminate; try lia; try congruence;
    try (match goal with H : (_, _, _) = (_, _, _) |- _ => injection H; intros; lia end).
Qed.

Definition frank (x : float) : Z * Z * Z := rank (Prim2SF x).

Lemma is_nan_spec (x : float) : is_nan x = true <-> Prim2SF x = S754_nan.
Proof.
  unfold is_nan. rewrite eqb_spec. unfold SFeqb.
  destruct (Prim2SF x) as [s | s | | s m e] eqn:Hx.
  4: destruct (@SFcompare_rank (S754_finite s m e) (S754_finite s m e))
       as (c & -> & _ & _ & Hc); try discriminate;
     rewrite (proj2 Hc eq_refl); cbn; split; discriminate.
  all: cbn; try destruct s; cbn; split; try discriminate; reflexivity.
Qed.

Lemma is_nan_false (x : float) : is_nan x = false <-> Prim2SF x <> S754_nan.
Proof.
  rewrite <- is_nan_spec. destruct (is_nan x); split; congruence.
Qed.

Ltac by_rank pick :=
  rewrite !is_nan_false; unfold frank;
  match goal with
  | |- context [SFcompare (Prim2SF ?x) (Prim2SF ?y)] =>
      destruct (Prim2SF x) as [sx | sx | | sx mx ex] eqn:Hx;
      destruct (Prim2SF y) as [sy | sy | | sy my ey] eqn:Hy
  end;
  first
    [ match goal with
      | |- context [SFcompare ?a ?b] =>
          destruct (@SFcompare_rank a b) as (c & Hc & Hlt & Hgt & Heq);
          [discriminate | discriminate |];
          rewrite Hc; pick Hlt Hgt Heq; destruct c;
          (split;
           [ intros H; try discriminate H; repeat split;
             try discriminate; try reflexivity
           | intros (_ & _ & H); try discriminate H; try reflexivity;
             try (exfalso; apply H; reflexivity) ])
      end
    | cbn [SFcompare]; repeat match goal with s : bool |- _ => destruct s end;
      (split; [discriminate | intros (H1 & H2 & _); congruence]) ].

Lemma ltb_rank (x y : float) :
  PrimFloat.ltb x y = true
  <-> is_nan x = false /\ is_nan y = false /\ rank_lt (frank x) (frank y).
Proof.
  rewrite ltb_spec. unfold SFltb.
  by_rank ltac:(fun Hlt Hgt Heq => rewrite <- Hlt).
Qed.

Lemma leb_rank (x y : float) :
  PrimFloat.leb x y = true
  <-> is_nan x = false /\ is_nan y = false /\ ~ rank_lt (frank y) (frank x).
Proof.
  rewrite leb_spec. unfold SFleb.
  by_rank ltac:(fun Hlt Hgt Heq => rewrite <- Hgt).
Qed.

Lemma eqb_rank (x y : float) :
  PrimFloat.eqb x y = true
  <-> is_nan x = false /\ is_nan y = false /\ frank x = frank y.
Proof.
  rewrite eqb_spec. unfold SFeqb.
  by_rank ltac:(fun Hlt Hgt Heq => rewrite <- Heq).
Qed.

Lemma ltb_rank_false (x y : float) :
  PrimFloat.ltb x y = false ->
  is_nan x = false -> is_nan y = false -> ~ rank_lt (frank x) (frank y).
Proof.
  intros H Hx Hy Hlt.
  assert (PrimFloat.ltb x y = true) by (apply ltb_rank; auto). congruence.
Qed.

Ltac rank_order :=
  repeat match goal with
  | H : PrimFloat.ltb _ _ = true |- _ =>
      apply ltb_rank in H; destruct H as (? & ? & H)
  | H : PrimFloat.leb _ _ = true |- _ =>
      apply leb_rank in H; destruct H as (? & ? & H)
  | H : PrimFloat.eqb _ _ = true |- _ =>
      apply eqb_rank in H; destruct H as (? & ? & H)
  end;
  repeat match goal with
  | H : PrimFloat.ltb ?x ?y = false, Hx : is_nan ?x = false, Hy : is_nan ?y = false |- _ =>
      apply (fun H => @ltb_rank_false x y H Hx Hy) in H
  end;
  try (apply ltb_rank; repeat (split; [assumption |]));
  try (apply leb_rank; repeat (split; [assumption |]));
  try (apply eqb_rank; repeat (split; [assumption |]));
  unfold rank_lt in *;
  repeat match goal with
  | H : context [frank ?x] |- _ =>
      let a := fresh "a" in let b := fresh "b" in let c := fresh "c" in
      destruct (frank x) as [[a b] c]
  | |- context [frank ?x] =>
      let a := fresh "a" in let b := fresh "b" in let c := fresh "c" in
      destruct (frank x) as [[a b] c]
  end;
  try match goal with H : (_, _, _) = (_, _, _) |- _ => injection H as ? ? ? end;
  try lia.

Lemma float_lt_trans (a b c : float) :
  PrimFloat.ltb a b = true -> PrimFloat.ltb b c = true -> PrimFloat.ltb a c = true.
Proof. intros H1 H2. rank_order. Qed.

Lemma float_lt_below (a b c : float) :
  PrimFloat.ltb a b = true -> is_nan c = false -> PrimFloat.ltb c b = false ->
  PrimFloat.ltb a c = true.
Proof. intros H1 Hc H2. rank_order. Qed.

Lemma float_not_lt_le (x y : float) :
  is_nan x = false -> is_nan y = false -> PrimFloat.ltb x y = false ->
  PrimFloat.leb y x = true.
Proof. intros Hx Hy H. rank_order. Qed.

Lemma float_le_not_lt (x y : float) :
  PrimFloat.leb x y = true -> PrimFloat.ltb y x = false.
Proof.
  intros H. destruct (PrimFloat.ltb y x) eqn:Hlt; [| reflexivity].
  exfalso. rank_order.
Qed.

Lemma float_le_trans (a b c : float) :
  PrimFloat.leb a b = true -> PrimFloat.leb b c = true -> PrimFloat.leb a c = true.
Proof. intros H1 H2. rank_order. Qed.

Lemma float_lt_le_trans (a b c : float) :
  PrimFloat.ltb a b = true -> PrimFloat.leb b c = true -> PrimFloat.ltb a c = true.
Proof. intros H1 H2. rank_order. Qed.

Lemma float_le_lt_trans (a b c : float) :
  PrimFloat.leb a b = true -> PrimFloat.ltb b c = true -> PrimFloat.ltb a c = true.
Proof. intros H1 H2. rank_order. Qed.

Lemma float_le_refl (x : float) : is_nan x = false -> PrimFloat.leb x x = true.
Proof. intros H. rank_order. Qed.

Lemma float_lt_number (x y : float) :
  PrimFloat.ltb x y = true -> is_nan x = false /\ is_nan y = false.
Proof. intros H. apply ltb_rank in H. tauto. Qed.

Lemma float_nan_not_lt (x y : float) :
  is_nan x = true \/ is_nan y = true -> PrimFloat.ltb x y = false.
Proof.
  intros H. destruct (PrimFloat.ltb x y) eqn:Hlt; [| reflexivity].
  apply float_lt_number in Hlt. destruct H, Hlt; congruence.
Qed.

Lemma float_le_infinity (x : float) :
  is_nan x = false -> PrimFloat.leb x infinity = true.
Proof.
  intros H. apply leb_rank. split; [exact H |]. split; [reflexivity |].
  unfold frank. replace (Prim2SF infinity) with (S754_infinity false) by reflexivity.
  apply is_nan_false in H.
  destruct (Prim2SF x) as [s | s | | s m e]; try congruence;
    try destruct s; cbn; lia.
Qed.

(** *** Zeros and NaN in the arithmetic *)








(** *** NaN in a distance *)

Lemma sub_nan (x y : float) :
  is_nan x = true \/ is_nan y = true -> (x - y)%float = nan.
Proof.
  intros H. apply Prim2SF_inj. rewrite sub_spec.
  destruct H as [H | H]; apply is_nan_spec in H; rewrite H; [reflexivity |].
  now destruct (Prim2SF x) as [[] | [] | | [] ? ?].
Qed.

Lemma add_nan (x y : float) :
  is_nan x = true \/ is_nan y = true -> (x + y)%float = nan.
Proof.
  intros H. apply Prim2SF_inj. rewrite add_spec.
  destruct H as [H | H]; apply is_nan_spec in H; rewrite H; [reflexivity |].
  now destruct (Prim2SF x) as [[] | [] | | [] ? ?].
Qed.

(** The distance between two points one of which has a NaN coordinate. *)
Lemma norm_nan (p o : vec float) :
  is_nan (fst p) = true \/ is_nan (snd p) = true \/
  is_nan (fst o) = true \/ is_nan (snd o) = true ->
  norm (vsub p o) = nan.
Proof.
  intros H. unfold norm, dot, vsub.
  cbn [fst snd fadd fsub fmul fsqrt float_Float].
  assert (Hd : (fst p - fst o)%float = nan \/ (snd p - snd o)%float = nan).
  { destruct H as [H | [H | [H | H]]];
      [left | right | left | right]; apply sub_nan; auto. }
  destruct Hd as [-> | ->].
  - rewrite add_nan; [reflexivity | now left].
  - rewrite add_nan; [reflexivity | now right].
Qed.

Lemma float_infinity_not_lt (x : float) : PrimFloat.ltb infinity x = false.
Proof.
  destruct (PrimFloat.ltb infinity x) eqn:H; [| reflexivity].
  exfalso. apply ltb_rank in H. destruct H as (_ & Hx & H).
  unfold frank in H. replace (Prim2SF infinity) with (S754_infinity false) in H
    by reflexivity.
  destruct (Prim2SF x) as [s | s | | s m e]; try destruct s; cbn in H; lia.
Qed.

(** ** The correction of a point on an obstacle, on binary64 *)

Section Binary64Correction.

Import HeadlessCarSimulator.









(** With an infinite barrier distance the point on the obstacle is lost:
    the zero direction times infinity is NaN. *)
Lemma infinite_barrier_loses_point_on_obstacle :
  ensure_safe_point [(1, 2)%float] infinity (1, 2)%float = Ret (nan, nan).
Proof. vm_compute. reflexivity. Qed.

End Binary64Correction.

(** ** [min] on numbers some of which may not compare *)

Section FirstLeastAmong.

Context {A K : Type} (ltb : K -> K -> bool) (okb : K -> bool) (key : A -> K).

Hypothesis lt_ok : forall a b, ltb a b = true -> okb a = true /\ okb b = true.
Hypothesis lt_trans : forall a b c, ltb a b = true -> ltb b c = true -> ltb a c = true.
Hypothesis lt_below :
  forall a b c, ltb a b = true -> okb c = true -> ltb c b = false -> ltb a c = true.

Lemma fold_first_least_among (rest pre : list A) (best : A) (post : list A) :
  okb (key best) = true ->
  (forall s, In s pre -> ltb (key best) (key s) = true) ->
  (forall s, In s post -> okb (key s) = true /\ ltb (key s) (key best) = false) ->
  okb (key (fold_left (fun best y => if ltb (key y) (key best) then y else best)
                      rest best)) = true /\
  first_least (fun a b => ltb a b = true) key
    (pre ++ best :: post ++ filter (fun s => okb (key s)) rest)
    (fold_left (fun best y => if ltb (key y) (key best) then y else best) rest best).
Proof.
  revert pre best post.
  induction rest as [| y rest IH]; intros pre best post Hbest Hpre Hpost;
    cbn [fold_left filter].
  - rewrite app_nil_r. split; [exact Hbest |]. exists pre, post.
    split; [reflexivity |]. split; [exact Hpre |].
    intros s Hs Hlt. destruct (Hpost s Hs) as [_ Hge]. congruence.
  - destruct (ltb (key y) (key best)) eqn:Hy.
    + destruct (lt_ok Hy) as [Hoky _]. rewrite Hoky.
      replace (pre ++ best :: post ++ y :: filter (fun s => okb (key s)) rest)
        with ((pre ++ best :: post) ++ y :: [] ++ filter (fun s => okb (key s)) rest)
        by (rewrite <- app_assoc; reflexivity).
      apply IH; [exact Hoky | |].
      * intros s Hs. apply in_app_or in Hs. destruct Hs as [Hs | [<- | Hs]].
        -- eapply lt_trans; [exact Hy | now apply Hpre].
        -- exact Hy.
        -- destruct (Hpost s Hs) as [Hoks Hge]. eapply lt_below; eassumption.
      * intros s [].
    + destruct (okb (key y)) eqn:Hoky.
      * replace (pre ++ best :: post ++ y :: filter (fun s => okb (key s)) rest)
          with (pre ++ best :: (post ++ [y]) ++ filter (fun s => okb (key s)) rest)
          by (rewrite <- app_assoc; reflexivity).
        apply IH; [exact Hbest | exact Hpre |].
        intros s Hs. apply in_app_or in Hs. destruct Hs as [Hs | [<- | []]].
        -- now apply Hpost.
        -- split; assumption.
      * apply IH; assumption.
Qed.

(** When the key of the first element does not compare, [min] keeps it. *)
Lemma fold_keeps_uncomparable (rest : list A) (best : A) :
  okb (key best) = false ->
  fold_left (fun best y => if ltb (key y) (key best) then y else best) rest best = best.
Proof.
  intros Hbest. induction rest as [| y rest IH]; cbn [fold_left]; [reflexivity |].
  destruct (ltb (key y) (key best)) eqn:Hy; [| exact IH].
  destruct (lt_ok Hy) as [_ Hok]. congruence.
Qed.

End FirstLeastAmong.

(** [min(xs, key=f)] on binary64: when the key of the first element is NaN
    that element is returned; otherwise the first least element among those
    whose key is a number, which is at most every such key. *)
Lemma py_min_by_float {A : Type} (key : A -> float) (x : A) (rest : list A) :
  exists m, py_min_by PrimFloat.ltb key (x :: rest) = Ret m /\
    In m (x :: rest) /\
    (is_nan (key x) = true -> m = x) /\
    (is_nan (key x) = false ->
       is_nan (key m) = false /\
       first_least (fun a b => PrimFloat.ltb a b = true) key
         (filter (fun s => negb (is_nan (key s))) (x :: rest)) m /\
       forall s, In s (x :: rest) -> is_nan (key s) = false ->
                 PrimFloat.leb (key m) (key s) = true).
Proof.
  eexists. split; [reflexivity |].
  set (m := fold_left (fun best y => if PrimFloat.ltb (key y) (key best) then y else best)
                      rest x).
  assert (Hin : In m (x :: rest)).
  { subst m. generalize x. induction rest as [| y rest IH]; intros best; cbn [fold_left].
    - now left.
    - destruct (IH (if PrimFloat.ltb (key y) (key best) then y else best)) as [<- | H].
      + destruct (PrimFloat.ltb (key y) (key best)); [right; now left | now left].
      + right. now right. }
  split; [exact Hin |].
  assert (Hok : forall a b, PrimFloat.ltb a b = true ->
                  negb (is_nan a) = true /\ negb (is_nan b) = true).
  { intros a b H. apply float_lt_number in H. destruct H as [-> ->]. auto. }
  split.
  - intros Hnan. subst m.
    apply (@fold_keeps_uncomparable A float PrimFloat.ltb (fun k => negb (is_nan k)) key Hok).
    now rewrite Hnan.
  - intros Hnum.
    destruct (@fold_first_least_among A float PrimFloat.ltb (fun k => negb (is_nan k)) key
                Hok float_lt_trans
                (fun a b c H1 H2 H3 =>
                   @float_lt_below a b c H1 (proj1 (negb_true_iff _) H2) H3)
                rest [] x [])
      as (Hm & Hleast).
    + now rewrite Hnum.
    + intros s [].
    + intros s [].
    + fold m in Hm, Hleast. apply negb_true_iff in Hm. split; [exact Hm |].
      cbn [app] in Hleast.
      assert (Hfilter : filter (fun s => negb (is_nan (key s))) (x :: rest)
                        = x :: filter (fun s => negb (is_nan (key s))) rest)
        by (cbn [filter]; now rewrite Hnum).
      rewrite Hfilter. split; [exact Hleast |].
      intros s Hs Hsnum.
      assert (Hs' : In s (x :: filter (fun s => negb (is_nan (key s))) rest)).
      { rewrite <- Hfilter. apply filter_In. split; [exact Hs | now rewrite Hsnum]. }
      destruct Hleast as (pre & post & Hxs & Hpre & Hpost).
      rewrite Hxs in Hs'. apply in_app_or in Hs'. destruct Hs' as [H | [<- | H]].
      * apply float_ltb_leb. now apply Hpre.
      * now apply float_le_refl.
      * apply float_not_lt_le; [exact Hsnum | exact Hm |].
        destruct (PrimFloat.ltb (key s) (key m)) eqn:Hlt; [| reflexivity].
        exfalso. exact (Hpost s H Hlt).
Qed.

(** ** The safety state on binary64 *)

Section Binary64Safety.

Import HeadlessCarSimulator.

Lemma get_distance_to_obstacles_least_computed (c : t float) :
  exists d, get_distance_to_obstacles c = Ret d /\
            least_computed (current_position c) (obstacle_positions c) d.
Proof.
  unfold get_distance_to_obstacles.
  destruct (obstacle_positions c) as [| o obs] eqn:Hobs.
  - exists Inf. split; reflexivity.
  - cbn [map].
    destruct (py_min_by_float (fun d : float => d) (norm (vsub (current_position c) o))
                (map (fun obstacle => norm (vsub (current_position c) obstacle)) obs))
      as (m & Hm & Hin & _ & Hnum).
    cbn [fltb float_Float]. rewrite Hm. cbn [bind].
    exists (Dist m). split; [reflexivity |]. split.
    + change (In m (map (fun obstacle => norm (vsub (current_position c) obstacle))
                        (o :: obs))) in Hin.
      apply in_map_iff in Hin. destruct Hin as (o' & <- & Ho'). eauto.
    + intros Hall. destruct Hnum as (Hm' & _ & Hle); [apply Hall; now left |].
      split; [exact Hm' |]. intros o' Ho'. apply Hle; [| now apply Hall].
      exact (in_map (fun obstacle => norm (vsub (current_position c) obstacle))
                    (o :: obs) o' Ho').
Qed.

Lemma dist_ltb_false_geb (d : distance float) (x : float) :
  dist_is_nan d = false -> is_nan x = false ->
  (dist_ltb d x = false <-> dist_geb d x = true).
Proof.
  intros Hd Hx. destruct d as [| r];
    cbn [dist_ltb dist_geb as_float dist_is_nan fltb float_Float] in *.
  - split; [intros _; now apply float_le_infinity | reflexivity].
  - split; [now apply float_not_lt_le | apply float_le_not_lt].
Qed.

Lemma dist_ltb_nan (d : distance float) (x : float) :
  dist_is_nan d = true \/ is_nan x = true -> dist_ltb d x = false.
Proof.
  intros H. destruct d as [| r]; cbn [dist_ltb dist_is_nan fltb float_Float] in *;
    [reflexivity |].
  now apply float_nan_not_lt.
Qed.

(** C3, amended, on binary64: the safety state is a function of the
    barrier distance and of d, what [min] makes of the distances computed
    from the current position to the obstacles (infinite when there is
    none; one of them otherwise, and at most each of them when none is
    NaN).  It is UNSAFE if and only if d < 0.5 holds, MILD_UNSAFE if and
    only if d < 0.5 fails and d < barrier_distance holds, and SAFE if and
    only if both comparisons fail.  When d and the barrier distance are
    numbers, that is MILD_UNSAFE if and only if 0.5 <= d < barrier_distance
    and SAFE if and only if d >= 0.5 and d >= barrier_distance, which is
    d >= barrier_distance when the barrier distance is at least 0.5.  A
    NaN distance is SAFE, and so is any distance not below 0.5 when the
    barrier distance is NaN.  With no obstacle the state is SAFE. *)
Theorem safety_state_by_computed_distance (c : t float) :
  exists d,
    get_distance_to_obstacles c = Ret d /\
    least_computed (current_position c) (obstacle_positions c) d /\
    get_safety_state c = Ret (classify (barrier_distance c) d) /\
    (classify (barrier_distance c) d = UNSAFE <-> dist_ltb d 0.5%float = true) /\
    (classify (barrier_distance c) d = MILD_UNSAFE
       <-> dist_ltb d 0.5%float = false /\ dist_ltb d (barrier_distance c) = true) /\
    (classify (barrier_distance c) d = SAFE
       <-> dist_ltb d 0.5%float = false /\ dist_ltb d (barrier_distance c) = false) /\
    (dist_is_nan d = false -> is_nan (barrier_distance c) = false ->
       (classify (barrier_distance c) d = MILD_UNSAFE
          <-> dist_geb d 0.5%float = true /\ dist_ltb d (barrier_distance c) = true) /\
       (classify (barrier_distance c) d = SAFE
          <-> dist_geb d 0.5%float = true /\ dist_geb d (barrier_distance c) = true)) /\
    (dist_is_nan d = false -> PrimFloat.leb 0.5%float (barrier_distance c) = true ->
       (classify (barrier_distance c) d = SAFE
          <-> dist_geb d (barrier_distance c) = true)) /\
    (dist_is_nan d = true -> classify (barrier_distance c) d = SAFE) /\
    (is_nan (barrier_distance c) = true ->
       (classify (barrier_distance c) d = SAFE <-> dist_ltb d 0.5%float = false)) /\
    (obstacle_positions c = [] ->
       d = Inf /\ classify (barrier_distance c) d = SAFE).
Proof.
  destruct (get_distance_to_obstacles_least_computed c) as (d & Hd & Hleast).
  exists d. split; [exact Hd |]. split; [exact Hleast |]. split.
  { unfold get_safety_state. now rewrite Hd. }
  set (b := barrier_distance c).
  assert (Hhalf : is_nan 0.5%float = false) by reflexivity.
  assert (Hcases :
    (classify b d = UNSAFE <-> dist_ltb d 0.5%float = true) /\
    (classify b d = MILD_UNSAFE <-> dist_ltb d 0.5%float = false /\ dist_ltb d b = true) /\
    (classify b d = SAFE <-> dist_ltb d 0.5%float = false /\ dist_ltb d b = false)).
  { unfold classify. cbn [lit float_Float]. rewrite float_lit_1_2.
    destruct (dist_ltb d 0.5%float), (dist_ltb d b);
      repeat split; try discriminate; try reflexivity;
      intros H; try discriminate H; destruct H; discriminate. }
  destruct Hcases as (Hu & Hm & Hs).
  split; [exact Hu |]. split; [exact Hm |]. split; [exact Hs |].
  split; [| split; [| split; [| split]]].
  - intros Hnum Hb. split.
    + rewrite Hm, (@dist_ltb_false_geb d _ Hnum Hhalf). reflexivity.
    + rewrite Hs, (@dist_ltb_false_geb d _ Hnum Hhalf), (@dist_ltb_false_geb d _ Hnum Hb).
      reflexivity.
  - intros Hnum Hb.
    assert (Hbnum : is_nan b = false) by (apply leb_rank in Hb; tauto).
    rewrite Hs, (@dist_ltb_false_geb d _ Hnum Hhalf), (@dist_ltb_false_geb d _ Hnum Hbnum).
    split; [tauto |]. intros Hge. split; [| exact Hge].
    unfold dist_geb in *.
    eapply float_le_trans; eassumption.
  - intros Hnan. apply Hs. split; apply dist_ltb_nan; now left.
  - intros Hnan. rewrite Hs. split; [tauto |]. intros H. split; [exact H |].
    apply dist_ltb_nan. now right.
  - intros Hobs. unfold get_distance_to_obstacles in Hd. rewrite Hobs in Hd.
    injection Hd as <-. split; [reflexivity |]. apply Hs. split; reflexivity.
Qed.

(** A car at (0,0) on binary64 with an obstacle at (0.75, 0) and barrier
    distance 1: the distance 0.75 is a number, at least 0.5 and below the
    barrier distance, and the state is MILD_UNSAFE. *)
Lemma safety_state_by_computed_distance_witness :
  exists d,
    get_distance_to_obstacles
      {| start_point := (0, 0)%float; end_point := (10, 0)%float;
         obstacle_positions := [(0.75, 0)%float];
         barrier_distance := 1%float; speed := 0.02%float;
         current_position := (0, 0)%float;
         path := [(0, 0)%float; (10, 0)%float]; current_path_index := 0;
         progress := 0%float; has_reached_end := false |} = Ret d /\
    classify 1%float d = MILD_UNSAFE.
Proof.
  destruct (safety_state_by_computed_distance
    {| start_point := (0, 0)%float; end_point := (10, 0)%float;
       obstacle_positions := [(0.75, 0)%float];
       barrier_distance := 1%float; speed := 0.02%float;
       current_position := (0, 0)%float;
       path := [(0, 0)%float; (10, 0)%float]; current_path_index := 0;
       progress := 0%float; has_reached_end := false |})
    as (d & Hd & _ & _ & _ & _ & _ & Hnum & _).
  exists d. split; [exact Hd |].
  cbn [barrier_distance] in Hnum.
  assert (Hd' : d = Dist 0.75%float)
    by (vm_compute in Hd; now injection Hd as <-).
  subst d. apply (proj1 (Hnum eq_refl eq_refl)). split; reflexivity.
Defined.

End Binary64Safety.

(** ** The recommendation of the report on binary64 *)

Lemma min_safe_barrier (s0 : TestResult.t float) (safe : list (TestResult.t float)) :
  exists m,
    py_min_by PrimFloat.ltb (fun r => TestResult.barrier_distance r) (s0 :: safe) = Ret m /\
    least_safe_barrier (s0 :: safe) (TestResult.barrier_distance m).
Proof.
  destruct (py_min_by_float (fun r => TestResult.barrier_distance r) s0 safe)
    as (m & Hm & _ & Hnan & Hnum).
  exists m. split; [exact Hm |]. unfold least_safe_barrier.
  destruct (is_nan (TestResult.barrier_distance s0)) eqn:H0.
  - now rewrite (Hnan eq_refl).
  - destruct (Hnum eq_refl) as (Hm' & Hleast & Hle).
    exists m. repeat split; assumption.
Qed.

Lemma find_optimal_recommended (r : TestResult.t float) (rs : list (TestResult.t float)) :
  exists rec, find_optimal (r :: rs) = Ret rec /\ recommended (r :: rs) rec.
Proof.
  unfold find_optimal, recommended, safe_members.
  destruct (filter _ (r :: rs)) as [| s0 safe].
  - destruct (py_min_by_Z (fun x => TestResult.unsafe_frames x) r rs)
      as (m & Hm & Hleast & _ & Hle).
    rewrite Hm. cbn [bind]. eexists. split; [reflexivity |].
    exists m. repeat split; assumption.
  - destruct (min_safe_barrier s0 safe) as (m & Hm & Hleast).
    cbn [fltb float_Float]. rewrite Hm. cbn [bind]. eexists. split; [reflexivity |].
    eexists. split; [reflexivity | exact Hleast].
Qed.

Lemma report_groups_recommended (grouped : list (string * list (TestResult.t float))) :
  Forall (fun g => snd g <> []) grouped ->
  exists gs, report_groups grouped = Ret gs /\
    Forall2 (fun r g => configuration r = fst g /\ recommended (snd g) (recommendation r))
            gs grouped.
Proof.
  induction grouped as [| [d ms] grouped IH]; intros Hall; cbn [report_groups].
  - exists []. split; [reflexivity | constructor].
  - inversion Hall as [| ? ? Hms Hrest]; subst. cbn [snd] in Hms.
    destruct (IH Hrest) as (gs & Hgs & Hall2).
    destruct ms as [| r rs]; [congruence |].
    destruct (find_optimal_recommended r rs) as (rec & Hrec & Hgood).
    unfold report_group.
    destruct (count_all (r :: rs)) as [c | |] eqn:Hc;
      [| exfalso; revert Hc; unfold count_all, percentage; cbn; discriminate ..].
    cbn [bind]. rewrite Hrec. cbn [bind]. rewrite Hgs. cbn [bind].
    eexists. split; [reflexivity |].
    constructor; [| exact Hall2]. cbn [configuration recommendation fst snd]. auto.
Qed.

Lemma generate_test_summary_recommended (results : list (TestResult.t float)) :
  results <> [] ->
  exists sm,
    generate_test_summary results = Ret sm /\
    Forall2 (fun r g => configuration r = fst g /\
                        recommended (snd g) (recommendation r))
            (groups sm) (group_by_description results) /\
    match safe_members results with
    | [] => overall_optimal sm = None
    | _ :: _ => exists x, overall_optimal sm = Some x /\
                          least_safe_barrier (safe_members results) x
    end.
Proof.
  intros Hne.
  destruct (report_groups_recommended (group_by_description_nonempty results))
    as (gs & Hgs & Hall2).
  unfold generate_test_summary. rewrite Hgs. cbn [bind].
  destruct (count_all results) as [c | |] eqn:Hc.
  2-3: exfalso; revert Hc; unfold count_all, percentage;
       destruct results; [congruence | cbn; discriminate].
  cbn [bind]. unfold safe_members.
  destruct (filter _ results) as [| s0 safe].
  - eexists. split; [reflexivity |]. cbn [groups overall_optimal]. auto.
  - destruct (min_safe_barrier s0 safe) as (m & Hm & Hleast).
    cbn [fltb float_Float]. rewrite Hm. cbn [bind].
    eexists. split; [reflexivity |]. cbn [groups overall_optimal].
    split; [exact Hall2 |]. eauto.
Qed.

(** C7, amended, on binary64: for every non-empty list of results the
    report is printed, with one recommendation per group in the order of
    the groups.  When a group has a SAFE member, the barrier distance
    reported as optimal is what [min] finds among its SAFE members: that
    of the first SAFE member when it is NaN, and otherwise that of the
    first member, in input order, with the least barrier distance among
    the SAFE members whose barrier distance is a number, NaN ones being
    passed over.  When no member is SAFE it is that of the first member
    with the fewest UNSAFE frames.  The overall optimal barrier distance is
    found among all SAFE results in the same way.  A group of three
    results SAFE with barrier 1.0, SAFE with barrier 2.0 and UNSAFE with
    barrier 0.5 is reported with optimal barrier distance 1.0. *)
Theorem optimal_barrier_distance_of_numbers :
  (forall results : list (TestResult.t float),
     results <> [] ->
     exists sm,
       generate_test_summary results = Ret sm /\
       Forall2 (fun r g => configuration r = fst g /\
                           recommended (snd g) (recommendation r))
               (groups sm) (group_by_description results) /\
       match safe_members results with
       | [] => overall_optimal sm = None
       | _ :: _ => exists x, overall_optimal sm = Some x /\
                             least_safe_barrier (safe_members results) x
       end) /\
  (forall (description : string) (t1 t2 t3 : TestResult.t float),
     TestResult.description t1 = description ->
     TestResult.description t2 = description ->
     TestResult.description t3 = description ->
     TestResult.safety_status t1 = SAFE -> TestResult.barrier_distance t1 = 1%float ->
     TestResult.safety_status t2 = SAFE -> TestResult.barrier_distance t2 = 2%float ->
     TestResult.safety_status t3 = UNSAFE -> TestResult.barrier_distance t3 = 0.5%float ->
     exists sm g,
       generate_test_summary [t1; t2; t3] = Ret sm /\
       groups sm = [g] /\ configuration g = description /\
       recommendation g = Optimal 1%float /\
       overall_optimal sm = Some 1%float).
Proof.
  split; [exact generate_test_summary_recommended |].
  intros description t1 t2 t3 Hd1 Hd2 Hd3 Hs1 Hb1 Hs2 Hb2 Hs3 Hb3.
  destruct (@generate_test_summary_recommended [t1; t2; t3]) as (sm & Hsm & Hgroups & Hall);
    [discriminate |].
  assert (Hsafe : safe_members [t1; t2; t3] = [t1; t2]).
  { unfold safe_members. cbn [filter]. now rewrite Hs1, Hs2, Hs3. }
  assert (Hleast : forall x, least_safe_barrier [t1; t2] x -> x = 1%float).
  { intros x. unfold least_safe_barrier. rewrite Hb1.
    replace (is_nan 1) with false by reflexivity.
    intros (m & (pre & post & Hxs & _) & -> & _ & Hle).
    assert (Hin : In m (with_number [t1; t2]))
      by (rewrite Hxs; apply in_or_app; right; now left).
    apply filter_In in Hin. destruct Hin as [[<- | [<- | []]] _]; [exact Hb1 |].
    specialize (Hle t1 (or_introl eq_refl)). rewrite Hb1, Hb2 in Hle.
    specialize (Hle eq_refl). discriminate Hle. }
  assert (Hgrouped : group_by_description [t1; t2; t3] = [(description, [t1; t2; t3])]).
  { unfold group_by_description. cbn [fold_left group_append].
    rewrite Hd1, Hd2, String.eqb_refl. cbn [group_append app].
    rewrite Hd3, String.eqb_refl. reflexivity. }
  rewrite Hgrouped in Hgroups. rewrite Hsafe in Hall.
  inversion Hgroups as [| g ? gs ? [Hconf Hrec] Hrest Hg]; subst.
  inversion Hrest; subst.
  exists sm, g. split; [exact Hsm |]. split; [congruence |].
  split; [exact Hconf |]. cbn [snd] in Hrec. unfold recommended in Hrec.
  rewrite Hsafe in Hrec. destruct Hrec as (x & -> & Hx).
  destruct Hall as (y & -> & Hy).
  now rewrite (Hleast x Hx), (Hleast y Hy).
Qed.

(** The group of the aggregation scenario. *)
Lemma optimal_barrier_distance_of_numbers_witness :
  exists sm g,
    generate_test_summary
      [ {| TestResult.test_id := 1; TestResult.barrier_distance := 1%float;
           TestResult.total_frames := 149; TestResult.safe_frames := 149;
           TestResult.mild_unsafe_frames := 0; TestResult.unsafe_frames := 0;
           TestResult.min_distance_observed := Dist 1.5%float;
           TestResult.description := "Single obstacle at (5,4)" |};
        {| TestResult.test_id := 2; TestResult.barrier_distance := 2%float;
           TestResult.total_frames := 149; TestResult.safe_frames := 149;
           TestResult.mild_unsafe_frames := 0; TestResult.unsafe_frames := 0;
           TestResult.min_distance_observed := Dist 3%float;
           TestResult.description := "Single obstacle at (5,4)" |};
        {| TestResult.test_id := 3; TestResult.barrier_distance := 0.5%float;
           TestResult.total_frames := 100; TestResult.safe_frames := 90;
           TestResult.mild_unsafe_frames := 0; TestResult.unsafe_frames := 10;
           TestResult.min_distance_observed := Dist 0.25%float;
           TestResult.description := "Single obstacle at (5,4)" |} ] = Ret sm /\
    groups sm = [g] /\ configuration g = "Single obstacle at (5,4)"%string /\
    recommendation g = Optimal 1%float /\ overall_optimal sm = Some 1%float.
Proof.
  apply (proj2 optimal_barrier_distance_of_numbers); reflexivity.
Defined.

(** Two SAFE results of one configuration, the first with barrier distance
    NaN, the second with barrier distance 1.0. *)
Definition result_with_nan_barrier : TestResult.t float :=
  {| TestResult.test_id := 1; TestResult.barrier_distance := nan;
     TestResult.total_frames := 149; TestResult.safe_frames := 149;
     TestResult.mild_unsafe_frames := 0; TestResult.unsafe_frames := 0;
     TestResult.min_distance_observed := Dist 1.5%float;
     TestResult.description := "Single obstacle at (5,4)" |}.

Definition result_with_barrier_one : TestResult.t float :=
  {| TestResult.test_id := 2; TestResult.barrier_distance := 1%float;
     TestResult.total_frames := 149; TestResult.safe_frames := 149;
     TestResult.mild_unsafe_frames := 0; TestResult.unsafe_frames := 0;
     TestResult.min_distance_observed := Dist 1.5%float;
     TestResult.description := "Single obstacle at (5,4)" |}.

(** C7, as stated, fails on a barrier distance that is NaN, which a row
    of a batch can carry and which leaves every frame of its run SAFE or
    UNSAFE as the distance alone decides.  In a group of two SAFE results
    with barrier distances NaN and 1.0 the report names NaN as the optimal
    barrier distance, which is not the least of the two: NaN <= 1.0 is
    false. *)
Lemma nan_barrier_reported_as_optimal :
  exists sm g,
    generate_test_summary [result_with_nan_barrier; result_with_barrier_one] = Ret sm /\
    groups sm = [g] /\
    TestResult.safety_status result_with_nan_barrier = SAFE /\
    TestResult.safety_status result_with_barrier_one = SAFE /\
    TestResult.barrier_distance result_with_barrier_one = 1%float /\
    recommendation g = Optimal nan /\
    overall_optimal sm = Some nan /\
    PrimFloat.leb nan 1 = false /\ PrimFloat.eqb nan 1 = false.
Proof.
  do 2 eexists. split; [vm_compute; reflexivity |]. repeat split; reflexivity.
Qed.

(** ** The same inputs on binary64

    The inputs that were given above on the real numbers, evaluated
    with the arithmetic that the code runs on. *)

Example binary64_start_inside_barrier :
  HeadlessCarSimulator.calculate_safe_path (F := float)
    (0, 0)%float (10, 0)%float [(0.5, 0)%float] 1%float
  = Ret [(0, 0); (-0.69999999999999996, -1.2); (0.5, -1.5); (10, 0)]%float.
Proof. vm_compute. reflexivity. Qed.

Example binary64_point_on_obstacle :
  HeadlessCarSimulator.ensure_safe_point (F := float)
    [(0, 0)%float; (0.5, 0)%float] 1%float (0, 0)%float
  = Ret (-0.60000000000000009, 0)%float /\
  HeadlessCarSimulator.ensure_safe_point (F := float)
    [(0, 0)%float] 1%float (0, 0)%float
  = Ret (0, 0)%float.
Proof. split; vm_compute; reflexivity. Qed.

Example binary64_small_barrier_unsafe :
  exists c,
    HeadlessCarSimulator.init (F := float) (0, 0)%float (10, 0)%float
      [(lit 0.3, 0%float)] (lit 0.2) (lit 0.02) = Ret c /\
    HeadlessCarSimulator.get_distance_to_obstacles c
      = Ret (Dist 0.29999999999999999%float) /\
    HeadlessCarSimulator.get_safety_state c = Ret UNSAFE.
Proof.
  eexists. split; [vm_compute; reflexivity |]. split; vm_compute; reflexivity.
Qed.

Example binary64_optimal_barrier_distance :
  find_optimal (F := float)
    [ {| TestResult.test_id := 1; TestResult.barrier_distance := 1%float;
         TestResult.total_frames := 149; TestResult.safe_frames := 149;
         TestResult.mild_unsafe_frames := 0; TestResult.unsafe_frames := 0;
         TestResult.min_distance_observed := Dist 1.5%float;
         TestResult.description := "g" |};
      {| TestResult.test_id := 2; TestResult.barrier_distance := 2%float;
         TestResult.total_frames := 149; TestResult.safe_frames := 149;
         TestResult.mild_unsafe_frames := 0; TestResult.unsafe_frames := 0;
         TestResult.min_distance_observed := Dist 3%float;
         TestResult.description := "g" |};
      {| TestResult.test_id := 3; TestResult.barrier_distance := 0.5%float;
         TestResult.total_frames := 100; TestResult.safe_frames := 90;
         TestResult.mild_unsafe_frames := 0; TestResult.unsafe_frames := 10;
         TestResult.min_distance_observed := Dist 0.25%float;
         TestResult.description := "g" |} ]
  = Ret (Optimal 1%float).
Proof. vm_compute. reflexivity. Qed.

(** * Further properties of the code *)

(** ** What a call of [step] keeps *)

Section StepInvariants.

Context {F : Type} {HF : Float F}.
Local Open Scope py_scope.

Import HeadlessCarSimulator.

Lemma step_preserves (c c' : t F) (moving : bool) :
  step c = Ret (c', moving) ->
  path c' = path c /\ obstacle_positions c' = obstacle_positions c /\
  barrier_distance c' = barrier_distance c /\ speed c' = speed c /\
  start_point c' = start_point c /\ end_point c' = end_point c.
Proof.
  unfold step. destruct (has_reached_end c).
  - intros Hs. injection Hs as <- _. repeat split.
  - destruct (before_last_boundary c).
    + destruct (index (path c) (current_path_index c)) as [x0 | |]; cbn [bind];
        try discriminate.
      destruct (index (path c) (current_path_index c + 1)) as [x1 | |]; cbn [bind];
        try discriminate.
      intros Hs. injection Hs as <- _.
      cbn [progress set_progress].
      destruct (fleb (lit 1) (fadd (progress c) (speed c)));
        cbn [at_last_boundary current_path_index path set_current_path_index
             set_progress];
        repeat match goal with
               | |- context [if ?b then _ else _] => destruct b
               end;
        repeat split.
    + intros Hs. injection Hs as <- _. repeat split.
Qed.

(** The index moves forward by at most one segment, never beyond the last
    point of the path, and a car marked as arrived stands on the last
    index. *)
Definition in_bounds (c : t F) : Prop :=
  (current_path_index c < List.length (path c))%nat /\
  (has_reached_end c = true ->
   S (current_path_index c) = List.length (path c) /\
   (2 <= List.length (path c))%nat).

Lemma step_in_bounds (c c' : t F) (moving : bool) :
  in_bounds c -> step c = Ret (c', moving) ->
  in_bounds c' /\
  (current_path_index c <= current_path_index c' <= S (current_path_index c))%nat /\
  (has_reached_end c = true -> has_reached_end c' = true).
Proof.
  intros [Hidx Hend]. unfold step. destruct (has_reached_end c) eqn:Hreached.
  - intros Hs. injection Hs as <- _. rewrite Hreached.
    split; [split; [exact Hidx | intros _; now apply Hend] |]. split; [lia | auto].
  - destruct (before_last_boundary c) eqn:Hb.
    + unfold before_last_boundary in Hb. apply Z.ltb_lt in Hb.
      destruct (index (path c) (current_path_index c)) as [x0 | |]; cbn [bind];
        try discriminate.
      destruct (index (path c) (current_path_index c + 1)) as [x1 | |]; cbn [bind];
        try discriminate.
      intros Hs. injection Hs as <- _.
      cbn [progress set_progress].
      destruct (fleb (lit 1) (fadd (progress c) (speed c))).
      * destruct (at_last_boundary _) eqn:Hlast;
          unfold at_last_boundary in Hlast;
          cbn [current_path_index path set_current_path_index set_progress] in Hlast;
          rewrite Z.geb_leb in Hlast;
          [apply Z.leb_le in Hlast | apply Z.leb_gt in Hlast];
          cbn [has_reached_end set_has_reached_end set_current_path_index set_progress
               set_current_position negb];
          try rewrite Hreached;
          cbn [negb has_reached_end set_current_position set_current_path_index
               set_progress];
          unfold in_bounds;
          cbn [has_reached_end current_path_index path set_has_reached_end
               set_current_position set_current_path_index set_progress];
          try rewrite Hreached;
          (split; [split; [lia | intros; try discriminate; lia] |]);
          (split; [lia | intros; discriminate]).
      * cbn [has_reached_end set_progress]. rewrite Hreached. cbn [negb].
        unfold in_bounds.
        cbn [has_reached_end current_path_index path set_current_position set_progress].
        rewrite Hreached.
        split; [split; [lia | intros; discriminate] |].
        split; [lia | intros; discriminate].
    + intros Hs. injection Hs as <- _. unfold in_bounds. rewrite Hreached.
      split; [split; [exact Hidx | intros; discriminate] |].
      split; [lia | auto].
Qed.

Lemma steps_returns (n : nat) (c : t F) : exists c', steps n c = Ret c'.
Proof.
  revert c; induction n as [| n IH]; intros c; cbn [steps]; [eauto |].
  destruct (step_returns c) as [c1 ->]. cbn [bind fst]. apply IH.
Qed.

Lemma steps_in_bounds (n : nat) (c c' : t F) :
  in_bounds c -> steps n c = Ret c' ->
  in_bounds c' /\ path c' = path c /\
  obstacle_positions c' = obstacle_positions c /\
  barrier_distance c' = barrier_distance c /\ speed c' = speed c /\
  (current_path_index c <= current_path_index c' <= current_path_index c + n)%nat.
Proof.
  revert c; induction n as [| n IH]; intros c Hc; cbn [steps].
  - intros Hs. injection Hs as <-. split; [exact Hc |]. repeat split; lia.
  - destruct (step_returns c) as [c1 Hstep]. rewrite Hstep. cbn [bind fst]. intros Hs.
    destruct (step_in_bounds Hc Hstep) as (Hc1 & Hidx & _).
    pose proof Hstep as Hkeep. apply step_preserves in Hkeep.
    destruct Hkeep as (Hp & Ho & Hb & Hsp & _).
    destruct (IH c1 Hc1 Hs) as (Hc' & Hp' & Ho' & Hb' & Hsp' & Hidx').
    split; [exact Hc' |]. repeat split; try congruence; lia.
Qed.

End StepInvariants.

(** X1: from the simulator that the constructor returns, any number of
    calls of [step] raises nothing (no [IndexError]) and leaves a car whose
    path, obstacles, barrier distance and speed are those of the
    constructor, whose segment index is a valid index of the path and at
    most the number of calls, and which, once marked as arrived, stands on
    the last index of a path of at least two points. *)
Theorem steps_keep_index_in_path
    {F : Type} {HF : Float F} {HG : GuardedDivision F}
    (s e : vec F) (obs : list (vec F)) (b spd : F) (n : nat) :
  exists c0 c,
    HeadlessCarSimulator.init s e obs b spd = Ret c0 /\
    steps n c0 = Ret c /\
    HeadlessCarSimulator.path c = HeadlessCarSimulator.path c0 /\
    HeadlessCarSimulator.obstacle_positions c = obs /\
    HeadlessCarSimulator.barrier_distance c = b /\
    HeadlessCarSimulator.speed c = spd /\
    (HeadlessCarSimulator.current_path_index c
       < List.length (HeadlessCarSimulator.path c))%nat /\
    (HeadlessCarSimulator.current_path_index c <= n)%nat /\
    (HeadlessCarSimulator.has_reached_end c = true ->
     S (HeadlessCarSimulator.current_path_index c)
       = List.length (HeadlessCarSimulator.path c) /\
     (2 <= List.length (HeadlessCarSimulator.path c))%nat).
Proof.
  destruct (init_returns s e obs b spd) as (path & Hpath & Hinit).
  destruct (calculate_safe_path_returns s e obs b) as (path' & Hpath' & rest & -> & _).
  rewrite Hpath in Hpath'. injection Hpath' as ->.
  eexists. destruct (steps_returns n
    {| HeadlessCarSimulator.start_point := s; HeadlessCarSimulator.end_point := e;
       HeadlessCarSimulator.obstacle_positions := obs;
       HeadlessCarSimulator.barrier_distance := b; HeadlessCarSimulator.speed := spd;
       HeadlessCarSimulator.current_position := s;
       HeadlessCarSimulator.path := s :: rest;
       HeadlessCarSimulator.current_path_index := 0;
       HeadlessCarSimulator.progress := lit 0;
       HeadlessCarSimulator.has_reached_end := false |}) as [c Hc].
  exists c. split; [exact Hinit |]. split; [exact Hc |].
  apply steps_in_bounds in Hc.
  - destruct Hc as ((Hidx & Hend) & Hp & Ho & Hb & Hsp & Hn).
    cbn in Hp, Ho, Hb, Hsp, Hn.
    split; [exact Hp |]. split; [exact Ho |]. split; [exact Hb |]. split; [exact Hsp |].
    split; [exact Hidx |]. split; [lia | exact Hend].
  - split; cbn; [lia | discriminate].
Qed.

(** On binary64: the sample scenario after 120 calls. *)
Lemma steps_keep_index_in_path_witness :
  exists c0 c,
    HeadlessCarSimulator.init (F := float) (0, 0)%float (10, 8)%float
      [(5, 4)%float] 1%float (lit 0.02) = Ret c0 /\
    steps 120 c0 = Ret c /\
    HeadlessCarSimulator.path c = HeadlessCarSimulator.path c0 /\
    HeadlessCarSimulator.obstacle_positions c = [(5, 4)%float] /\
    HeadlessCarSimulator.barrier_distance c = 1%float /\
    HeadlessCarSimulator.speed c = lit 0.02 /\
    (HeadlessCarSimulator.current_path_index c
       < List.length (HeadlessCarSimulator.path c))%nat /\
    (HeadlessCarSimulator.current_path_index c <= 120)%nat /\
    (HeadlessCarSimulator.has_reached_end c = true ->
     S (HeadlessCarSimulator.current_path_index c)
       = List.length (HeadlessCarSimulator.path c) /\
     (2 <= List.length (HeadlessCarSimulator.path c))%nat).
Proof.
  exact (steps_keep_index_in_path (F := float) (0, 0)%float (10, 8)%float
           [(5, 4)%float] 1%float (lit 0.02) 120).
Defined.

(** ** What a run records *)

Section RunRecords.

Context {F : Type} {HF : Float F}.
Local Open Scope py_scope.

Lemma count_state_cons (s : SafetyState) (f : TestDataCollector.FrameData F)
    (frames : list (TestDataCollector.FrameData F)) :
  count_state s (f :: frames)
  = ((if SafetyState_eqb (TestDataCollector.safety_state f) s then 1 else 0)
     + count_state s frames)%Z.
Proof.
  unfold count_state. cbn [filter].
  destruct (SafetyState_eqb (TestDataCollector.safety_state f) s); cbn [List.length]; lia.
Qed.

(** The frames that the loop appends to the collector, and what the loop
    variables are in terms of them. *)
Definition recorded (test_id : Z) (st st' : LoopState F)
    (frames : list (TestDataCollector.FrameData F)) : Prop :=
  TestDataCollector.test_results (data_collector st')
    = TestDataCollector.test_results (data_collector st) /\
  TestDataCollector.current_test_data (data_collector st')
    = TestDataCollector.current_test_data (data_collector st) ++ frames /\
  frame_count st' = (frame_count st + Z.of_nat (List.length frames))%Z /\
  map (fun f => TestDataCollector.frame f) frames
    = zseq (frame_count st) (List.length frames) /\
  Forall (fun f =>
            TestDataCollector.test_id f = test_id /\
            TestDataCollector.safety_state f
              = HeadlessCarSimulator.classify
                  (HeadlessCarSimulator.barrier_distance (car st))
                  (TestDataCollector.distance_to_obstacle f) /\
            TestDataCollector.safety_state_text f
              = TestDataCollector._get_safety_state_text
                  (TestDataCollector.safety_state f)) frames /\
  safe_frames st' = (safe_frames st + count_state SAFE frames)%Z /\
  mild_unsafe_frames st'
    = (mild_unsafe_frames st + count_state MILD_UNSAFE frames)%Z /\
  unsafe_frames st' = (unsafe_frames st + count_state UNSAFE frames)%Z /\
  min_distance_observed st'
    = fold_left dist_min
        (map (fun f => TestDataCollector.distance_to_obstacle f) frames)
        (min_distance_observed st).

Lemma simulate_recorded (fuel : nat) (test_id : Z) (st st' : LoopState F) :
  simulate fuel test_id st = Ret st' ->
  exists frames, recorded test_id st st' frames.
Proof.
  revert st; induction fuel as [| fuel IH]; intros st; cbn [simulate];
    [discriminate |].
  destruct (step_returns (car st)) as [c' Hstep]. rewrite Hstep. cbn [bind fst snd].
  destruct (negb (HeadlessCarSimulator.has_reached_end c') && (frame_count st <? 1000)%Z).
  - destruct (get_safety_state_returns c') as (d & Hd & Hs).
    rewrite Hd. cbn [bind]. rewrite Hs. cbn [bind].
    intros Hrun. apply IH in Hrun. destruct Hrun as (frames & Hrec).
    apply step_preserves in Hstep. destruct Hstep as (_ & _ & Hb & _).
    unfold recorded in Hrec.
    cbn [car data_collector frame_count safe_frames mild_unsafe_frames unsafe_frames
         min_distance_observed TestDataCollector.collect_frame_data
         TestDataCollector.test_results TestDataCollector.current_test_data] in Hrec.
    destruct Hrec as (Hres & Hdata & Hcount & Hnum & Hall & Hsafe & Hmild & Hunsafe & Hmin).
    set (f0 := {| TestDataCollector.test_id := test_id;
                  TestDataCollector.frame := frame_count st;
                  TestDataCollector.position_x :=
                    fst (HeadlessCarSimulator.current_position c');
                  TestDataCollector.position_y :=
                    snd (HeadlessCarSimulator.current_position c');
                  TestDataCollector.distance_to_obstacle := d;
                  TestDataCollector.safety_state :=
                    HeadlessCarSimulator.classify
                      (HeadlessCarSimulator.barrier_distance c') d;
                  TestDataCollector.safety_state_text :=
                    TestDataCollector._get_safety_state_text
                      (HeadlessCarSimulator.classify
                         (HeadlessCarSimulator.barrier_distance c') d) |}) in *.
    exists (f0 :: frames). unfold recorded.
    split; [exact Hres |].
    split; [rewrite Hdata, <- app_assoc; reflexivity |].
    split; [cbn [List.length]; lia |].
    split; [cbn [map List.length zseq]; rewrite Hnum; reflexivity |].
    split.
    { constructor.
      - subst f0. cbn. rewrite Hb. repeat split.
      - rewrite <- Hb. exact Hall. }
    rewrite !count_state_cons. subst f0.
    cbn [TestDataCollector.safety_state TestDataCollector.distance_to_obstacle map
         fold_left].
    destruct (HeadlessCarSimulator.classify (HeadlessCarSimulator.barrier_distance c') d);
      cbn [SafetyState_eqb fst snd] in *;
      (split; [lia |]); (split; [lia |]); (split; [lia | exact Hmin]).
  - intros Hs. injection Hs as <-. exists []. unfold recorded.
    cbn [car data_collector frame_count safe_frames mild_unsafe_frames unsafe_frames
         min_distance_observed List.length map fold_left zseq].
    rewrite app_nil_r. unfold count_state. cbn.
    repeat split; try lia. constructor.
Qed.

End RunRecords.

(** X2: a run appends to the collector exactly one frame record per frame
    counted and nothing else: the records are numbered 0, 1, ... in order,
    carry the test id of the run, and the three counters of the result are
    the numbers of records in each safety state; the list of results of the
    collector is not touched. *)
Theorem run_records_one_frame_per_count
    {F : Type} {HF : Float F} {HG : GuardedDivision F}
    (fuel : nat) (test_id : Z) (s e : vec F) (obs : list (vec F)) (b spd : F)
    (dc : TestDataCollector.t F) (description : string) :
  (1000 < fuel)%nat ->
  exists result dc' frames,
    run_single_test fuel test_id s e obs b spd dc description = Ret (result, dc') /\
    TestDataCollector.test_results dc' = TestDataCollector.test_results dc /\
    TestDataCollector.current_test_data dc'
      = TestDataCollector.current_test_data dc ++ frames /\
    TestResult.total_frames result = Z.of_nat (List.length frames) /\
    map (fun f => TestDataCollector.frame f) frames = zseq 0 (List.length frames) /\
    Forall (fun f => TestDataCollector.test_id f = test_id) frames /\
    TestResult.safe_frames result = count_state SAFE frames /\
    TestResult.mild_unsafe_frames result = count_state MILD_UNSAFE frames /\
    TestResult.unsafe_frames result = count_state UNSAFE frames.
Proof.
  intros Hfuel.
  destruct (init_returns s e obs b spd) as (path & _ & Hinit).
  unfold run_single_test, run_single_test_loop. rewrite Hinit. cbn [bind].
  match goal with
  | |- context [simulate fuel test_id ?st0] =>
      destruct (@simulate_returns F HF fuel test_id st0) as (st & Hsim & _);
        [unfold counted; cbn; lia | cbn [frame_count]; lia |];
        destruct (simulate_recorded _ _ _ Hsim) as (frames & Hrec)
  end.
  rewrite Hsim. cbn [bind]. unfold recorded in Hrec.
  cbn [car data_collector frame_count safe_frames mild_unsafe_frames unsafe_frames
       min_distance_observed] in Hrec.
  destruct Hrec as (Hres & Hdata & Hcount & Hnum & Hall & Hsafe & Hmild & Hunsafe & _).
  do 3 eexists. split; [reflexivity |].
  cbn [TestResult.total_frames TestResult.safe_frames TestResult.mild_unsafe_frames
       TestResult.unsafe_frames].
  split; [exact Hres |]. split; [exact Hdata |]. split; [lia |].
  split; [exact Hnum |]. split.
  - eapply Forall_impl; [| exact Hall]. intros f Hf. apply Hf.
  - repeat split; lia.
Qed.

(** On binary64: the sample scenario. *)
Lemma run_records_one_frame_per_count_witness :
  exists result dc' frames,
    run_single_test (F := float) 1001 7 (0, 0)%float (10, 8)%float [(5, 4)%float]
      1%float (lit 0.02) TestDataCollector.init "sample" = Ret (result, dc') /\
    TestDataCollector.test_results dc' = [] /\
    TestDataCollector.current_test_data dc' = [] ++ frames /\
    TestResult.total_frames result = Z.of_nat (List.length frames) /\
    map (fun f => TestDataCollector.frame f) frames = zseq 0 (List.length frames) /\
    Forall (fun f => TestDataCollector.test_id f = 7%Z) frames /\
    TestResult.safe_frames result = count_state SAFE frames /\
    TestResult.mild_unsafe_frames result = count_state MILD_UNSAFE frames /\
    TestResult.unsafe_frames result = count_state UNSAFE frames.
Proof.
  apply (run_records_one_frame_per_count (F := float) 7 (0, 0)%float (10, 8)%float
           [(5, 4)%float] 1%float (lit 0.02) TestDataCollector.init "sample").
  lia.
Defined.

Section RunFrames.

Context {F : Type} {HF : Float F}.
Local Open Scope py_scope.

Lemma steps_preserves (n : nat) (c c' : HeadlessCarSimulator.t F) :
  steps n c = Ret c' ->
  HeadlessCarSimulator.path c' = HeadlessCarSimulator.path c /\
  HeadlessCarSimulator.obstacle_positions c' = HeadlessCarSimulator.obstacle_positions c /\
  HeadlessCarSimulator.barrier_distance c' = HeadlessCarSimulator.barrier_distance c.
Proof.
  revert c; induction n as [| n IH]; intros c; cbn [steps].
  - intros Hs. injection Hs as <-. repeat split.
  - destruct (step_returns c) as [c1 Hstep]. rewrite Hstep. cbn [bind fst]. intros Hs.
    apply IH in Hs. apply step_preserves in Hstep.
    destruct Hs as (H1 & H2 & H3), Hstep as (G1 & G2 & G3 & _).
    repeat split; congruence.
Qed.

(** The [k]-th frame recorded is the car after [k + 1] calls of [step]. *)
Definition frame_of_car (f : TestDataCollector.FrameData F)
    (c : HeadlessCarSimulator.t F) : Prop :=
  TestDataCollector.position_x f = fst (HeadlessCarSimulator.current_position c) /\
  TestDataCollector.position_y f = snd (HeadlessCarSimulator.current_position c) /\
  HeadlessCarSimulator.get_distance_to_obstacles c
    = Ret (TestDataCollector.distance_to_obstacle f) /\
  HeadlessCarSimulator.get_safety_state c = Ret (TestDataCollector.safety_state f) /\
  HeadlessCarSimulator.has_reached_end c = false.

Lemma simulate_frames_follow_steps (fuel : nat) (test_id : Z) (st st' : LoopState F)
    (frames : list (TestDataCollector.FrameData F)) :
  simulate fuel test_id st = Ret st' ->
  TestDataCollector.current_test_data (data_collector st')
    = TestDataCollector.current_test_data (data_collector st) ++ frames ->
  forall k f, nth_error frames k = Some f ->
    exists c, steps (S k) (car st) = Ret c /\ frame_of_car f c.
Proof.
  revert st frames; induction fuel as [| fuel IH]; intros st frames; cbn [simulate];
    [discriminate |].
  destruct (step_returns (car st)) as [c' Hstep]. rewrite Hstep. cbn [bind fst snd].
  destruct (negb (HeadlessCarSimulator.has_reached_end c') && (frame_count st <? 1000)%Z)
    eqn:Hgo.
  - destruct (get_safety_state_returns c') as (d & Hd & Hs).
    rewrite Hd. cbn [bind]. rewrite Hs. cbn [bind].
    intros Hrun Hdata.
    destruct (simulate_recorded _ _ _ Hrun) as (rest & Hrec).
    destruct Hrec as (_ & Hrest & _).
    cbn [data_collector TestDataCollector.collect_frame_data
         TestDataCollector.current_test_data] in Hrest.
    rewrite Hrest, <- app_assoc in Hdata. apply app_inv_head in Hdata. subst frames.
    intros k f Hk. destruct k as [| k].
    + cbn in Hk. injection Hk as <-. exists c'. cbn [steps]. rewrite Hstep.
      cbn [bind fst]. split; [reflexivity |].
      unfold frame_of_car. cbn. apply andb_prop in Hgo. destruct Hgo as [Hgo _].
      repeat split; try assumption. now destruct (HeadlessCarSimulator.has_reached_end c').
    + cbn [app nth_error] in Hk.
      destruct (IH _ rest Hrun) with (k := k) (f := f) as (c & Hc & Hf).
      * cbn [data_collector]. exact Hrest.
      * exact Hk.
      * exists c. split; [| exact Hf].
        cbn [car] in Hc. change (steps (S (S k)) (car st))
          with (bind (HeadlessCarSimulator.step (car st)) (fun r => steps (S k) (fst r))).
        rewrite Hstep. exact Hc.
  - intros Hs Hdata. injection Hs as <-. cbn [data_collector] in Hdata.
    rewrite <- (app_nil_r (TestDataCollector.current_test_data (data_collector st)))
      in Hdata at 1.
    apply app_inv_head in Hdata. subst frames. intros [| k] f Hk; discriminate.
Qed.

Lemma count_state_pos (s : SafetyState) (frames : list (TestDataCollector.FrameData F)) :
  (0 < count_state s frames)%Z
  <-> Exists (fun f => TestDataCollector.safety_state f = s) frames.
Proof.
  induction frames as [| f frames IH].
  - unfold count_state; cbn. split; [lia | intros H; inversion H].
  - rewrite count_state_cons. rewrite Exists_cons.
    assert (Hnn : (0 <= count_state s frames)%Z) by (unfold count_state; lia).
    destruct (TestDataCollector.safety_state f) eqn:Hf, s; cbn [SafetyState_eqb];
      split; intros H; try lia; try (now left);
      try (right; apply IH; lia);
      try (destruct H as [H | H]; [discriminate | apply IH in H; lia]).
Qed.

End RunFrames.

(** A run that returns, with its loop state, its first car and its frames. *)
Lemma run_single_test_recorded
    {F : Type} {HF : Float F} {HG : GuardedDivision F}
    (fuel : nat) (test_id : Z) (s e : vec F) (obs : list (vec F)) (b spd : F)
    (dc : TestDataCollector.t F) (description : string) :
  (1000 < fuel)%nat ->
  exists c0 st frames,
    HeadlessCarSimulator.init s e obs b spd = Ret c0 /\
    simulate fuel test_id
      {| car := c0; safe_frames := 0; mild_unsafe_frames := 0; unsafe_frames := 0;
         min_distance_observed := Inf; frame_count := 0; data_collector := dc |}
      = Ret st /\
    recorded test_id
      {| car := c0; safe_frames := 0; mild_unsafe_frames := 0; unsafe_frames := 0;
         min_distance_observed := Inf; frame_count := 0; data_collector := dc |}
      st frames /\
    run_single_test fuel test_id s e obs b spd dc description
    = Ret ({| TestResult.test_id := test_id; TestResult.barrier_distance := b;
              TestResult.total_frames := frame_count st;
              TestResult.safe_frames := safe_frames st;
              TestResult.mild_unsafe_frames := mild_unsafe_frames st;
              TestResult.unsafe_frames := unsafe_frames st;
              TestResult.min_distance_observed := min_distance_observed st;
              TestResult.description := description |}, data_collector st).
Proof.
  intros Hfuel.
  destruct (init_returns s e obs b spd) as (path & _ & Hinit).
  unfold run_single_test, run_single_test_loop. rewrite Hinit. cbn [bind].
  match goal with
  | |- context [simulate fuel test_id ?st0] =>
      destruct (@simulate_returns F HF fuel test_id st0) as (st & Hsim & _);
        [unfold counted; cbn; lia | cbn [frame_count]; lia |];
        destruct (simulate_recorded _ _ _ Hsim) as (frames & Hrec)
  end.
  eexists. exists st, frames. rewrite Hsim. cbn [bind].
  split; [reflexivity |]. split; [reflexivity |]. split; [exact Hrec | reflexivity].
Qed.

(** X3: the overall status of a result is the worst state among the frames
    the run recorded: UNSAFE exactly when some frame is UNSAFE, MILD_UNSAFE
    exactly when no frame is UNSAFE and some frame is MILD_UNSAFE, SAFE
    exactly when every frame is SAFE (so also when no frame was recorded). *)
Theorem status_is_worst_frame
    {F : Type} {HF : Float F} {HG : GuardedDivision F}
    (fuel : nat) (test_id : Z) (s e : vec F) (obs : list (vec F)) (b spd : F)
    (dc : TestDataCollector.t F) (description : string) :
  (1000 < fuel)%nat ->
  exists result dc' frames,
    run_single_test fuel test_id s e obs b spd dc description = Ret (result, dc') /\
    TestDataCollector.current_test_data dc'
      = TestDataCollector.current_test_data dc ++ frames /\
    (TestResult.safety_status result = UNSAFE
     <-> Exists (fun f => TestDataCollector.safety_state f = UNSAFE) frames) /\
    (TestResult.safety_status result = MILD_UNSAFE
     <-> ~ Exists (fun f => TestDataCollector.safety_state f = UNSAFE) frames /\
         Exists (fun f => TestDataCollector.safety_state f = MILD_UNSAFE) frames) /\
    (TestResult.safety_status result = SAFE
     <-> Forall (fun f => TestDataCollector.safety_state f = SAFE) frames).
Proof.
  intros Hfuel.
  destruct (run_single_test_recorded test_id s e obs b spd dc description Hfuel)
    as (c0 & st & frames & _ & _ & Hrec & Hrun).
  do 2 eexists. exists frames. split; [exact Hrun |].
  destruct Hrec as (_ & Hdata & _ & _ & _ & _ & Hmild & Hunsafe & _).
  cbn [data_collector mild_unsafe_frames unsafe_frames] in Hdata, Hmild, Hunsafe.
  split; [exact Hdata |].
  unfold TestResult.safety_status.
  cbn [TestResult.unsafe_frames TestResult.mild_unsafe_frames].
  rewrite Hmild, Hunsafe, !Z.add_0_l.
  pose proof (count_state_pos UNSAFE frames) as HU.
  pose proof (count_state_pos MILD_UNSAFE frames) as HM.
  assert (Hsafe : Forall (fun f => TestDataCollector.safety_state f = SAFE) frames
                  <-> ~ Exists (fun f => TestDataCollector.safety_state f = UNSAFE) frames
                      /\ ~ Exists (fun f => TestDataCollector.safety_state f = MILD_UNSAFE)
                           frames).
  { rewrite !Exists_exists, Forall_forall. split.
    - intros Hall. split; intros (f & Hf & Hs); rewrite (Hall f Hf) in Hs; discriminate.
    - intros [HnU HnM] f Hf.
      destruct (TestDataCollector.safety_state f) eqn:Hs; [reflexivity | |];
        exfalso; [apply HnM | apply HnU]; eauto. }
  destruct (count_state UNSAFE frames >? 0)%Z eqn:EU;
    [apply Z.gtb_lt in EU | rewrite Z.gtb_ltb in EU; apply Z.ltb_ge in EU];
    (destruct (count_state MILD_UNSAFE frames >? 0)%Z eqn:EM;
      [apply Z.gtb_lt in EM | rewrite Z.gtb_ltb in EM; apply Z.ltb_ge in EM]).
  all: rewrite Hsafe, <- HU, <- HM.
  all: repeat split; intros; try discriminate; try reflexivity; try lia.
  all: try (destruct H; lia).
Qed.

(** On binary64: a run through the barrier of the obstacle. *)
Lemma status_is_worst_frame_witness :
  exists result dc' frames,
    run_single_test (F := float) 1001 1 (0, 0)%float (10, 0)%float [(5, 0)%float]
      (lit 0.2) (lit 0.1) TestDataCollector.init "tight" = Ret (result, dc') /\
    TestDataCollector.current_test_data dc' = [] ++ frames /\
    (TestResult.safety_status result = UNSAFE
     <-> Exists (fun f => TestDataCollector.safety_state f = UNSAFE) frames) /\
    (TestResult.safety_status result = MILD_UNSAFE
     <-> ~ Exists (fun f => TestDataCollector.safety_state f = UNSAFE) frames /\
         Exists (fun f => TestDataCollector.safety_state f = MILD_UNSAFE) frames) /\
    (TestResult.safety_status result = SAFE
     <-> Forall (fun f => TestDataCollector.safety_state f = SAFE) frames).
Proof.
  apply (status_is_worst_frame (F := float) 1 (0, 0)%float (10, 0)%float [(5, 0)%float]
           (lit 0.2) (lit 0.1) TestDataCollector.init "tight").
  lia.
Defined.

(** X4: the [k]-th frame record of a run holds the position of the car
    after [k + 1] calls of [step] from the simulator that the constructor
    returns, its distance to the obstacles and its safety state, which is
    the classification of that distance under the barrier distance of the
    scenario; the car has not arrived at that frame, and the text of the
    record names its state. *)
Theorem frame_is_car_after_steps
    {F : Type} {HF : Float F} {HG : GuardedDivision F}
    (fuel : nat) (test_id : Z) (s e : vec F) (obs : list (vec F)) (b spd : F)
    (dc : TestDataCollector.t F) (description : string) :
  (1000 < fuel)%nat ->
  exists c0 result dc' frames,
    HeadlessCarSimulator.init s e obs b spd = Ret c0 /\
    run_single_test fuel test_id s e obs b spd dc description = Ret (result, dc') /\
    TestDataCollector.current_test_data dc'
      = TestDataCollector.current_test_data dc ++ frames /\
    forall k f, nth_error frames k = Some f ->
      exists c,
        steps (S k) c0 = Ret c /\
        HeadlessCarSimulator.has_reached_end c = false /\
        TestDataCollector.position_x f = fst (HeadlessCarSimulator.current_position c) /\
        TestDataCollector.position_y f = snd (HeadlessCarSimulator.current_position c) /\
        HeadlessCarSimulator.get_distance_to_obstacles c
          = Ret (TestDataCollector.distance_to_obstacle f) /\
        TestDataCollector.safety_state f
          = HeadlessCarSimulator.classify b (TestDataCollector.distance_to_obstacle f) /\
        TestDataCollector.safety_state_text f
          = TestDataCollector._get_safety_state_text (TestDataCollector.safety_state f).
Proof.
  intros Hfuel.
  destruct (run_single_test_recorded test_id s e obs b spd dc description Hfuel)
    as (c0 & st & frames & Hinit & Hsim & Hrec & Hrun).
  exists c0. do 2 eexists. exists frames.
  split; [exact Hinit |]. split; [exact Hrun |].
  destruct Hrec as (_ & Hdata & _ & _ & Hall & _).
  cbn [data_collector car] in Hdata, Hall.
  split; [exact Hdata |]. intros k f Hk.
  pose proof Hk as Hk'.
  eapply simulate_frames_follow_steps in Hk'; [| exact Hsim | exact Hdata].
  destruct Hk' as (c & Hc & Hf).
  cbn [car] in Hc. exists c. split; [exact Hc |].
  destruct Hf as (Hx & Hy & Hd & _ & Hend).
  rewrite Forall_forall in Hall. destruct (Hall f (nth_error_In _ _ Hk)) as (_ & Hs & Ht).
  destruct (init_returns s e obs b spd) as (path & _ & Hinit').
  rewrite Hinit in Hinit'. injection Hinit' as ->. cbn in Hs.
  repeat split; assumption.
Qed.

(** On binary64: the sample scenario. *)
Lemma frame_is_car_after_steps_witness :
  exists c0 result dc' frames,
    HeadlessCarSimulator.init (F := float) (0, 0)%float (10, 8)%float [(5, 4)%float]
      1%float (lit 0.02) = Ret c0 /\
    run_single_test 1001 1 (0, 0)%float (10, 8)%float [(5, 4)%float]
      1%float (lit 0.02) TestDataCollector.init "sample" = Ret (result, dc') /\
    TestDataCollector.current_test_data dc' = [] ++ frames /\
    forall k f, nth_error frames k = Some f ->
      exists c,
        steps (S k) c0 = Ret c /\
        HeadlessCarSimulator.has_reached_end c = false /\
        TestDataCollector.position_x f = fst (HeadlessCarSimulator.current_position c) /\
        TestDataCollector.position_y f = snd (HeadlessCarSimulator.current_position c) /\
        HeadlessCarSimulator.get_distance_to_obstacles c
          = Ret (TestDataCollector.distance_to_obstacle f) /\
        TestDataCollector.safety_state f
          = HeadlessCarSimulator.classify 1%float
              (TestDataCollector.distance_to_obstacle f) /\
        TestDataCollector.safety_state_text f
          = TestDataCollector._get_safety_state_text (TestDataCollector.safety_state f).
Proof.
  apply (frame_is_car_after_steps (F := float) 1 (0, 0)%float (10, 8)%float
           [(5, 4)%float] 1%float (lit 0.02) TestDataCollector.init "sample").
  lia.
Defined.

Section NoObstacle.

Context {F : Type} {HF : Float F}.

Lemma fold_dist_min_all_inf (ds : list (distance F)) (m : distance F) :
  Forall (fun d => d = Inf) ds -> fold_left dist_min ds m = m.
Proof.
  revert m; induction ds as [| d ds IH]; intros m Hall; cbn [fold_left]; [reflexivity |].
  inversion Hall; subst. rewrite IH by assumption. reflexivity.
Qed.

Lemma count_state_none (s : SafetyState) (frames : list (TestDataCollector.FrameData F)) :
  Forall (fun f => TestDataCollector.safety_state f = SAFE) frames ->
  s <> SAFE -> count_state s frames = 0%Z.
Proof.
  intros Hall Hs.
  assert (Hnn : (0 <= count_state s frames)%Z) by (unfold count_state; lia).
  destruct (Z.eq_dec (count_state s frames) 0) as [H0 | H0]; [exact H0 |].
  assert (Hpos : (0 < count_state s frames)%Z) by lia.
  apply count_state_pos in Hpos. apply Exists_exists in Hpos.
  destruct Hpos as (f & Hf & Hfs). rewrite Forall_forall in Hall.
  rewrite (Hall f Hf) in Hfs. congruence.
Qed.

End NoObstacle.

(** X5: a run with no obstacle returns, for every arithmetic, speed and
    barrier distance: every frame it counts is SAFE, the minimum distance
    observed stays infinite, and the overall status is SAFE. *)
Theorem run_without_obstacle_is_safe
    {F : Type} {HF : Float F}
    (fuel : nat) (test_id : Z) (s e : vec F) (b spd : F)
    (dc : TestDataCollector.t F) (description : string) :
  (1000 < fuel)%nat ->
  exists result dc',
    run_single_test fuel test_id s e [] b spd dc description = Ret (result, dc') /\
    TestResult.safe_frames result = TestResult.total_frames result /\
    TestResult.mild_unsafe_frames result = 0%Z /\
    TestResult.unsafe_frames result = 0%Z /\
    TestResult.min_distance_observed result = Inf /\
    TestResult.safety_status result = SAFE.
Proof.
  intros Hfuel.
  unfold run_single_test, run_single_test_loop, HeadlessCarSimulator.init.
  cbn [HeadlessCarSimulator.calculate_safe_path bind].
  match goal with
  | |- context [simulate fuel test_id ?st0] =>
      set (st0' := st0);
      destruct (@simulate_returns F HF fuel test_id st0') as (st & Hsim & Hcnt & _);
        [unfold counted; cbn; lia | cbn [frame_count st0']; lia |];
        destruct (simulate_recorded _ _ _ Hsim) as (frames & Hrec)
  end.
  rewrite Hsim. cbn [bind]. do 2 eexists. split; [reflexivity |].
  destruct Hrec as (_ & Hdata & _ & _ & Hall & Hsafe & Hmild & Hunsafe & Hmin).
  assert (Hinf : Forall (fun f => TestDataCollector.distance_to_obstacle f = Inf) frames).
  { apply Forall_forall. intros f Hf. apply In_nth_error in Hf. destruct Hf as [k Hk].
    eapply simulate_frames_follow_steps in Hk; [| exact Hsim | exact Hdata].
    destruct Hk as (c & Hc & _ & _ & Hd & _).
    apply steps_preserves in Hc. destruct Hc as (_ & Hobs & _).
    unfold HeadlessCarSimulator.get_distance_to_obstacles in Hd.
    rewrite Hobs in Hd. cbn in Hd. now injection Hd as <-. }
  assert (Hstate : Forall (fun f => TestDataCollector.safety_state f = SAFE) frames).
  { rewrite Forall_forall in *. intros f Hf. destruct (Hall f Hf) as (_ & -> & _).
    now rewrite (Hinf f Hf). }
  rewrite (count_state_none Hstate) in Hmild by discriminate.
  rewrite (count_state_none Hstate) in Hunsafe by discriminate.
  cbn [st0' mild_unsafe_frames unsafe_frames min_distance_observed] in Hmild, Hunsafe, Hmin.
  rewrite fold_dist_min_all_inf in Hmin
    by (apply Forall_map; eapply Forall_impl; [| exact Hinf]; auto).
  destruct Hcnt as (Hsum & _).
  unfold TestResult.safety_status.
  cbn [TestResult.safe_frames TestResult.total_frames TestResult.mild_unsafe_frames
       TestResult.unsafe_frames TestResult.min_distance_observed].
  rewrite Hmild, Hunsafe in *. cbn.
  repeat split; try assumption; lia.
Qed.

(** On binary64: the two-step scenario of one segment. *)
Lemma run_without_obstacle_is_safe_witness :
  exists result dc',
    run_single_test (F := float) 1001 1 (0, 0)%float (1, 0)%float [] 1%float (lit 0.5)
      TestDataCollector.init "open road" = Ret (result, dc') /\
    TestResult.safe_frames result = TestResult.total_frames result /\
    TestResult.mild_unsafe_frames result = 0%Z /\
    TestResult.unsafe_frames result = 0%Z /\
    TestResult.min_distance_observed result = Inf /\
    TestResult.safety_status result = SAFE.
Proof.
  apply (run_without_obstacle_is_safe (F := float) 1 (0, 0)%float (1, 0)%float
           1%float (lit 0.5) TestDataCollector.init "open road").
  lia.
Defined.

(** ** The shape of a planned path *)

Section PathShape.

Context {F : Type} {HF : Float F}.
Local Open Scope py_scope.

Import HeadlessCarSimulator.

Lemma spaced_app (l : list (vec F)) (p : vec F) :
  spaced l ->
  (l = [] \/ fltb (lit 0.1) (norm (vsub p (last l p))) = true) ->
  spaced (l ++ [p]).
Proof.
  induction l as [| a l IH]; intros Hl Hfar; [exact I |].
  destruct l as [| a' l].
  - cbn. destruct Hfar as [Hfar | Hfar]; [discriminate |]. cbn in Hfar. now split.
  - cbn [app spaced] in *. destruct Hl as [Haa' Hl]. split; [exact Haa' |].
    apply IH; [exact Hl |]. right.
    destruct Hfar as [Hfar | Hfar]; [discriminate | exact Hfar].
Qed.

Lemma remove_duplicates_spaced (path : list (vec F)) :
  spaced (remove_duplicates path) /\
  (List.length (remove_duplicates path) <= List.length path)%nat.
Proof.
  unfold remove_duplicates.
  assert (Hgen : forall todo clean, spaced clean ->
    spaced (fold_left
      (fun clean_path point =>
         if (List.length clean_path =? 0)%nat
            || fltb (lit 0.1) (norm (vsub point (last clean_path point)))
         then clean_path ++ [point] else clean_path) todo clean) /\
    (List.length (fold_left
      (fun clean_path point =>
         if (List.length clean_path =? 0)%nat
            || fltb (lit 0.1) (norm (vsub point (last clean_path point)))
         then clean_path ++ [point] else clean_path) todo clean)
     <= List.length clean + List.length todo)%nat).
  { induction todo as [| p todo IH]; intros clean Hclean; cbn [fold_left List.length].
    - split; [exact Hclean | lia].
    - destruct ((List.length clean =? 0)%nat
                || fltb (lit 0.1) (norm (vsub p (last clean p)))) eqn:Hcond.
      + destruct (IH (clean ++ [p])) as [Hs Hl].
        * apply spaced_app; [exact Hclean |].
          apply orb_prop in Hcond. destruct Hcond as [Hcond | Hcond]; [left | now right].
          apply Nat.eqb_eq in Hcond. now destruct clean.
        * split; [exact Hs |]. rewrite length_app in Hl. cbn [List.length] in Hl. lia.
      + destruct (IH clean Hclean) as [Hs Hl]. split; [exact Hs | lia]. }
  destruct (Hgen path [] I) as [Hs Hl]. split; [exact Hs | exact Hl].
Qed.

Lemma append_if_far_length (st : list (vec F) * vec F) (p : vec F) :
  (List.length (fst (append_if_far st p)) <= S (List.length (fst st)))%nat.
Proof.
  destruct st as [path cur]. unfold append_if_far.
  destruct (fltb (lit 0.1) (norm (vsub p cur))); cbn [fst].
  - rewrite length_app. cbn [List.length]. lia.
  - lia.
Qed.

Lemma plan_around_length s e obs b st o st' :
  plan_around s e obs b st o = Ret st' ->
  (List.length (fst st') <= 2 + List.length (fst st))%nat.
Proof.
  unfold plan_around.
  destruct (unit_if_nonzero (vsub e s)) as [md | |]; cbn [bind]; try discriminate.
  match goal with
  | |- context [bind (ensure_safe_point ?l ?d ?a) _] =>
      destruct (ensure_safe_point l d a) as [qa | |]; cbn [bind]; try discriminate
  end.
  match goal with
  | |- context [bind (ensure_safe_point ?l ?d ?a) _] =>
      destruct (ensure_safe_point l d a) as [qv | |]; cbn [bind]; try discriminate
  end.
  intros Hs. injection Hs as <-.
  pose proof (append_if_far_length (append_if_far st qa) qv).
  pose proof (append_if_far_length st qa). lia.
Qed.

Lemma plan_obstacles_length s e obs b todo st st' :
  plan_obstacles s e obs b todo st = Ret st' ->
  (List.length (fst st') <= 2 * List.length todo + List.length (fst st))%nat.
Proof.
  revert st; induction todo as [| o todo IH]; intros st; cbn [plan_obstacles].
  - intros Hs. injection Hs as <-. cbn [List.length]. lia.
  - destruct (plan_around s e obs b st o) as [st1 | |] eqn:H1; cbn [bind];
      try discriminate.
    intros Hs. apply IH in Hs. apply plan_around_length in H1.
    cbn [List.length]. lia.
Qed.

End PathShape.

(** X6: with at least one obstacle the planner returns a path that begins
    with the start point, has at most two points per obstacle besides the
    start and the destination, and in which any two consecutive points are
    more than 0.1 apart. *)
Theorem planned_path_is_spaced
    {F : Type} {HF : Float F} {HG : GuardedDivision F}
    (s e : vec F) (o : vec F) (obs : list (vec F)) (b : F) :
  exists rest,
    HeadlessCarSimulator.calculate_safe_path s e (o :: obs) b = Ret (s :: rest) /\
    spaced (s :: rest) /\
    (List.length (s :: rest) <= 2 * List.length (o :: obs) + 2)%nat.
Proof.
  destruct (calculate_safe_path_returns s e (o :: obs) b)
    as (path & Hpath & rest & -> & _).
  exists rest. split; [exact Hpath |].
  unfold HeadlessCarSimulator.calculate_safe_path in Hpath.
  destruct (HeadlessCarSimulator.plan_obstacles s e (o :: obs) b (o :: obs) ([s], s))
    as [st | |] eqn:Hplan; cbn [bind] in Hpath; try discriminate.
  destruct (HeadlessCarSimulator.ensure_safe_point (o :: obs) b e) as [qe | |];
    cbn [bind] in Hpath; try discriminate.
  injection Hpath as Hpath.
  destruct (remove_duplicates_spaced
              (fst (HeadlessCarSimulator.append_if_far st qe))) as [Hs Hl].
  rewrite Hpath in Hs, Hl. split; [exact Hs |].
  apply plan_obstacles_length in Hplan.
  pose proof (append_if_far_length st qe). cbn [List.length fst] in *. lia.
Qed.

(** On binary64: the sample scenario. *)
Lemma planned_path_is_spaced_witness :
  exists rest,
    HeadlessCarSimulator.calculate_safe_path (F := float) (0, 0)%float (10, 8)%float
      [(5, 4)%float] 1%float = Ret ((0, 0)%float :: rest) /\
    spaced ((0, 0)%float :: rest) /\
    (List.length ((0, 0)%float :: rest) <= 2 * List.length [(5, 4)%float] + 2)%nat.
Proof.
  exact (planned_path_is_spaced (F := float) (0, 0)%float (10, 8)%float (5, 4)%float
           [] 1%float).
Defined.

(** ** Points that the correction keeps *)

Section KeptPoints.

Import HeadlessCarSimulator.

Section Kept.

Context {F : Type} {HF : Float F}.

Lemma ensure_safe_point_kept (obs : list (vec F)) (b : F) (p : vec F) :
  (forall o, In o obs -> inside_barrier b o p = false) ->
  ensure_safe_point obs b p = Ret p.
Proof.
  unfold ensure_safe_point, inside_barrier.
  induction obs as [| o obs IH]; intros Hall; cbn [ensure_safe_from]; [reflexivity |].
  unfold push_away. rewrite (Hall o (or_introl eq_refl)). cbn [bind].
  apply IH. intros o' Ho'. apply Hall. now right.
Qed.

End Kept.

(** X7: for every arithmetic, [ensure_safe_point] returns unchanged a
    point that the test of the code, distance < barrier_distance, finds
    outside the barrier of every obstacle.  On binary64 that is so of
    every point with a NaN coordinate, of every point when the barrier
    distance is NaN, and of every point when each obstacle has a NaN
    coordinate: NaN is never corrected. *)
Theorem point_outside_every_barrier_is_kept :
  (forall (F : Type) (HF : Float F) (obs : list (vec F)) (b : F) (p : vec F),
     (forall o, In o obs -> inside_barrier b o p = false) ->
     ensure_safe_point obs b p = Ret p) /\
  (forall (obs : list (vec float)) (b : float) (p : vec float),
     is_nan b = true \/ is_nan (fst p) = true \/ is_nan (snd p) = true ->
     ensure_safe_point obs b p = Ret p) /\
  (forall (obs : list (vec float)) (b : float) (p : vec float),
     (forall o, In o obs -> is_nan (fst o) = true \/ is_nan (snd o) = true) ->
     ensure_safe_point obs b p = Ret p).
Proof.
  split; [intros F HF; apply ensure_safe_point_kept |]. split.
  - intros obs b p H. apply ensure_safe_point_kept. intros o _.
    unfold inside_barrier. cbn [fltb float_Float].
    destruct H as [H | H]; [apply float_nan_not_lt; now right |].
    rewrite norm_nan by tauto. apply float_nan_not_lt. now left.
  - intros obs b p H. apply ensure_safe_point_kept. intros o Ho.
    unfold inside_barrier. cbn [fltb float_Float].
    rewrite norm_nan by (specialize (H o Ho); tauto).
    apply float_nan_not_lt. now left.
Qed.

(** On binary64: a point with a NaN coordinate, and a point two units
    from the only obstacle with barrier distance 1. *)
Lemma point_outside_every_barrier_is_kept_witness :
  ensure_safe_point [(5, 4)%float; (7, 1)%float] 1%float (nan, 4)%float
  = Ret (nan, 4)%float /\
  ensure_safe_point [(5, 4)%float] 1%float (5, 6)%float = Ret (5, 6)%float.
Proof.
  split.
  - apply (proj1 (proj2 point_outside_every_barrier_is_kept)). right. now left.
  - apply (proj1 point_outside_every_barrier_is_kept).
    intros o [<- | []]. reflexivity.
Defined.

End KeptPoints.


(** ** Runs on the real numbers *)

Lemma simulate_car_invariant {F : Type} {HF : Float F}
    (P : HeadlessCarSimulator.t F -> Prop) :
  (forall c c' moving, P c -> HeadlessCarSimulator.step c = Ret (c', moving) -> P c') ->
  forall (fuel : nat) (test_id : Z) (st st' : LoopState F),
    P (car st) -> simulate fuel test_id st = Ret st' -> P (car st').
Proof.
  intros Hstep. induction fuel as [| fuel IH]; intros test_id st st' Hst; cbn [simulate];
    [discriminate |].
  destruct (step_returns (car st)) as [c' Hc']. rewrite Hc'. cbn [bind fst snd].
  pose proof (Hstep _ _ _ Hst Hc') as HP.
  destruct (negb (HeadlessCarSimulator.has_reached_end c') && (frame_count st <? 1000)%Z).
  - destruct (get_safety_state_returns c') as (d & Hd & Hs).
    rewrite Hd. cbn [bind]. rewrite Hs. cbn [bind]. apply IH. exact HP.
  - intros Hs. injection Hs as <-. exact HP.
Qed.

Section RealRuns.

Local Open Scope R_scope.

Import HeadlessCarSimulator.

Definition stalled (c : t R) : Prop :=
  has_reached_end c = false /\ progress c <= 0 /\ speed c <= 0.

Lemma step_stalled (c c' : t R) (moving : bool) :
  stalled c -> step c = Ret (c', moving) -> stalled c'.
Proof.
  intros (Hend & Hprog & Hspeed). unfold step. rewrite Hend.
  destruct (before_last_boundary c).
  - destruct (index (path c) (current_path_index c)) as [s0 | |]; cbn [bind];
      try discriminate.
    destruct (index (path c) (current_path_index c + 1)) as [s1 | |]; cbn [bind];
      try discriminate.
    cbn [progress set_progress speed fleb fadd lit R_Float].
    replace (Rleb (Q2R 1) (progress c + speed c)) with false.
    + cbn [has_reached_end set_progress]. rewrite Hend. cbn [negb].
      intros Hs. injection Hs as <- _. unfold stalled.
      cbn [has_reached_end progress speed set_current_position set_progress].
      rewrite Hend. repeat split; lra.
    + symmetry. unfold Rleb. destruct (Rle_dec (Q2R 1) (progress c + speed c)) as [H |];
        [| reflexivity].
      unfold Q2R in H; cbn in H. lra.
  - intros Hs. injection Hs as <- _. repeat split; assumption.
Qed.

(** X9: a car whose speed is zero or negative never arrives: whatever the
    scenario, the run is cut by the cap and its result counts exactly 1000
    frames. *)
Theorem stalled_run_counts_1000_frames
    (fuel : nat) (test_id : Z) (s e : vec R) (obs : list (vec R)) (b spd : R)
    (dc : TestDataCollector.t R) (description : string) :
  (1000 < fuel)%nat -> spd <= 0 ->
  exists result dc',
    run_single_test fuel test_id s e obs b spd dc description = Ret (result, dc') /\
    TestResult.total_frames result = 1000%Z.
Proof.
  intros Hfuel Hspd.
  destruct (init_returns s e obs b spd) as (pth & _ & Hinit).
  unfold run_single_test, run_single_test_loop. rewrite Hinit. cbn [bind].
  match goal with
  | |- context [simulate fuel test_id ?st0] =>
      set (st0' := st0);
      destruct (@simulate_returns R R_Float fuel test_id st0') as (st & Hsim & _ & Hcap);
        [unfold counted; cbn; lia | cbn [frame_count st0']; lia |]
  end.
  rewrite Hsim. cbn [bind]. do 2 eexists. split; [reflexivity |].
  cbn [TestResult.total_frames]. apply Hcap.
  apply (simulate_car_invariant stalled step_stalled) in Hsim.
  - apply Hsim.
  - unfold stalled. cbn. rewrite Q2R_0. repeat split; lra.
Qed.

(** The sample scenario with speed 0. *)
Lemma stalled_run_counts_1000_frames_witness :
  exists result dc',
    run_single_test 1001 1 (0, 0) (10, 8) [(5, 4)] 1 0 TestDataCollector.init "stalled"
      = Ret (result, dc') /\
    TestResult.total_frames result = 1000%Z.
Proof.
  apply (stalled_run_counts_1000_frames 1 (0, 0) (10, 8) [(5, 4)] 1
           TestDataCollector.init "stalled"); [lia | lra].
Defined.

End RealRuns.

(** ** The minimum distance observed, on binary64 *)

Lemma dist_is_nan_as_float (d : distance float) :
  dist_is_nan d = is_nan (as_float d).
Proof. destruct d; reflexivity. Qed.

Lemma dist_min_as_float (a b : distance float) :
  dist_min a b = if PrimFloat.ltb (as_float b) (as_float a) then b else a.
Proof.
  destruct a as [| x], b as [| y]; cbn [dist_min as_float flt_inf fltb float_Float];
    try reflexivity; now rewrite float_infinity_not_lt.
Qed.

Lemma fold_dist_min_least_float (ds : list (distance float)) (m : distance float) :
  dist_is_nan m = false ->
  dist_is_nan (fold_left dist_min ds m) = false /\
  dist_leb (fold_left dist_min ds m) m = true /\
  Forall (fun d => dist_is_nan d = false ->
                   dist_leb (fold_left dist_min ds m) d = true) ds /\
  (fold_left dist_min ds m = m \/ In (fold_left dist_min ds m) ds).
Proof.
  revert m; induction ds as [| d ds IH]; intros m Hm; cbn [fold_left].
  - split; [exact Hm |]. split.
    + unfold dist_leb. apply float_le_refl. now rewrite <- dist_is_nan_as_float.
    + split; [constructor | now left].
  - assert (Hstep : dist_is_nan (dist_min m d) = false /\
                    dist_leb (dist_min m d) m = true /\
                    (dist_is_nan d = false -> dist_leb (dist_min m d) d = true) /\
                    (dist_min m d = m \/ dist_min m d = d)).
    { rewrite dist_min_as_float. unfold dist_leb. rewrite !dist_is_nan_as_float in *.
      destruct (PrimFloat.ltb (as_float d) (as_float m)) eqn:Hlt.
      - pose proof (float_lt_number Hlt) as [Hd _].
        split; [exact Hd |]. split; [now apply float_ltb_leb |].
        split; [intros _; now apply float_le_refl | now right].
      - split; [exact Hm |]. split; [now apply float_le_refl |].
        split; [| now left]. intros Hd. now apply float_not_lt_le. }
    destruct Hstep as (Hnan & Hlm & Hld & Hor).
    destruct (IH (dist_min m d) Hnan) as (Hr & Hrm & Hall & Hin).
    split; [exact Hr |]. unfold dist_leb in *. split.
    + eapply float_le_trans; eassumption.
    + split.
      * constructor; [| exact Hall].
        intros Hd. eapply float_le_trans; [exact Hrm | now apply Hld].
      * destruct Hin as [Hin | Hin]; [| right; now right].
        rewrite Hin. destruct Hor as [-> | ->]; [now left | right; now left].
Qed.

(** X10: on binary64 the minimum distance of a result is never NaN and is
    the least of the distances recorded in the frames of its run that are
    numbers: it is at most each of them (a NaN distance is passed over),
    and it is one of the recorded distances unless it is still infinite. *)
Theorem min_distance_is_least_number_recorded
    (fuel : nat) (test_id : Z) (s e : vec float) (obs : list (vec float)) (b spd : float)
    (dc : TestDataCollector.t float) (description : string) :
  (1000 < fuel)%nat ->
  exists result dc' frames,
    run_single_test fuel test_id s e obs b spd dc description = Ret (result, dc') /\
    TestDataCollector.current_test_data dc'
      = TestDataCollector.current_test_data dc ++ frames /\
    dist_is_nan (TestResult.min_distance_observed result) = false /\
    Forall (fun f =>
              dist_is_nan (TestDataCollector.distance_to_obstacle f) = false ->
              dist_leb (TestResult.min_distance_observed result)
                       (TestDataCollector.distance_to_obstacle f) = true) frames /\
    (TestResult.min_distance_observed result = Inf \/
     Exists (fun f => TestDataCollector.distance_to_obstacle f
                      = TestResult.min_distance_observed result) frames).
Proof.
  intros Hfuel.
  destruct (run_single_test_recorded test_id s e obs b spd dc description Hfuel)
    as (c0 & st & frames & _ & _ & Hrec & Hrun).
  do 2 eexists. exists frames. split; [exact Hrun |].
  destruct Hrec as (_ & Hdata & _ & _ & _ & _ & _ & _ & Hmin).
  cbn [data_collector min_distance_observed] in Hdata, Hmin.
  split; [exact Hdata |]. cbn [TestResult.min_distance_observed]. rewrite Hmin.
  destruct (@fold_dist_min_least_float
              (map (fun f => TestDataCollector.distance_to_obstacle f) frames) Inf eq_refl)
    as (Hnan & _ & Hall & Hin).
  split; [exact Hnan |]. split.
  - rewrite Forall_map in Hall. exact Hall.
  - destruct Hin as [Hin | Hin]; [now left | right].
    apply in_map_iff in Hin. destruct Hin as (f & Hf & Hfin).
    apply Exists_exists. eauto.
Qed.

(** The sample scenario on binary64. *)
Lemma min_distance_is_least_number_recorded_witness :
  exists result dc' frames,
    run_single_test 1001 1 (0, 0)%float (10, 8)%float [(5, 4)%float] 1%float 0.02%float
      TestDataCollector.init "sample" = Ret (result, dc') /\
    TestDataCollector.current_test_data dc' = [] ++ frames /\
    dist_is_nan (TestResult.min_distance_observed result) = false.
Proof.
  destruct (@min_distance_is_least_number_recorded 1001 1 (0, 0)%float (10, 8)%float
              [(5, 4)%float] 1%float 0.02%float TestDataCollector.init "sample")
    as (result & dc' & frames & Hrun & Hdata & Hnan & _); [lia |].
  exists result, dc', frames. auto.
Defined.

(** ** moving_car.py *)

Section BarrierCheck.

Context {F : Type} {HF : Float F}.

Import HeadlessCarSimulator.

Lemma is_too_close_from_first (i : Z) (obs : list (vec F)) (b : F) (pos : vec F) :
  (fst (MovingCar.is_too_close_from i obs b pos) = false /\
   snd (MovingCar.is_too_close_from i obs b pos) = (-1)%Z /\
   forall o, In o obs -> inside_barrier b o pos = false) \/
  (fst (MovingCar.is_too_close_from i obs b pos) = true /\
   exists k o,
     snd (MovingCar.is_too_close_from i obs b pos) = (i + Z.of_nat k)%Z /\
     nth_error obs k = Some o /\ inside_barrier b o pos = true /\
     forall j o', (j < k)%nat -> nth_error obs j = Some o' ->
                  inside_barrier b o' pos = false).
Proof.
  unfold inside_barrier.
  revert i; induction obs as [| o obs IH]; intros i; cbn [MovingCar.is_too_close_from].
  - left. repeat split. intros o [].
  - destruct (fltb (norm (vsub pos o)) b) eqn:Hnear.
    + right. split; [reflexivity |].
      exists 0%nat, o. cbn [snd nth_error]. split; [lia |]. split; [reflexivity |].
      split; [exact Hnear |]. intros j o' Hj. lia.
    + destruct (IH (i + 1)%Z) as [(Hf & Hs & Hall) | (Ht & k & o1 & Hs & Hk & Hn & Hbefore)].
      * left. split; [exact Hf |]. split; [exact Hs |].
        intros o' [<- | Ho']; [exact Hnear | now apply Hall].
      * right. split; [exact Ht |]. exists (S k), o1.
        split; [rewrite Hs; lia |]. split; [exact Hk |]. split; [exact Hn |].
        intros [| j] o' Hj Ho'.
        -- cbn in Ho'. injection Ho' as <-. exact Hnear.
        -- cbn in Ho'. apply (Hbefore j o'); [lia | exact Ho'].
Qed.

Lemma is_too_close_false (c : t F) (pos : vec F) :
  fst (MovingCar.is_too_close_to_obstacle c pos) = false <->
  forall o, In o (obstacle_positions c) -> inside_barrier (barrier_distance c) o pos = false.
Proof.
  unfold MovingCar.is_too_close_to_obstacle.
  destruct (is_too_close_from_first 0 (obstacle_positions c) (barrier_distance c) pos)
    as [(Hf & _ & Hall) | (Ht & k & o & _ & Hk & Hn & _)].
  - split; [intros _; exact Hall | intros _; exact Hf].
  - split; [rewrite Ht; discriminate |].
    intros Hall. apply nth_error_In in Hk. apply Hall in Hk. congruence.
Qed.

End BarrierCheck.

Section BarrierCheckOfTheCar.

Import HeadlessCarSimulator.


(** X11: for every arithmetic, [is_too_close_to_obstacle] answers
    [(False, -1)] exactly when the test of the code, distance <
    barrier_distance, fails for every obstacle, and otherwise [True] with
    the index of the first obstacle, in the order of the list, for which
    it holds.  On binary64, at the position of the car and when none of
    the distances computed to the obstacles is NaN, it answers [True]
    exactly when the least distance to an obstacle is below the barrier
    distance, which, for a barrier distance of at least 0.5, is exactly
    when the safety state is not SAFE. *)
Theorem barrier_check_finds_first_inside :
  (forall (F : Type) (HF : Float F) (c : t F) (pos : vec F),
     (fst (MovingCar.is_too_close_to_obstacle c pos) = false <->
      forall o, In o (obstacle_positions c) ->
                inside_barrier (barrier_distance c) o pos = false) /\
     (fst (MovingCar.is_too_close_to_obstacle c pos) = false ->
      snd (MovingCar.is_too_close_to_obstacle c pos) = (-1)%Z) /\
     (fst (MovingCar.is_too_close_to_obstacle c pos) = true ->
      exists k o,
        snd (MovingCar.is_too_close_to_obstacle c pos) = Z.of_nat k /\
        nth_error (obstacle_positions c) k = Some o /\
        inside_barrier (barrier_distance c) o pos = true /\
        forall j o', (j < k)%nat -> nth_error (obstacle_positions c) j = Some o' ->
                     inside_barrier (barrier_distance c) o' pos = false)) /\
  (forall c : t float,
     (forall o, In o (obstacle_positions c) ->
                is_nan (norm (vsub (current_position c) o)) = false) ->
     exists d,
       get_distance_to_obstacles c = Ret d /\
       (fst (MovingCar.is_too_close_to_obstacle c (current_position c)) = true
        <-> dist_ltb d (barrier_distance c) = true) /\
       (PrimFloat.leb 0.5 (barrier_distance c) = true ->
        (fst (MovingCar.is_too_close_to_obstacle c (current_position c)) = true
         <-> classify (barrier_distance c) d <> SAFE))).
Proof.
  split.
  - intros F HF c pos. split; [apply is_too_close_false |]. split.
    + intros Hf. unfold MovingCar.is_too_close_to_obstacle in *.
      destruct (is_too_close_from_first 0 (obstacle_positions c) (barrier_distance c) pos)
        as [(_ & Hs & _) | (Ht & _)]; [exact Hs | congruence].
    + intros Ht. unfold MovingCar.is_too_close_to_obstacle in *.
      destruct (is_too_close_from_first 0 (obstacle_positions c) (barrier_distance c) pos)
        as [(Hf & _) | (_ & k & o & Hs & Hrest)]; [congruence |].
      exists k, o. split; [rewrite Hs; lia | exact Hrest].
  - intros c Hnum.
    destruct (get_distance_to_obstacles_least_computed c) as (d & Hd & Hleast).
    exists d. split; [exact Hd |].
    assert (Hiff :
      fst (MovingCar.is_too_close_to_obstacle c (current_position c)) = true
      <-> dist_ltb d (barrier_distance c) = true).
    { destruct (fst (MovingCar.is_too_close_to_obstacle c (current_position c))) eqn:Hfst.
      - split; [intros _ | reflexivity].
        destruct (dist_ltb d (barrier_distance c)) eqn:Hlt; [reflexivity |].
        exfalso.
        assert (Hall : forall o, In o (obstacle_positions c) ->
                  inside_barrier (barrier_distance c) o (current_position c) = false).
        { destruct d as [| r]; cbn [least_computed dist_ltb] in *.
          - rewrite Hleast. intros o [].
          - destruct Hleast as [_ Hle]. destruct (Hle Hnum) as [Hr Hle'].
            intros o Ho. unfold inside_barrier. cbn [fltb float_Float] in *.
            destruct (PrimFloat.ltb (norm (vsub (current_position c) o))
                                    (barrier_distance c)) eqn:Ho'; [| reflexivity].
            rewrite (float_le_lt_trans (Hle' o Ho) Ho') in Hlt. discriminate Hlt. }
        apply is_too_close_false in Hall. congruence.
      - split; [discriminate |]. intros Hlt. exfalso.
        pose proof (proj1 (is_too_close_false c (current_position c)) Hfst) as Hfar.
        destruct d as [| r]; cbn [least_computed dist_ltb] in *; [discriminate Hlt |].
        destruct Hleast as [(o & Ho & ->) _]. specialize (Hfar o Ho).
        unfold inside_barrier in Hfar. congruence. }
    split; [exact Hiff |]. intros Hb. rewrite Hiff.
    unfold classify. cbn [lit float_Float]. rewrite float_lit_1_2.
    destruct (dist_ltb d 0.5%float) eqn:Hhalf.
    + split; [discriminate |]. intros _.
      destruct d as [| r]; cbn [dist_ltb fltb float_Float] in *; [discriminate Hhalf |].
      eapply float_lt_le_trans; eassumption.
    + destruct (dist_ltb d (barrier_distance c));
        split; try discriminate; try reflexivity; intros H; now elim H.
Qed.

(** A car at (0,0) on binary64 with obstacles at (3,0) and (0.5,0) and
    barrier distance 1. *)
Lemma barrier_check_finds_first_inside_witness :
  exists d,
    get_distance_to_obstacles
      {| start_point := (0, 0)%float; end_point := (10, 0)%float;
         obstacle_positions := [(3, 0)%float; (0.5, 0)%float];
         barrier_distance := 1%float; speed := 0.02%float;
         current_position := (0, 0)%float;
         path := [(0, 0)%float; (10, 0)%float]; current_path_index := 0;
         progress := 0%float; has_reached_end := false |} = Ret d /\
    (fst (MovingCar.is_too_close_to_obstacle
            {| start_point := (0, 0)%float; end_point := (10, 0)%float;
               obstacle_positions := [(3, 0)%float; (0.5, 0)%float];
               barrier_distance := 1%float; speed := 0.02%float;
               current_position := (0, 0)%float;
               path := [(0, 0)%float; (10, 0)%float]; current_path_index := 0;
               progress := 0%float; has_reached_end := false |} (0, 0)%float) = true
     <-> dist_ltb d 1%float = true).
Proof.
  destruct (proj2 barrier_check_finds_first_inside
    {| start_point := (0, 0)%float; end_point := (10, 0)%float;
       obstacle_positions := [(3, 0)%float; (0.5, 0)%float];
       barrier_distance := 1%float; speed := 0.02%float;
       current_position := (0, 0)%float;
       path := [(0, 0)%float; (10, 0)%float]; current_path_index := 0;
       progress := 0%float; has_reached_end := false |})
    as (d & Hd & Hiff & _).
  - intros o [<- | [<- | []]]; reflexivity.
  - exists d. split; [exact Hd | exact Hiff].
Defined.

End BarrierCheckOfTheCar.

(** X12: the animated car moves as the headless one.  On a car that has
    arrived or that stands before the last point of its path, [update]
    leaves exactly the car that [step] leaves.  They differ on a car that
    has not arrived although no segment is left (a path of one point):
    [update] marks it as arrived and puts it on the end point, after which
    it no longer changes, while [step] leaves it as it is and answers
    [True]. *)
Theorem update_moves_as_step {F : Type} {HF : Float F} (c : HeadlessCarSimulator.t F) :
  (HeadlessCarSimulator.has_reached_end c = true \/
   HeadlessCarSimulator.before_last_boundary c = true ->
   exists c' moving,
     HeadlessCarSimulator.step c = Ret (c', moving) /\ MovingCar.update c = Ret c') /\
  (HeadlessCarSimulator.has_reached_end c = false ->
   HeadlessCarSimulator.before_last_boundary c = false ->
   HeadlessCarSimulator.step c = Ret (c, true) /\
   exists c',
     MovingCar.update c = Ret c' /\
     HeadlessCarSimulator.has_reached_end c' = true /\
     HeadlessCarSimulator.current_position c' = HeadlessCarSimulator.end_point c /\
     HeadlessCarSimulator.path c' = HeadlessCarSimulator.path c /\
     HeadlessCarSimulator.current_path_index c'
       = HeadlessCarSimulator.current_path_index c /\
     MovingCar.update c' = Ret c').
Proof.
  split.
  - intros Hcase. unfold HeadlessCarSimulator.step, MovingCar.update.
    destruct (HeadlessCarSimulator.has_reached_end c) eqn:Hend; cbn [negb].
    + eauto.
    + destruct Hcase as [Hcase | Hb]; [discriminate |]. rewrite Hb.
      pose proof Hb as Hlt. unfold HeadlessCarSimulator.before_last_boundary in Hlt.
      apply Z.ltb_lt in Hlt.
      destruct (@index_in_range _ (HeadlessCarSimulator.path c)
                  (HeadlessCarSimulator.current_path_index c)) as (x0 & -> & _); [lia |].
      destruct (@index_in_range _ (HeadlessCarSimulator.path c)
                  (HeadlessCarSimulator.current_path_index c + 1)) as (x1 & -> & _);
        [lia |].
      cbn [bind].
      match goal with
      | |- context [if negb (HeadlessCarSimulator.has_reached_end ?c1) then _ else _] =>
          destruct (HeadlessCarSimulator.has_reached_end c1) eqn:Hend1
      end; cbn [negb]; eauto.
  - intros Hend Hb. unfold HeadlessCarSimulator.step, MovingCar.update.
    rewrite Hend, Hb. cbn [negb]. split; [reflexivity |].
    eexists. split; [reflexivity |].
    cbn [HeadlessCarSimulator.has_reached_end HeadlessCarSimulator.current_position
         HeadlessCarSimulator.path HeadlessCarSimulator.current_path_index
         HeadlessCarSimulator.set_current_position
         HeadlessCarSimulator.set_has_reached_end negb].
    repeat split.
Qed.

(** On binary64: a car on a path of one point. *)
Lemma update_moves_as_step_witness :
  exists c',
    MovingCar.update
      {| HeadlessCarSimulator.start_point := (0, 0)%float;
         HeadlessCarSimulator.end_point := (0, 0.05)%float;
         HeadlessCarSimulator.obstacle_positions := [(0, 0)%float];
         HeadlessCarSimulator.barrier_distance := 0%float;
         HeadlessCarSimulator.speed := lit 0.02;
         HeadlessCarSimulator.current_position := (0, 0)%float;
         HeadlessCarSimulator.path := [(0, 0)%float];
         HeadlessCarSimulator.current_path_index := 0;
         HeadlessCarSimulator.progress := 0%float;
         HeadlessCarSimulator.has_reached_end := false |} = Ret c' /\
    HeadlessCarSimulator.has_reached_end c' = true /\
    HeadlessCarSimulator.current_position c' = (0, 0.05)%float /\
    MovingCar.update c' = Ret c'.
Proof.
  destruct (proj2 (update_moves_as_step
    {| HeadlessCarSimulator.start_point := (0, 0)%float;
       HeadlessCarSimulator.end_point := (0, 0.05)%float;
       HeadlessCarSimulator.obstacle_positions := [(0, 0)%float];
       HeadlessCarSimulator.barrier_distance := 0%float;
       HeadlessCarSimulator.speed := lit 0.02;
       HeadlessCarSimulator.current_position := (0, 0)%float;
       HeadlessCarSimulator.path := [(0, 0)%float];
       HeadlessCarSimulator.current_path_index := 0;
       HeadlessCarSimulator.progress := 0%float;
       HeadlessCarSimulator.has_reached_end := false |}) eq_refl eq_refl)
    as (_ & c' & Hu & Hend & Hpos & _ & _ & Hfix).
  exists c'. repeat split; assumption.
Defined.

(** ** The prompt for the speed, on binary64 *)

(** X13: whatever is typed, [get_speed] answers a speed between 0.001 and
    0.1: a number typed is clamped to that range (NaN becomes 0.1), an empty
    line is read as "0.02", and text that is not a number gives 0.02.  A
    number strictly inside the range is answered as it is. *)
Theorem get_speed_in_range (float_of_string : string -> option float) (typed : string) :
  PrimFloat.leb (lit 0.001) (MovingCar.get_speed float_of_string typed) = true /\
  PrimFloat.leb (MovingCar.get_speed float_of_string typed) (lit 0.1) = true /\
  (forall x, typed <> ""%string -> float_of_string typed = Some x ->
     PrimFloat.ltb (lit 0.001) x = true -> PrimFloat.ltb x (lit 0.1) = true ->
     MovingCar.get_speed float_of_string typed = x) /\
  (float_of_string "0.02"%string = Some (lit 0.02) ->
   MovingCar.get_speed float_of_string "" = lit 0.02).
Proof.
  unfold MovingCar.get_speed, parse_float.
  set (text := if String.eqb typed "" then "0.02"%string else typed).
  assert (Hclamp : forall x,
    PrimFloat.leb (lit 0.001) (py_max (lit 0.001) (MovingCar.py_min (lit 0.1) x)) = true /\
    PrimFloat.leb (py_max (lit 0.001) (MovingCar.py_min (lit 0.1) x)) (lit 0.1) = true).
  { intros x. unfold py_max, MovingCar.py_min. cbn [fltb lit float_Float].
    destruct (PrimFloat.ltb x (float_lit 0.1)) eqn:H1.
    - destruct (PrimFloat.ltb (float_lit 0.001) x) eqn:H2.
      + split; now apply float_ltb_leb.
      + split; reflexivity.
    - replace (PrimFloat.ltb (float_lit 0.001) (float_lit 0.1)) with true by reflexivity.
      split; reflexivity. }
  split; [| split; [| split]].
  - destruct (float_of_string text) as [x |]; [apply Hclamp | reflexivity].
  - destruct (float_of_string text) as [x |]; [apply Hclamp | reflexivity].
  - intros x Htyped Hx Hlo Hhi. subst text.
    replace (String.eqb typed "") with false
      by (symmetry; now apply String.eqb_neq).
    rewrite Hx. unfold py_max, MovingCar.py_min. cbn [fltb lit float_Float] in *.
    now rewrite Hhi, Hlo.
  - intros H002. cbn [String.eqb]. rewrite H002. reflexivity.
Qed.

(** The prompt with the reader of decimal text, on "0.05", "7", "nan",
    the empty line and "fast". *)
Lemma get_speed_in_range_witness :
  MovingCar.get_speed read_float "0.05" = lit 0.05 /\
  MovingCar.get_speed read_float "" = lit 0.02 /\
  PrimFloat.leb (MovingCar.get_speed read_float "7") (lit 0.1) = true /\
  PrimFloat.leb (MovingCar.get_speed read_float "nan") (lit 0.1) = true /\
  PrimFloat.leb (lit 0.001) (MovingCar.get_speed read_float "fast") = true.
Proof.
  split; [| split; [| split; [| split]]].
  - apply (proj1 (proj2 (proj2 (get_speed_in_range read_float "0.05"))));
      [discriminate | reflexivity | reflexivity | reflexivity].
  - apply (proj2 (proj2 (proj2 (get_speed_in_range read_float "")))). reflexivity.
  - apply (proj1 (proj2 (get_speed_in_range read_float "7"))).
  - apply (proj1 (proj2 (get_speed_in_range read_float "nan"))).
  - apply (proj1 (get_speed_in_range read_float "fast")).
Defined.

(** ** The groups of the report *)

(** The members filed under a description. *)
Fixpoint members_of {F : Type} (d : string)
    (groups : list (string * list (TestResult.t F))) : list (TestResult.t F) :=
  match groups with
  | [] => []
  | (k, ms) :: rest => if String.eqb k d then ms else members_of d rest
  end.

Section Grouping.

Context {F : Type} {HF : Float F}.

Lemma members_of_group_append (d : string)
    (groups : list (string * list (TestResult.t F))) (r : TestResult.t F) :
  members_of d (group_append groups r)
  = members_of d groups ++ (if String.eqb (TestResult.description r) d then [r] else []).
Proof.
  induction groups as [| [k ms] groups IH]; cbn [group_append members_of].
  - destruct (String.eqb (TestResult.description r) d); reflexivity.
  - destruct (String.eqb k (TestResult.description r)) eqn:Hk; cbn [members_of].
    + apply String.eqb_eq in Hk. subst k.
      destruct (String.eqb (TestResult.description r) d); [reflexivity |].
      now rewrite app_nil_r.
    + destruct (String.eqb k d) eqn:Hd; [| exact IH].
      apply String.eqb_eq in Hd. subst d.
      rewrite String.eqb_sym, Hk. now rewrite app_nil_r.
Qed.

Lemma keys_of_group_append (groups : list (string * list (TestResult.t F)))
    (r : TestResult.t F) :
  (forall k, In k (map fst (group_append groups r))
             <-> In k (map fst groups) \/ k = TestResult.description r) /\
  (NoDup (map fst groups) -> NoDup (map fst (group_append groups r))).
Proof.
  induction groups as [| [k0 ms] groups [IHin IHnd]]; cbn [group_append map fst].
  - split.
    + intros k. cbn. intuition congruence.
    + intros _. repeat constructor. intros [].
  - destruct (String.eqb k0 (TestResult.description r)) eqn:Hk; cbn [map fst].
    + apply String.eqb_eq in Hk. split.
      * intros k. cbn. intuition congruence.
      * auto.
    + apply String.eqb_neq in Hk. split.
      * intros k. cbn. rewrite IHin. tauto.
      * intros Hnd. inversion Hnd; subst. constructor; [| now apply IHnd].
        rewrite IHin. intros [Hin | Heq]; [contradiction | congruence].
Qed.

Lemma members_of_In (d : string) (ms : list (TestResult.t F))
    (groups : list (string * list (TestResult.t F))) :
  NoDup (map fst groups) -> In (d, ms) groups -> members_of d groups = ms.
Proof.
  induction groups as [| [k ms0] groups IH]; intros Hnd Hin; [destruct Hin |].
  cbn [map fst] in Hnd. inversion Hnd; subst. cbn [members_of].
  destruct Hin as [Heq | Hin].
  - injection Heq as -> ->. now rewrite String.eqb_refl.
  - destruct (String.eqb k d) eqn:Hk; [| now apply IH].
    apply String.eqb_eq in Hk. subst k. exfalso. apply H1.
    change d with (fst (d, ms)). now apply in_map.
Qed.

Lemma group_by_description_filed (test_results : list (TestResult.t F)) :
  NoDup (map fst (group_by_description test_results)) /\
  (forall d, members_of d (group_by_description test_results)
             = filter (fun r => String.eqb (TestResult.description r) d) test_results) /\
  (forall k, In k (map fst (group_by_description test_results))
             <-> exists r, In r test_results /\ TestResult.description r = k).
Proof.
  unfold group_by_description.
  assert (Hgen : forall (todo done : list (TestResult.t F))
                        (groups : list (string * list (TestResult.t F))),
    NoDup (map fst groups) ->
    (forall d, members_of d groups
               = filter (fun r => String.eqb (TestResult.description r) d) done) ->
    (forall k, In k (map fst groups)
               <-> exists r, In r done /\ TestResult.description r = k) ->
    NoDup (map fst (fold_left (@group_append F) todo groups)) /\
    (forall d, members_of d (fold_left (@group_append F) todo groups)
               = filter (fun r => String.eqb (TestResult.description r) d) (done ++ todo)) /\
    (forall k, In k (map fst (fold_left (@group_append F) todo groups))
               <-> exists r, In r (done ++ todo) /\ TestResult.description r = k)).
  { induction todo as [| r todo IH]; intros done groups Hnd Hmem Hkeys; cbn [fold_left].
    - rewrite app_nil_r. auto.
    - replace (done ++ r :: todo) with ((done ++ [r]) ++ todo)
        by (rewrite <- app_assoc; reflexivity).
      destruct (keys_of_group_append groups r) as [Hin Hnd'].
      apply IH.
      + now apply Hnd'.
      + intros d. rewrite members_of_group_append, Hmem, filter_app. reflexivity.
      + intros k. rewrite Hin, Hkeys. split.
        * intros [(r0 & Hr0 & Hd) | ->].
          -- exists r0. split; [apply in_or_app; now left | exact Hd].
          -- exists r. split; [apply in_or_app; right; now left | reflexivity].
        * intros (r0 & Hr0 & Hd). apply in_app_or in Hr0.
          destruct Hr0 as [Hr0 | [<- | []]]; [left; eauto | right; congruence]. }
  apply (Hgen test_results [] []).
  - constructor.
  - reflexivity.
  - intros k. cbn. split; [intros [] | intros (r & [] & _)].
Qed.

End Grouping.

(** X14: the report files every result under its description, once: the
    descriptions of the groups are distinct, they are exactly the
    descriptions that occur, the members of a group are the results with
    its description in their input order, and no group is empty. *)
Theorem groups_partition_results {F : Type} {HF : Float F}
    (test_results : list (TestResult.t F)) :
  NoDup (map fst (group_by_description test_results)) /\
  (forall d ms, In (d, ms) (group_by_description test_results) ->
     ms = filter (fun r => String.eqb (TestResult.description r) d) test_results /\
     ms <> []) /\
  (forall r, In r test_results ->
     exists ms, In (TestResult.description r, ms) (group_by_description test_results) /\
                In r ms).
Proof.
  destruct (group_by_description_filed test_results) as (Hnd & Hmem & Hkeys).
  split; [exact Hnd |]. split.
  - intros d ms Hin. split.
    + rewrite <- Hmem. symmetry. now apply members_of_In.
    + pose proof (group_by_description_nonempty test_results) as Hne.
      rewrite Forall_forall in Hne. exact (Hne _ Hin).
  - intros r Hr.
    assert (Hk : In (TestResult.description r) (map fst (group_by_description test_results)))
      by (apply Hkeys; eauto).
    apply in_map_iff in Hk. destruct Hk as ([d ms] & Hd & Hin). cbn in Hd. subst d.
    exists ms. split; [exact Hin |].
    rewrite <- (@members_of_In _ _ _ _ Hnd Hin), Hmem. apply filter_In.
    split; [exact Hr | apply String.eqb_refl].
Qed.

(** Three results on binary64, two descriptions. *)
Lemma groups_partition_results_witness :
  exists ms,
    In ("b"%string, ms)
       (group_by_description (F := float)
          [ {| TestResult.test_id := 1; TestResult.barrier_distance := 1%float;
               TestResult.total_frames := 9; TestResult.safe_frames := 9;
               TestResult.mild_unsafe_frames := 0; TestResult.unsafe_frames := 0;
               TestResult.min_distance_observed := Inf;
               TestResult.description := "a" |};
            {| TestResult.test_id := 2; TestResult.barrier_distance := 2%float;
               TestResult.total_frames := 9; TestResult.safe_frames := 9;
               TestResult.mild_unsafe_frames := 0; TestResult.unsafe_frames := 0;
               TestResult.min_distance_observed := Inf;
               TestResult.description := "b" |};
            {| TestResult.test_id := 3; TestResult.barrier_distance := 3%float;
               TestResult.total_frames := 9; TestResult.safe_frames := 9;
               TestResult.mild_unsafe_frames := 0; TestResult.unsafe_frames := 0;
               TestResult.min_distance_observed := Inf;
               TestResult.description := "a" |} ]) /\
    In {| TestResult.test_id := 2; TestResult.barrier_distance := 2%float;
          TestResult.total_frames := 9; TestResult.safe_frames := 9;
          TestResult.mild_unsafe_frames := 0; TestResult.unsafe_frames := 0;
          TestResult.min_distance_observed := Inf;
          TestResult.description := "b" |} ms.
Proof.
  apply (proj2 (proj2 (groups_partition_results (F := float) _))
           {| TestResult.test_id := 2; TestResult.barrier_distance := 2%float;
              TestResult.total_frames := 9; TestResult.safe_frames := 9;
              TestResult.mild_unsafe_frames := 0; TestResult.unsafe_frames := 0;
              TestResult.min_distance_observed := Inf;
              TestResult.description := "b" |}).
  right. now left.
Defined.

(** ** The tallies of the report *)

Section Tallies.

Context {F : Type} {HF : Float F}.

Lemma count_status_total (results : list (TestResult.t F)) :
  (count_status SAFE results + count_status MILD_UNSAFE results
   + count_status UNSAFE results = Z.of_nat (List.length results))%Z.
Proof.
  unfold count_status.
  induction results as [| r rs IH]; [reflexivity |].
  cbn [filter List.length].
  destruct (TestResult.safety_status r); cbn [SafetyState_eqb List.length]; lia.
Qed.

Lemma count_status_nonneg (s : SafetyState) (results : list (TestResult.t F)) :
  (0 <= count_status s results)%Z.
Proof. unfold count_status. lia. Qed.

End Tallies.

(** ** The report of a list that is not empty *)

Section Reports.

Context {F : Type} {HF : Float F}.

Lemma count_all_nonempty (results : list (TestResult.t F)) :
  results <> [] -> exists c, count_all results = Ret c.
Proof.
  intros Hne. unfold count_all, percentage.
  replace (Z.of_nat (List.length results) =? 0)%Z with false; [cbn [bind]; eauto |].
  symmetry. apply Z.eqb_neq. destruct results; [congruence | cbn [List.length]; lia].
Qed.

Lemma find_optimal_nonempty (results : list (TestResult.t F)) :
  results <> [] -> exists r, find_optimal results = Ret r.
Proof.
  intros Hne. unfold find_optimal.
  destruct (filter _ results) as [| s safe_tests].
  - destruct results; [congruence |]. cbn [py_min_by bind]. eauto.
  - cbn [py_min_by bind]. eauto.
Qed.

Lemma report_groups_nonempty (grouped : list (string * list (TestResult.t F))) :
  Forall (fun g => snd g <> []) grouped ->
  exists gs, report_groups grouped = Ret gs.
Proof.
  induction grouped as [| [d ms] grouped IH]; intros Hall; cbn [report_groups].
  - eauto.
  - inversion Hall as [| ? ? Hms Hrest]; subst. cbn [snd] in Hms.
    destruct (IH Hrest) as (gs & Hgs).
    destruct (count_all_nonempty Hms) as (c & Hc).
    destruct (find_optimal_nonempty Hms) as (r & Hr).
    unfold report_group. rewrite Hc. cbn [bind]. rewrite Hr. cbn [bind].
    rewrite Hgs. cbn [bind]. eauto.
Qed.

Lemma generate_test_summary_nonempty (test_results : list (TestResult.t F)) :
  test_results <> [] -> exists sm, generate_test_summary test_results = Ret sm.
Proof.
  intros Hne.
  destruct (report_groups_nonempty (group_by_description_nonempty test_results))
    as (gs & Hgs).
  destruct (count_all_nonempty Hne) as (c & Hc).
  unfold generate_test_summary. rewrite Hgs. cbn [bind]. rewrite Hc. cbn [bind].
  destruct (filter _ test_results) as [| s safe_tests];
    [| cbn [py_min_by bind]]; eauto.
Qed.

End Reports.

Section Counts.

Context {F : Type} {HF : Float F}.

Lemma count_all_counted (results : list (TestResult.t F)) :
  results <> [] -> exists c, count_all results = Ret c /\ counted_as results c.
Proof.
  intros Hne.
  assert (Hpos : (0 < Z.of_nat (List.length results))%Z)
    by (destruct results; [congruence | cbn [List.length]; lia]).
  unfold count_all, percentage.
  replace (Z.of_nat (List.length results) =? 0)%Z with false
    by (symmetry; apply Z.eqb_neq; lia).
  cbn [bind]. eexists. split; [reflexivity |].
  pose proof (count_status_total results) as Htotal.
  unfold counted_as.
  cbn [total_count safe_count mild_unsafe_count unsafe_count
       safe_percent mild_unsafe_percent unsafe_percent].
  repeat split; try reflexivity; try exact Htotal; apply count_status_nonneg.
Qed.

Lemma report_groups_counted (grouped : list (string * list (TestResult.t F))) :
  Forall (fun g => snd g <> []) grouped ->
  exists gs, report_groups grouped = Ret gs /\
    Forall2 (fun r g => configuration r = fst g /\ counted_as (snd g) (counts r))
            gs grouped.
Proof.
  induction grouped as [| [d ms] grouped IH]; intros Hall; cbn [report_groups].
  - exists []. split; [reflexivity | constructor].
  - inversion Hall as [| ? ? Hms Hrest]; subst. cbn [snd] in Hms.
    destruct (IH Hrest) as (gs & Hgs & Hall2).
    destruct (count_all_counted Hms) as (c & Hc & Htally).
    destruct (find_optimal_nonempty Hms) as (rec & Hrec).
    unfold report_group. rewrite Hc. cbn [bind]. rewrite Hrec. cbn [bind].
    rewrite Hgs. cbn [bind]. eexists. split; [reflexivity |].
    constructor; [| exact Hall2]. cbn [configuration counts fst snd]. auto.
Qed.

End Counts.

(** X15: for every arithmetic, the report of a list of results that is
    not empty is printed, and its counts add up: overall and for every
    configuration, in the order of the groups, the three counts are those
    of the results with each of the three statuses, none is negative, they
    sum to the number of results, and each percentage is computed as its
    count over that number times 100. *)
Theorem summary_counts_add_up {F : Type} {HF : Float F}
    (test_results : list (TestResult.t F)) :
  test_results <> [] ->
  exists sm,
    generate_test_summary test_results = Ret sm /\
    counted_as test_results (overall sm) /\
    Forall2 (fun r g => configuration r = fst g /\ counted_as (snd g) (counts r))
            (groups sm) (group_by_description test_results).
Proof.
  intros Hne.
  destruct (report_groups_counted (group_by_description_nonempty test_results))
    as (gs & Hgs & Hall2).
  destruct (count_all_counted Hne) as (c & Hc & Htally).
  unfold generate_test_summary. rewrite Hgs. cbn [bind]. rewrite Hc. cbn [bind].
  destruct (filter _ test_results) as [| s safe_tests];
    [| cbn [py_min_by bind]]; eexists; (split; [reflexivity |]);
    cbn [overall groups]; auto.
Qed.

(** Two results on binary64, one of them safe. *)
Lemma summary_counts_add_up_witness :
  exists sm,
    generate_test_summary (F := float)
      [ {| TestResult.test_id := 1; TestResult.barrier_distance := 1%float;
           TestResult.total_frames := 9; TestResult.safe_frames := 9;
           TestResult.mild_unsafe_frames := 0; TestResult.unsafe_frames := 0;
           TestResult.min_distance_observed := Inf;
           TestResult.description := "a" |};
        {| TestResult.test_id := 2; TestResult.barrier_distance := 2%float;
           TestResult.total_frames := 9; TestResult.safe_frames := 5;
           TestResult.mild_unsafe_frames := 0; TestResult.unsafe_frames := 4;
           TestResult.min_distance_observed := Inf;
           TestResult.description := "b" |} ] = Ret sm /\
    (safe_count (overall sm) + mild_unsafe_count (overall sm)
     + unsafe_count (overall sm) = 2)%Z.
Proof.
  destruct (@summary_counts_add_up float _
      [ {| TestResult.test_id := 1; TestResult.barrier_distance := 1%float;
           TestResult.total_frames := 9; TestResult.safe_frames := 9;
           TestResult.mild_unsafe_frames := 0; TestResult.unsafe_frames := 0;
           TestResult.min_distance_observed := Inf;
           TestResult.description := "a" |};
        {| TestResult.test_id := 2; TestResult.barrier_distance := 2%float;
           TestResult.total_frames := 9; TestResult.safe_frames := 5;
           TestResult.mild_unsafe_frames := 0; TestResult.unsafe_frames := 4;
           TestResult.min_distance_observed := Inf;
           TestResult.description := "b" |} ]) as (sm & Hsm & Htally & _).
  - discriminate.
  - exists sm. split; [exact Hsm |].
    destruct Htally as (Htotal & _ & _ & _ & Hsum & _). rewrite Hsum, Htotal. reflexivity.
Defined.

(** ** Batches of well-formed rows *)

Section WellFormedRows.

Context {F : Type} {HF : Float F} {HG : GuardedDivision F}.

Variable float_of_string : string -> option F.

(** The column [key] of the row holds the number [x]. *)
Definition reads (test : Row) (key : string) (x : F) : Prop :=
  exists text, lookup test key = Some text /\ float_of_string text = Some x.

(** [result] is what [run_single_test] answers on the numbers of the row
    [test], the [i]-th of the file counted from 0: its number is [i + 1],
    its speed 0.02 when the row has no speed column, and its description
    "No description" when the row has none. *)
Definition row_result (fuel : nat) (i : nat) (test : Row) (result : TestResult.t F) : Prop :=
  exists start_x start_y end_x end_y obstacle_x obstacle_y barrier_distance speed
         data_collector data_collector',
    reads test "start_x" start_x /\ reads test "start_y" start_y /\
    reads test "end_x" end_x /\ reads test "end_y" end_y /\
    reads test "obstacle_x" obstacle_x /\ reads test "obstacle_y" obstacle_y /\
    reads test "barrier_distance" barrier_distance /\
    match lookup test "speed" with
    | Some text => float_of_string text = Some speed
    | None => speed = lit 0.02
    end /\
    run_single_test fuel (Z.of_nat i + 1) (start_x, start_y) (end_x, end_y)
      [(obstacle_x, obstacle_y)] barrier_distance speed data_collector
      (get test "description" "No description")
    = Ret (result, data_collector').

(* sum(r.total_frames for r in results) *)
Definition frames_of (results : list (TestResult.t F)) : Z :=
  fold_right Z.add 0%Z (map (fun r => TestResult.total_frames r) results).

Lemma frames_of_app (xs ys : list (TestResult.t F)) :
  frames_of (xs ++ ys) = (frames_of xs + frames_of ys)%Z.
Proof.
  unfold frames_of. induction xs as [| x xs IH]; cbn [app map fold_right]; lia.
Qed.

Lemma run_row_well_formed (fuel i : nat) (test : Row) (dc : TestDataCollector.t F) :
  (1000 < fuel)%nat -> well_formed float_of_string test ->
  exists result frames,
    run_row float_of_string fuel i test dc
    = ({| TestDataCollector.test_results := TestDataCollector.test_results dc ++ [result];
          TestDataCollector.current_test_data :=
            TestDataCollector.current_test_data dc ++ frames |}, Ret tt) /\
    row_result fuel i test result /\
    TestResult.total_frames result = Z.of_nat (List.length frames).
Proof.
  intros Hfuel [Hreq Hspeed].
  assert (Hcol : forall k, In k required_columns -> exists x, reads test k x).
  { intros k Hk. destruct (Hreq k Hk) as (text & x & Hl & Hp).
    exists x, text. auto. }
  destruct (Hcol "barrier_distance"%string) as (b & tb & Hlb & Hpb);
    [cbn; tauto |].
  destruct (Hcol "obstacle_x"%string) as (ox & tox & Hlox & Hpox); [cbn; tauto |].
  destruct (Hcol "obstacle_y"%string) as (oy & toy & Hloy & Hpoy); [cbn; tauto |].
  destruct (Hcol "start_x"%string) as (sx & tsx & Hlsx & Hpsx); [cbn; tauto |].
  destruct (Hcol "start_y"%string) as (sy & tsy & Hlsy & Hpsy); [cbn; tauto |].
  destruct (Hcol "end_x"%string) as (ex & tex & Hlex & Hpex); [cbn; tauto |].
  destruct (Hcol "end_y"%string) as (ey & tey & Hley & Hpey); [cbn; tauto |].
  assert (Hspd : exists spd,
    match lookup test "speed" with
    | Some text => parse_float float_of_string text
    | None => Ret (lit 0.02)
    end = Ret spd /\
    match lookup test "speed" with
    | Some text => float_of_string text = Some spd
    | None => spd = lit 0.02
    end).
  { destruct (lookup test "speed") as [text |] eqn:Hs.
    - destruct (Hspeed text eq_refl) as [spd Hp]. exists spd.
      unfold parse_float. rewrite Hp. auto.
    - eauto. }
  destruct Hspd as (spd & Hspd & Hspd').
  destruct (@run_single_test_recorded F HF HG fuel (Z.of_nat i + 1) (sx, sy) (ex, ey)
              [(ox, oy)] b spd dc (get test "description" "No description") Hfuel)
    as (c0 & st & frames & _ & _ & Hrec & Hrun).
  destruct Hrec as (Hres & Hdata & Hcount & _).
  cbn [data_collector frame_count] in Hres, Hdata, Hcount.
  eexists. exists frames. split; [| split].
  - unfold run_row, getitem.
    rewrite Hlb, Hlox, Hloy, Hlsx, Hlsy, Hlex, Hley. cbn [bind].
    unfold parse_float at 1 2 3 4 5 6 7.
    rewrite Hpb, Hpox, Hpoy, Hpsx, Hpsy, Hpex, Hpey. cbn [bind].
    rewrite Hspd. cbn [bind]. rewrite Hrun.
    unfold TestDataCollector.append_result. rewrite Hres, Hdata. reflexivity.
  - exists sx, sy, ex, ey, ox, oy, b, spd, dc, (data_collector st).
    repeat (split; [eexists; split; eassumption |]).
    split; [exact Hspd' | exact Hrun].
  - cbn [TestResult.total_frames]. lia.
Qed.

Lemma run_rows_well_formed (fuel : nat) (tests : list Row) :
  (1000 < fuel)%nat -> Forall (well_formed float_of_string) tests ->
  forall (i : nat) (dc : TestDataCollector.t F),
  exists rs frames,
    run_rows float_of_string fuel i tests dc
    = ({| TestDataCollector.test_results := TestDataCollector.test_results dc ++ rs;
          TestDataCollector.current_test_data :=
            TestDataCollector.current_test_data dc ++ frames |}, Ret tt) /\
    List.length rs = List.length tests /\
    (forall k test, nth_error tests k = Some test ->
       exists result, nth_error rs k = Some result /\
                      row_result fuel (i + k) test result) /\
    frames_of rs = Z.of_nat (List.length frames).
Proof.
  intros Hfuel Hall. induction Hall as [| test tests Hwf Hall IH]; intros i dc.
  - exists [], []. cbn [run_rows]. rewrite !app_nil_r. destruct dc. cbn.
    split; [reflexivity |]. split; [reflexivity |]. split; [| reflexivity].
    intros [| k] test Hk; discriminate.
  - destruct (run_row_well_formed i dc Hfuel Hwf) as (r & fr & Hrow & Hr & Hfr).
    cbn [run_rows]. rewrite Hrow.
    match goal with
    | |- context [run_rows _ _ _ _ ?dc1] =>
        destruct (IH (S i) dc1) as (rs & frames & Hrows & Hlen & Hnth & Hsum)
    end.
    rewrite Hrows.
    cbn [TestDataCollector.test_results TestDataCollector.current_test_data].
    exists (r :: rs), (fr ++ frames). rewrite <- !app_assoc. cbn [app].
    split; [reflexivity |]. split; [cbn [List.length]; lia |]. split.
    + intros [| k] row Hk; cbn [nth_error] in *.
      * injection Hk as <-. exists r. rewrite Nat.add_0_r. auto.
      * destruct (Hnth k row Hk) as (result & Hres & Hrr).
        exists result. split; [exact Hres |].
        replace (i + S k)%nat with (S i + k)%nat by lia. exact Hrr.
    + change (r :: rs) with ([r] ++ rs). rewrite frames_of_app, Hsum, length_app.
      unfold frames_of. cbn [map fold_right]. lia.
Qed.

End WellFormedRows.

Lemma lookup_absent (test : Row) (k : string) :
  ~ In k (map fst test) -> lookup test k = None.
Proof.
  induction test as [| [k0 v] test IH]; intros Hk; cbn [lookup]; [reflexivity |].
  destruct (String.eqb k0 k) eqn:E.
  - apply String.eqb_eq in E. exfalso. apply Hk. left. exact E.
  - apply IH. intros H. apply Hk. now right.
Qed.

(** X16: a batch read from a file none of whose lines is shorter than the
    header, with at least one row, every row with its seven columns
    holding numbers (and a number in the speed column when the file has
    one), runs through the report with fuel for the 1000 frames of a test:
    no exception is caught, the results and the frame records are handed
    to the two files, the report is printed, and there is one result per
    row in the order of the file, which is what [run_single_test] answers
    on the numbers of the row, with speed 0.02 when the file has no speed
    column and the description "No description" when it has no description
    column.  The frame records handed to the detailed file are as many as
    the results have frames together. *)
Theorem batch_of_full_rows_completes
    {F : Type} {HF : Float F} {HG : GuardedDivision F}
    (float_of_string : string -> option F) (fuel : nat) (header : list string)
    (test : Row) (tests : list Row) :
  (1000 < fuel)%nat -> full_rows header (test :: tests) ->
  Forall (well_formed float_of_string) (test :: tests) ->
  exists run sm frames,
    run_tests_from_csv float_of_string fuel (test :: tests) = Ret run /\
    error run = None /\ summary run = Some sm /\
    saved run = Some (results run, frames) /\
    List.length (results run) = List.length (test :: tests) /\
    (forall k row, nth_error (test :: tests) k = Some row ->
       exists result, nth_error (results run) k = Some result /\
                      row_result float_of_string fuel k row result) /\
    frames_of (results run) = Z.of_nat (List.length frames).
Proof.
  intros Hfuel _ Hall.
  destruct (run_rows_well_formed Hfuel Hall 0 TestDataCollector.init)
    as (rs & frames & Hrows & Hlen & Hnth & Hsum).
  cbn [TestDataCollector.init TestDataCollector.test_results
       TestDataCollector.current_test_data app] in Hrows.
  assert (Hne : rs <> []) by (destruct rs; [discriminate Hlen | discriminate]).
  destruct (generate_test_summary_nonempty Hne) as (sm & Hsm).
  unfold run_tests_from_csv. rewrite Hrows.
  cbn [TestDataCollector.test_results TestDataCollector.current_test_data].
  rewrite Hsm. eexists. exists sm, frames. split; [reflexivity |].
  cbn [error summary saved results]. repeat split; auto.
Qed.

(** Two rows of a file without speed and description columns, on
    binary64. *)
Lemma batch_of_full_rows_completes_witness :
  exists run,
    run_tests_from_csv read_float 1001
      [ [ ("start_x", "0"); ("start_y", "0"); ("end_x", "10"); ("end_y", "8");
          ("obstacle_x", "5"); ("obstacle_y", "4");
          ("barrier_distance", "1.5") ]%string;
        [ ("start_x", "0"); ("start_y", "0"); ("end_x", "10"); ("end_y", "8");
          ("obstacle_x", "5"); ("obstacle_y", "4");
          ("barrier_distance", "2") ]%string ] = Ret run /\
    error run = None /\ List.length (results run) = 2%nat.
Proof.
  destruct (@batch_of_full_rows_completes float _ _ read_float 1001
              ["start_x"; "start_y"; "end_x"; "end_y"; "obstacle_x"; "obstacle_y";
               "barrier_distance"]%string
              [ ("start_x", "0"); ("start_y", "0"); ("end_x", "10"); ("end_y", "8");
                ("obstacle_x", "5"); ("obstacle_y", "4");
                ("barrier_distance", "1.5") ]%string
              [ [ ("start_x", "0"); ("start_y", "0"); ("end_x", "10"); ("end_y", "8");
                  ("obstacle_x", "5"); ("obstacle_y", "4");
                  ("barrier_distance", "2") ]%string ])
    as (run & sm & frames & Hrun & Herr & _ & _ & Hlen & _).
  - lia.
  - split.
    + repeat (constructor; [cbn; intuition discriminate |]). constructor.
    + repeat constructor.
  - assert (Hcols : forall row : Row,
              Forall (fun k => exists text x,
                        lookup row k = Some text /\ read_float text = Some x)
                     required_columns ->
              forall k, In k required_columns ->
                exists text x, lookup row k = Some text /\ read_float text = Some x)
      by (intros row Hrow; now apply Forall_forall).
    constructor; [| constructor; [| constructor]]; split.
    + apply Hcols. repeat constructor; eexists; eexists; split; reflexivity.
    + intros text Ht. discriminate Ht.
    + apply Hcols. repeat constructor; eexists; eexists; split; reflexivity.
    + intros text Ht. discriminate Ht.
  - exists run. auto.
Defined.

(** ** Files that lack a column *)

Lemma run_row_without_column {F : Type} {HF : Float F}
    (float_of_string : string -> option F) (fuel i : nat) (test : Row)
    (dc : TestDataCollector.t F) (k : string) :
  In k required_columns -> lookup test k = None ->
  exists e,
    run_row float_of_string fuel i test dc = (dc, Raise e) /\
    (e = KeyError \/ e = ValueError) /\
    (In k ["barrier_distance"; "obstacle_x"; "obstacle_y"]%string -> e = KeyError).
Proof.
  intros Hk Hnone. unfold run_row, getitem, parse_float.
  repeat match goal with
  | |- context [match lookup test ?key with _ => _ end] =>
      destruct (lookup test key) eqn:?; cbn [bind]
  | |- context [match float_of_string ?text with _ => _ end] =>
      destruct (float_of_string text) eqn:?; cbn [bind]
  end;
  try (eexists; split; [reflexivity |]; split; [auto |];
       intros Hin; try reflexivity; exfalso; cbn [In] in Hin;
       repeat (destruct Hin as [<- | Hin]; [congruence |]); destruct Hin);
  exfalso; unfold required_columns in Hk; cbn [In] in Hk;
  repeat (destruct Hk as [<- | Hk]; [congruence |]); destruct Hk.
Qed.

(** X17: a file whose header lacks one of the seven columns read, and
    none of whose lines is shorter than the header, runs no test: the
    first row ends the batch in an exception, with no result, nothing
    saved and no report.  The exception is a [KeyError], or the
    [ValueError] of a column read before the missing one; it is the
    [KeyError] when the missing column is one of the three printed first. *)
Theorem file_without_column_runs_nothing {F : Type} {HF : Float F}
    (float_of_string : string -> option F) (fuel : nat) (header : list string)
    (test : Row) (tests : list Row) (k : string) :
  full_rows header (test :: tests) -> In k required_columns -> ~ In k header ->
  exists e,
    run_tests_from_csv float_of_string fuel (test :: tests)
    = Ret {| results := []; saved := None; summary := None; error := Some e |} /\
    (e = KeyError \/ e = ValueError) /\
    (In k ["barrier_distance"; "obstacle_x"; "obstacle_y"]%string -> e = KeyError).
Proof.
  intros [_ Hrows] Hk Hno.
  apply Forall_inv in Hrows. rename Hrows into Htest.
  destruct (@run_row_without_column F HF float_of_string fuel 0 test
              TestDataCollector.init k Hk) as (e & Hrow & He & Hkey).
  { apply lookup_absent. now rewrite Htest. }
  exists e. split; [| split; assumption].
  unfold run_tests_from_csv. cbn [run_rows]. rewrite Hrow. reflexivity.
Qed.

(** A file without the [end_y] column, on binary64. *)
Lemma file_without_column_runs_nothing_witness :
  exists e,
    run_tests_from_csv read_float 1001
      [ [ ("test_id", "1"); ("start_x", "0"); ("start_y", "0"); ("end_x", "10");
          ("obstacle_x", "5"); ("obstacle_y", "4"); ("barrier_distance", "1.5");
          ("speed", "0.02") ]%string ]
    = Ret {| results := []; saved := None; summary := None; error := Some e |} /\
    (e = KeyError \/ e = ValueError).
Proof.
  destruct (@file_without_column_runs_nothing float _ read_float 1001
      ["test_id"; "start_x"; "start_y"; "end_x"; "obstacle_x"; "obstacle_y";
       "barrier_distance"; "speed"]%string
      [ ("test_id", "1"); ("start_x", "0"); ("start_y", "0"); ("end_x", "10");
        ("obstacle_x", "5"); ("obstacle_y", "4"); ("barrier_distance", "1.5");
        ("speed", "0.02") ]%string [] "end_y")
    as (e & Hrun & He & _).
  - split.
    + repeat (constructor; [cbn; intuition discriminate |]). constructor.
    + repeat constructor.
  - cbn. tauto.
  - cbn. intuition discriminate.
  - exists e. auto.
Defined.
